(** * Inventory-and-accounting consistency engine

    A shallow embedding of the stock engine of the retail application:
    [server/storage.ts] (class [DatabaseStorage]), the product-creation
    handler of [server/routes.ts] and [calculateTotals] of
    [client/src/components/create-return-dialog.tsx].

    - A relational table is a [list] of rows in insertion order; the
      drizzle calls [select/insert/update/delete ... where] become
      [filter], append, [map] and [filter].
    - Asynchronous methods run one after the other inside one request, so
      they are computations in a state monad over the [World]: the
      database together with the source of generated identifiers
      ([randomUUID], [nanoid], [Date.now]).
    - Integer columns are [Z]; JavaScript numbers obtained from
      [parseFloat] are IEEE-754 binary64 values ([spec_float] with
      [prec = 53] and [emax = 1024]).
    - Columns the engine never reads (brand, colour, images, timestamps,
      ...) are left out of the rows. *)

From Stdlib Require Import ZArith List String Ascii Bool Lia DecimalString.
From Stdlib Require Import Sorting.Sorted Sorting.Permutation.
From Stdlib Require Import Floats.SpecFloat.
Import ListNotations.

Local Open Scope string_scope.
Local Open Scope Z_scope.

(* ================================================================== *)
(** ** Rows ([shared/schema.ts]) *)
(* ================================================================== *)

Module Product.
Record t := mk
    { id : string;
      productName : string;
      sku : string;
      category : string;
      price : string;
      costPrice : option string;
      stockQuantity : Z }.

Definition with_stockQuantity (p : t) (q : Z) : t :=
    mk (id p) (productName p) (sku p) (category p) (price p) (costPrice p) q.
End Product.

(** [InsertProduct]: the parsed request body, a product without its id. *)
Module InsertProduct.
Record t := mk
    { productName : string;
      sku : string;
      category : string;
      price : string;
      costPrice : option string;
      stockQuantity : Z }.

Definition with_id (i : t) (id : string) : Product.t :=
    Product.mk id (productName i) (sku i) (category i) (price i)
               (costPrice i) (stockQuantity i).
End InsertProduct.

Module Order.
Record t := mk
    { id : string;
      orderNumber : string;
      customerName : string;
      customerEmail : option string;
      totalAmount : string }.
End Order.

Module InsertOrder.
Record t := mk
    { customerName : string;
      customerEmail : option string;
      totalAmount : string }.
End InsertOrder.

Module OrderItem.
Record t := mk
    { id : string;
      orderId : string;
      productId : string;
      productName : string;
      sku : string;
      quantity : Z;
      unitPrice : string;
      subtotal : string }.
End OrderItem.

Module InsertOrderItem.
Record t := mk
    { productId : string;
      productName : string;
      sku : string;
      quantity : Z;
      unitPrice : string;
      subtotal : string }.
End InsertOrderItem.

(** The [type] column of a stock movement: [z.enum(["in","out","adjustment"])]. *)
Inductive MovementType := In_ | Out | Adjustment.

Module StockMovement.
Record t := mk
    { id : string;
      productId : string;
      productName : string;
      sku : string;
      type : MovementType;
      quantity : Z;
      reason : string;
      notes : option string }.
End StockMovement.

Module InsertStockMovement.
Record t := mk
    { productId : string;
      productName : string;
      sku : string;
      type : MovementType;
      quantity : Z;
      reason : string;
      notes : option string }.
End InsertStockMovement.

Module StockStats.
Record t := mk
    { id : string;
      productId : string;
      productName : string;
      sku : string;
      category : string;
      available : Z;
      sold : Z;
      returned : Z;
      purchased : Z }.
End StockStats.

(** [Partial<StockStats>] as [updateStockStats] receives it: the counters
    that the callers of this file set. *)
Module StatsUpdate.
Record t := mk
    { available : option Z;
      sold : option Z;
      returned : option Z;
      purchased : option Z }.

Definition merge (u : t) (r : StockStats.t) : StockStats.t :=
    StockStats.mk (StockStats.id r) (StockStats.productId r)
      (StockStats.productName r) (StockStats.sku r) (StockStats.category r)
      (match available u with Some v => v | None => StockStats.available r end)
      (match sold u with Some v => v | None => StockStats.sold r end)
      (match returned u with Some v => v | None => StockStats.returned r end)
      (match purchased u with Some v => v | None => StockStats.purchased r end).
End StatsUpdate.

Module Return.
Record t := mk
    { id : string;
      returnNumber : string;
      orderId : string;
      customerEmail : option string;
      refundAmount : option string;
      creditAmount : option string;
      exchangeValue : option string;
      additionalPayment : option string }.
End Return.

Module InsertReturn.
Record t := mk
    { orderId : string;
      customerEmail : option string;
      refundAmount : option string;
      creditAmount : option string;
      exchangeValue : option string;
      additionalPayment : option string }.
End InsertReturn.

Module ReturnItem.
Record t := mk
    { id : string;
      returnId : string;
      productId : string;
      productName : string;
      sku : string;
      quantity : Z;
      unitPrice : string;
      subtotal : string;
      exchangeProductId : option string;
      exchangeProductName : option string }.
End ReturnItem.

Module InsertReturnItem.
Record t := mk
    { productId : string;
      productName : string;
      sku : string;
      quantity : Z;
      unitPrice : string;
      subtotal : string;
      exchangeProductId : option string;
      exchangeProductName : option string }.
End InsertReturnItem.

Module DiscountCode.
Record t := mk
    { id : string;
      code : string;
      customerEmail : string;
      amount : string;
      isUsed : bool }.

Definition with_amount (d : t) (a : string) : t :=
    mk (id d) (code d) (customerEmail d) a (isUsed d).
End DiscountCode.

Module Account.
Record t := mk
    { id : string;
      transactionType : string;
      referenceId : string;
      referenceNumber : string;
      revenue : string;
      cost : string;
      profit : string;
      productId : string;
      productName : string;
      category : string;
      quantity : Z;
      notes : string;
      fiscalYear : Z;
      fiscalMonth : Z;
      fiscalQuarter : Z }.
End Account.

(* ================================================================== *)
(** ** The database and the request monad *)
(* ================================================================== *)

Record DB := mkDB
  { products : list Product.t;
    orders : list Order.t;
    orderItems : list OrderItem.t;
    stockMovements : list StockMovement.t;
    stockStats : list StockStats.t;
    returns : list Return.t;
    returnItems : list ReturnItem.t;
    discountCodes : list DiscountCode.t;
    accounts : list Account.t }.

Definition set_products (f : list Product.t -> list Product.t) (d : DB) : DB :=
  mkDB (f (products d)) (orders d) (orderItems d) (stockMovements d)
       (stockStats d) (returns d) (returnItems d) (discountCodes d) (accounts d).
Definition set_orders (f : list Order.t -> list Order.t) (d : DB) : DB :=
  mkDB (products d) (f (orders d)) (orderItems d) (stockMovements d)
       (stockStats d) (returns d) (returnItems d) (discountCodes d) (accounts d).
Definition set_orderItems (f : list OrderItem.t -> list OrderItem.t) (d : DB) : DB :=
  mkDB (products d) (orders d) (f (orderItems d)) (stockMovements d)
       (stockStats d) (returns d) (returnItems d) (discountCodes d) (accounts d).
Definition set_stockMovements
  (f : list StockMovement.t -> list StockMovement.t) (d : DB) : DB :=
  mkDB (products d) (orders d) (orderItems d) (f (stockMovements d))
       (stockStats d) (returns d) (returnItems d) (discountCodes d) (accounts d).
Definition set_stockStats (f : list StockStats.t -> list StockStats.t) (d : DB) : DB :=
  mkDB (products d) (orders d) (orderItems d) (stockMovements d)
       (f (stockStats d)) (returns d) (returnItems d) (discountCodes d) (accounts d).
Definition set_returns (f : list Return.t -> list Return.t) (d : DB) : DB :=
  mkDB (products d) (orders d) (orderItems d) (stockMovements d)
       (stockStats d) (f (returns d)) (returnItems d) (discountCodes d) (accounts d).
Definition set_returnItems (f : list ReturnItem.t -> list ReturnItem.t) (d : DB) : DB :=
  mkDB (products d) (orders d) (orderItems d) (stockMovements d)
       (stockStats d) (returns d) (f (returnItems d)) (discountCodes d) (accounts d).
Definition set_discountCodes
  (f : list DiscountCode.t -> list DiscountCode.t) (d : DB) : DB :=
  mkDB (products d) (orders d) (orderItems d) (stockMovements d)
       (stockStats d) (returns d) (returnItems d) (f (discountCodes d)) (accounts d).
Definition set_accounts (f : list Account.t -> list Account.t) (d : DB) : DB :=
  mkDB (products d) (orders d) (orderItems d) (stockMovements d)
       (stockStats d) (returns d) (returnItems d) (discountCodes d) (f (accounts d)).

(** The world of one request: the database, the generator behind
    [randomUUID()], [nanoid()], [Date.now()] and [Math.random()] (an
    unknown function of the number of draws so far), and the calendar
    date read by [new Date()]. *)
Record World := mkWorld
  { db : DB;
    entropy : nat -> string;
    draws : nat;
    year : Z;
    month : Z }.

Definition M (A : Type) : Type := World -> A * World.

Definition ret {A} (a : A) : M A := fun w => (a, w).
Definition bind {A B} (m : M A) (k : A -> M B) : M B :=
  fun w => let (a, w') := m w in k a w'.

Declare Scope monad_scope.
Delimit Scope monad_scope with monad.
Notation "x <- m ;; k" := (bind m (fun x => k))
  (at level 61, m at next level, right associativity) : monad_scope.
Notation "m ;; k" := (bind m (fun _ => k))
  (at level 61, right associativity) : monad_scope.
Local Open Scope monad_scope.

Definition gets {A} (f : DB -> A) : M A := fun w => (f (db w), w).
Definition modify (f : DB -> DB) : M unit :=
  fun w => (tt, mkWorld (f (db w)) (entropy w) (draws w) (year w) (month w)).
Definition draw : M string :=
  fun w => (entropy w (draws w),
            mkWorld (db w) (entropy w) (S (draws w)) (year w) (month w)).
Definition today : M (Z * Z) := fun w => ((year w, month w), w).

Definition randomUUID : M string := draw.
Definition nanoid : M string := draw.

(** [for (const x of xs) { ... push(body x) }] *)
Fixpoint for_of {A B} (xs : list A) (body : A -> M B) : M (list B) :=
  match xs with
  | [] => ret []
  | x :: rest => b <- body x ;; bs <- for_of rest body ;; ret (b :: bs)
  end.

(** drizzle queries on one table *)
Definition select_where {A} (c : A -> bool) (t : list A) : list A := filter c t.
Definition insert_values {A} (r : A) (t : list A) : list A := t ++ [r].
Definition update_where {A} (c : A -> bool) (set : A -> A) (t : list A) : list A :=
  map (fun r => if c r then set r else r) t.
Definition delete_where {A} (c : A -> bool) (t : list A) : list A :=
  filter (fun r => negb (c r)) t.

(** [result[0]] of a query result, [None] for [undefined]. *)
Definition first {A} (t : list A) : option A :=
  match t with [] => None | r :: _ => Some r end.

(** [result[0]] right after the row was inserted: the query cannot be
    empty, and [row] stands for the impossible [undefined]. *)
Definition first_inserted {A} (row : A) (t : list A) : A := hd row t.

(* ================================================================== *)
(** ** [server/storage.ts]: class [DatabaseStorage] *)
(* ================================================================== *)

(** *** Products *)

(** The [where(eq(products.id, id))] and [where(eq(stockStats.productId, id))]
    conditions. *)
Definition idIs (id : string) (p : Product.t) : bool :=
  String.eqb (Product.id p) id.
Definition statsOf (productId : string) (s : StockStats.t) : bool :=
  String.eqb (StockStats.productId s) productId.


Definition getProduct (id : string) : M (option Product.t) :=
  result <- gets (fun d =>
    select_where (idIs id) (products d)) ;;
  ret (first result).

Definition getProductBySKU (sku : string) : M (option Product.t) :=
  result <- gets (fun d =>
    select_where (fun p => String.eqb (Product.sku p) sku) (products d)) ;;
  ret (first result).

(** [updateProduct(id, {...product, stockQuantity: q})]: the spread carries
    every column of the fetched row, its id included, so [set] overwrites
    the whole row. *)
Definition updateProduct (id : string) (productData : Product.t)
  : M (option Product.t) :=
  modify (set_products
    (update_where (idIs id) (fun _ => productData))) ;;
  result <- gets (fun d =>
    select_where (idIs id) (products d)) ;;
  ret (first result).

(** *** Stock statistics *)

Definition getStockStatsByProduct (productId : string)
  : M (option StockStats.t) :=
  result <- gets (fun d =>
    select_where (statsOf productId) (stockStats d)) ;;
  ret (first result).

Definition updateStockStats (productId : string) (updates : StatsUpdate.t)
  : M (option StockStats.t) :=
  modify (set_stockStats
    (update_where (statsOf productId) (StatsUpdate.merge updates))) ;;
  result <- gets (fun d =>
    select_where (statsOf productId) (stockStats d)) ;;
  ret (first result).

Definition initializeStockStats (product : Product.t) : M StockStats.t :=
  id <- randomUUID ;;
  let row :=
    StockStats.mk id (Product.id product) (Product.productName product)
      (Product.sku product) (Product.category product)
      (Product.stockQuantity product) 0 0
      (Product.stockQuantity product) in
  modify (set_stockStats (insert_values row)) ;;
  statsResult <- gets (fun d =>
    select_where (fun s => String.eqb (StockStats.id s) id) (stockStats d)) ;;
  ret (first_inserted row statsResult).

Definition createProduct (insertProduct : InsertProduct.t) : M Product.t :=
  id <- randomUUID ;;
  let row := InsertProduct.with_id insertProduct id in
  modify (set_products (insert_values row)) ;;
  result <- gets (fun d =>
    select_where (idIs id) (products d)) ;;
  let createdProduct := first_inserted row result in
  initializeStockStats createdProduct ;;
  ret createdProduct.

(** *** Stock movements *)

Definition createStockMovement (insertMovement : InsertStockMovement.t)
  : M StockMovement.t :=
  id <- randomUUID ;;
  let row :=
    StockMovement.mk id
      (InsertStockMovement.productId insertMovement)
      (InsertStockMovement.productName insertMovement)
      (InsertStockMovement.sku insertMovement)
      (InsertStockMovement.type insertMovement)
      (InsertStockMovement.quantity insertMovement)
      (InsertStockMovement.reason insertMovement)
      (InsertStockMovement.notes insertMovement) in
  modify (set_stockMovements (insert_values row)) ;;
  movementResult <- gets (fun d =>
    select_where (fun m => String.eqb (StockMovement.id m) id)
                 (stockMovements d)) ;;
  let movement := first_inserted row movementResult in
  product <- getProduct (InsertStockMovement.productId insertMovement) ;;
  match product with
  | Some product =>
      let newQuantity :=
        match InsertStockMovement.type insertMovement with
        | In_ => Product.stockQuantity product
                 + InsertStockMovement.quantity insertMovement
        | Out => Product.stockQuantity product
                 - InsertStockMovement.quantity insertMovement
        | Adjustment => InsertStockMovement.quantity insertMovement
        end in
      let finalQuantity := Z.max 0 newQuantity in
      updateProduct (InsertStockMovement.productId insertMovement)
        (Product.with_stockQuantity product finalQuantity) ;;
      stats <- getStockStatsByProduct
                 (InsertStockMovement.productId insertMovement) ;;
      match stats with
      | Some stats =>
          if String.eqb (InsertStockMovement.reason insertMovement) "purchase"
          then
            updateStockStats (InsertStockMovement.productId insertMovement)
              (StatsUpdate.mk (Some finalQuantity) None None
                 (Some (StockStats.purchased stats
                        + InsertStockMovement.quantity insertMovement))) ;;
            ret movement
          else
            updateStockStats (InsertStockMovement.productId insertMovement)
              (StatsUpdate.mk (Some finalQuantity) None None None) ;;
            ret movement
      | None => ret movement
      end
  | None => ret movement
  end.

(** *** Orders *)

Definition createOrder_item (id orderNumber : string)
  (item : InsertOrderItem.t) : M OrderItem.t :=
  itemId <- randomUUID ;;
  let row :=
    OrderItem.mk itemId id
      (InsertOrderItem.productId item) (InsertOrderItem.productName item)
      (InsertOrderItem.sku item) (InsertOrderItem.quantity item)
      (InsertOrderItem.unitPrice item) (InsertOrderItem.subtotal item) in
  modify (set_orderItems (insert_values row)) ;;
  orderItemResult <- gets (fun d =>
    select_where (fun i => String.eqb (OrderItem.id i) itemId) (orderItems d)) ;;
  let created := first_inserted row orderItemResult in
  product <- getProduct (InsertOrderItem.productId item) ;;
  match product with
  | Some product =>
      let newStockQuantity :=
        Product.stockQuantity product - InsertOrderItem.quantity item in
      updateProduct (InsertOrderItem.productId item)
        (Product.with_stockQuantity product newStockQuantity) ;;
      createStockMovement
        (InsertStockMovement.mk
           (InsertOrderItem.productId item) (InsertOrderItem.productName item)
           (InsertOrderItem.sku item) Out (InsertOrderItem.quantity item)
           "sale" (Some ("Order " ++ orderNumber))) ;;
      stats <- getStockStatsByProduct (InsertOrderItem.productId item) ;;
      match stats with
      | Some stats =>
          updateStockStats (InsertOrderItem.productId item)
            (StatsUpdate.mk (Some (Z.max 0 newStockQuantity))
               (Some (StockStats.sold stats + InsertOrderItem.quantity item))
               None None) ;;
          ret created
      | None => ret created
      end
  | None => ret created
  end.

Definition createOrder (orderData : InsertOrder.t)
  (items : list InsertOrderItem.t) : M (Order.t * list OrderItem.t) :=
  id <- randomUUID ;;
  now <- draw ;;
  let orderNumber := "ORD-" ++ now in
  let row :=
    Order.mk id orderNumber (InsertOrder.customerName orderData)
      (InsertOrder.customerEmail orderData)
      (InsertOrder.totalAmount orderData) in
  modify (set_orders (insert_values row)) ;;
  orderResult <- gets (fun d =>
    select_where (fun o => String.eqb (Order.id o) id) (orders d)) ;;
  let order := first_inserted row orderResult in
  createdItems <- for_of items (createOrder_item id orderNumber) ;;
  ret (order, createdItems).

(** *** Returns *)

Definition createReturn_item (returnId returnNumber : string)
  (item : InsertReturnItem.t) : M ReturnItem.t :=
  itemId <- randomUUID ;;
  let row :=
    ReturnItem.mk itemId returnId
      (InsertReturnItem.productId item) (InsertReturnItem.productName item)
      (InsertReturnItem.sku item) (InsertReturnItem.quantity item)
      (InsertReturnItem.unitPrice item) (InsertReturnItem.subtotal item)
      (InsertReturnItem.exchangeProductId item)
      (InsertReturnItem.exchangeProductName item) in
  modify (set_returnItems (insert_values row)) ;;
  returnItemResult <- gets (fun d =>
    select_where (fun i => String.eqb (ReturnItem.id i) itemId) (returnItems d)) ;;
  let created := first_inserted row returnItemResult in
  product <- getProduct (InsertReturnItem.productId item) ;;
  match product with
  | Some product =>
      updateProduct (InsertReturnItem.productId item)
        (Product.with_stockQuantity product
           (Product.stockQuantity product + InsertReturnItem.quantity item)) ;;
      stats <- getStockStatsByProduct (InsertReturnItem.productId item) ;;
      match stats with
      | Some stats =>
          updateStockStats (InsertReturnItem.productId item)
            (StatsUpdate.mk
               (Some (Product.stockQuantity product
                      + InsertReturnItem.quantity item))
               None
               (Some (StockStats.returned stats
                      + InsertReturnItem.quantity item))
               None) ;;
          ret tt
      | None => ret tt
      end
  | None => ret tt
  end ;;
  createStockMovement
    (InsertStockMovement.mk
       (InsertReturnItem.productId item) (InsertReturnItem.productName item)
       (InsertReturnItem.sku item) In_ (InsertReturnItem.quantity item)
       "return" (Some ("Return " ++ returnNumber))) ;;
  ret created.

Definition createReturn (data : InsertReturn.t)
  (items : list InsertReturnItem.t) : M (Return.t * list ReturnItem.t) :=
  returnId <- randomUUID ;;
  now <- draw ;;
  rnd <- draw ;;
  let returnNumber := "RET-" ++ now ++ "-" ++ rnd in
  let row :=
    Return.mk returnId returnNumber (InsertReturn.orderId data)
      (InsertReturn.customerEmail data) (InsertReturn.refundAmount data)
      (InsertReturn.creditAmount data) (InsertReturn.exchangeValue data)
      (InsertReturn.additionalPayment data) in
  modify (set_returns (insert_values row)) ;;
  returnResult <- gets (fun d =>
    select_where (fun r => String.eqb (Return.id r) returnId) (returns d)) ;;
  let newReturn := first_inserted row returnResult in
  createdItems <- for_of items (createReturn_item returnId returnNumber) ;;
  ret (newReturn, createdItems).

(** *** Query shorthands used in the statements *)

Definition productById (id : string) (d : DB) : option Product.t :=
  first (select_where (idIs id) (products d)).

Definition statsByProduct (productId : string) (d : DB) : option StockStats.t :=
  first (select_where (statsOf productId) (stockStats d)).

(** The quantity [createStockMovement] computes before clamping. *)
Definition newQuantity (ty : MovementType) (stock quantity : Z) : Z :=
  match ty with
  | In_ => stock + quantity
  | Out => stock - quantity
  | Adjustment => quantity
  end.

Definition movementRow (id : string) (im : InsertStockMovement.t) : StockMovement.t :=
  StockMovement.mk id
    (InsertStockMovement.productId im) (InsertStockMovement.productName im)
    (InsertStockMovement.sku im) (InsertStockMovement.type im)
    (InsertStockMovement.quantity im) (InsertStockMovement.reason im)
    (InsertStockMovement.notes im).


(* ================================================================== *)
(** ** Sequences of stock operations *)
(* ================================================================== *)

(** The three stock-mutating entry points of the storage layer. *)
Inductive StockOp :=
| Sale (orderData : InsertOrder.t) (items : list InsertOrderItem.t)
| ReturnIntake (data : InsertReturn.t) (items : list InsertReturnItem.t)
| ManualMovement (movement : InsertStockMovement.t).

Definition applyOp (op : StockOp) : M unit :=
  match op with
  | Sale orderData items => createOrder orderData items ;; ret tt
  | ReturnIntake data items => createReturn data items ;; ret tt
  | ManualMovement movement => createStockMovement movement ;; ret tt
  end.

Fixpoint runOps (ops : list StockOp) (w : World) : World :=
  match ops with
  | [] => w
  | op :: rest => runOps rest (snd (applyOp op w))
  end.

(** Every product row has a stock quantity of at least zero. *)
Definition stockNonNegative (d : DB) : bool :=
  forallb (fun p => 0 <=? Product.stockQuantity p) (products d).

(** The operation is applied to the product [pid]: one of its lines, or
    the movement itself, names that product. *)
Definition appliedTo (pid : string) (op : StockOp) : bool :=
  match op with
  | Sale _ items =>
      existsb (fun i => String.eqb (InsertOrderItem.productId i) pid) items
  | ReturnIntake _ items =>
      existsb (fun i => String.eqb (InsertReturnItem.productId i) pid) items
  | ManualMovement m => String.eqb (InsertStockMovement.productId m) pid
  end.

(** Every row of the product [pid] has a stock quantity of at least zero. *)
Definition stockNonNegativeOf (pid : string) (d : DB) : Prop :=
  forall r, In r (products d) -> Product.id r = pid ->
            0 <= Product.stockQuantity r.

(** What every stock operation does to the product table: nothing, or
    it overwrites the rows of one product with a clamped row. *)
Definition clampsOneProduct (t t' : list Product.t) (pid : string) : Prop :=
  t' = t
  \/ exists p q, Product.id p = pid
       /\ t' = update_where (idIs pid)
                 (fun _ => Product.with_stockQuantity p (Z.max 0 q)) t.

(* ================================================================== *)
(** ** Sample data for the executable examples *)
(* ================================================================== *)

Module Sample.

Definition entropy (n : nat) : string :=
  "id-" ++ NilEmpty.string_of_uint (Nat.to_uint n).

Definition shirt (stock : Z) : Product.t :=
  Product.mk "p1" "Shirt" "SKU-1" "tops" "50.00" (Some "30.00") stock.

Definition shirtStats (stock : Z) : StockStats.t :=
  StockStats.mk "s1" "p1" "Shirt" "SKU-1" "tops" stock 0 0 stock.

Definition emptyDB : DB := mkDB [] [] [] [] [] [] [] [] [].

(** A shop with one product holding [stock] units, as [createProduct]
    leaves it. *)
Definition shop (stock : Z) : World :=
  mkWorld (mkDB [shirt stock] [] [] [] [shirtStats stock] [] [] [] [])
          entropy 0 2025 6.

Definition order : InsertOrder.t := InsertOrder.mk "Ann" None "150.00".

Definition orderLine (q : Z) : InsertOrderItem.t :=
  InsertOrderItem.mk "p1" "Shirt" "SKU-1" q "50.00" "150.00".

Definition returnData : InsertReturn.t :=
  InsertReturn.mk "o1" None (Some "100.00") (Some "0") (Some "0") (Some "0").

Definition returnLine (q : Z) : InsertReturnItem.t :=
  InsertReturnItem.mk "p1" "Shirt" "SKU-1" q "50.00" "100.00" None None.

Definition movement (ty : MovementType) (q : Z) (reason : string)
  : InsertStockMovement.t :=
  InsertStockMovement.mk "p1" "Shirt" "SKU-1" ty q reason None.

End Sample.

(* ================================================================== *)
(** ** JavaScript numbers *)
(* ================================================================== *)

(** A JavaScript [number] is an IEEE-754 binary64 value.  The arithmetic
    and the comparisons are the Standard Library's executable
    specification of IEEE-754 at [prec = 53], [emax = 1024]. *)
Module JS.

Definition prec : Z := 53.
Definition emax : Z := 1024.

Definition number : Type := spec_float.

Definition zero : number := S754_zero false.
Definition NaN : number := S754_nan.

Definition add (x y : number) : number := SFadd prec emax x y.
Definition sub (x y : number) : number := SFsub prec emax x y.
Definition mul (x y : number) : number := SFmul prec emax x y.
Definition div (x y : number) : number := SFdiv prec emax x y.
Definition abs (x : number) : number := SFabs x.

(** [x < y], [x <= y], [x > y], [x === y] and [isNaN(x)] *)
Definition lt (x y : number) : bool := SFltb x y.
Definition le (x y : number) : bool := SFleb x y.
Definition gt (x y : number) : bool := SFltb y x.
Definition eq (x y : number) : bool := SFeqb x y.
Definition isNaN (x : number) : bool :=
  match x with S754_nan => true | _ => false end.

(** The sign given to the rounding functions only labels the result. *)
Definition withSign (s : bool) (x : spec_float) : spec_float :=
  match x with
  | S754_zero _ => S754_zero s
  | S754_infinity _ => S754_infinity s
  | S754_nan => S754_nan
  | S754_finite _ m e => S754_finite s m e
  end.

(** An integer-valued number, such as a quantity read from an integer
    column: the integer rounded to the nearest binary64. *)
Definition ofZ (z : Z) : number := binary_normalize prec emax z 0 false.

(** Every number a JavaScript engine produces is a well-formed binary64:
    its mantissa and exponent are in canonical form. *)
Definition wellFormed (x : number) : bool := valid_binary prec emax x.

(** [digits m + e], the binary order of magnitude of [m * 2^e]. *)
Definition magnitude (m : positive) (e : Z) : Z := Zpos (digits2_pos m) + e.

(** The literal [0.01]: [5764607523034235 * 2^-59], the binary64 nearest
    to one hundredth. *)
Definition lit_0_01 : number := S754_finite false 5764607523034235 (-59).

(** *** [parseFloat] and [Number.prototype.toFixed]

    The two built-ins are not code of the repository.  The functions of
    the repository take them as parameters; the definitions below are
    the instance used when a statement is evaluated on concrete strings. *)

Definition isDigit (c : ascii) : bool :=
  let n := nat_of_ascii c in (48 <=? n)%nat && (n <=? 57)%nat.

Definition digitValue (c : ascii) : Z := Z.of_nat (nat_of_ascii c) - 48.

Fixpoint takeDigits (s : string) : list ascii * string :=
  match s with
  | String c rest =>
      if isDigit c then let (ds, r) := takeDigits rest in (c :: ds, r)
      else ([], s)
  | EmptyString => ([], s)
  end.

Definition digitsValue (ds : list ascii) : Z :=
  fold_left (fun acc c => 10 * acc + digitValue c) ds 0.

Definition isWhiteSpace (c : ascii) : bool :=
  let n := nat_of_ascii c in
  (n =? 32)%nat || ((9 <=? n)%nat && (n <=? 13)%nat).

Fixpoint trimStart (s : string) : string :=
  match s with
  | String c rest => if isWhiteSpace c then trimStart rest else s
  | EmptyString => s
  end.

(** The optional exponent part [e[+-]digits] of a decimal literal; an
    [e] that no digit follows is not part of the literal. *)
Definition exponentPart (s : string) : Z :=
  match s with
  | String c rest =>
      if (Ascii.eqb c "e" || Ascii.eqb c "E")%bool then
        match rest with
        | String "-" rest' =>
            match fst (takeDigits rest') with
            | [] => 0
            | ds => - digitsValue ds
            end
        | String "+" rest' => digitsValue (fst (takeDigits rest'))
        | _ => digitsValue (fst (takeDigits rest))
        end
      else 0
  | EmptyString => 0
  end.

(** [mantissa * 10^exp10], correctly rounded to the nearest binary64. *)
Definition decimal (negative : bool) (mantissa : Z) (exp10 : Z) : number :=
  match mantissa with
  | Zpos m =>
      match exp10 with
      | Zneg k =>
          SFdiv prec emax (S754_finite negative m 0)
                (S754_finite false (Pos.pow 10 k) 0)
      | _ => binary_normalize prec emax
               (if negative then - (mantissa * 10 ^ exp10)
                else mantissa * 10 ^ exp10) 0 negative
      end
  | _ => S754_zero negative
  end.

Definition parseUnsigned (negative : bool) (s : string) : number :=
  if String.prefix "Infinity" s then S754_infinity negative
  else
    let (intDigits, afterInt) := takeDigits s in
    let (fracDigits, afterFrac) :=
      match afterInt with
      | String "." rest => takeDigits rest
      | _ => ([], afterInt)
      end in
    match (intDigits ++ fracDigits)%list with
    | [] => NaN
    | ds =>
        decimal negative (digitsValue ds)
                (exponentPart afterFrac - Z.of_nat (List.length fracDigits))
    end.

(** [parseFloat(s)]: the value of the longest prefix of the trimmed
    string that is a decimal literal, [NaN] when there is none. *)
Definition parseFloat (s : string) : number :=
  match trimStart s with
  | String "-" rest => parseUnsigned true rest
  | String "+" rest => parseUnsigned false rest
  | t => parseUnsigned false t
  end.

Fixpoint zeros (k : nat) : string :=
  match k with O => "" | S k' => "0" ++ zeros k' end.

Definition padLeft (width : nat) (s : string) : string :=
  zeros (width - String.length s) ++ s.

(** The digits of [n] with a decimal point before the last [f] of them. *)
Definition withPoint (n : Z) (f : nat) : string :=
  let ds := padLeft (S f) (NilZero.string_of_uint (N.to_uint (Z.to_N n))) in
  let k := (String.length ds - f)%nat in
  match f with
  | O => ds
  | _ => String.substring 0 k ds ++ "." ++ String.substring k f ds
  end.

(** [x.toFixed(f)] for [|x| < 10^21]: the integer [n] with [n / 10^f]
    nearest to [|x|], the larger one on a tie, printed with [f]
    decimals, after a minus sign when [x < 0].  (From [10^21] on
    ECMAScript prints exponent notation; this instance keeps printing
    digits.) *)
Definition toFixed (x : number) (f : nat) : string :=
  match x with
  | S754_nan => "NaN"
  | S754_infinity s => if s then "-Infinity" else "Infinity"
  | S754_zero _ => withPoint 0 f
  | S754_finite s m e =>
      let scaled := Zpos m * 10 ^ Z.of_nat f in
      let n := if (0 <=? e)%Z then scaled * 2 ^ e
               else (2 * scaled + 2 ^ (- e)) / 2 ^ (1 - e) in
      (if s then "-" else "") ++ withPoint n f
  end.

End JS.

(* ================================================================== *)
(** ** Discount codes, stock statistics, return totals, product creation *)
(* ================================================================== *)

(** The result object of [useDiscountCode]. *)
Module UseResult.
Record t := mk
  { updated : option DiscountCode.t;
    wasDeleted : bool;
    wasFound : bool;
    error : option string }.
End UseResult.

Definition codeIs (code : string) (d : DiscountCode.t) : bool :=
  String.eqb (DiscountCode.code d) code.
Definition codeIdIs (id : string) (d : DiscountCode.t) : bool :=
  String.eqb (DiscountCode.id d) id.

Definition getDiscountCode (code : string) : M (option DiscountCode.t) :=
  result <- gets (fun d => select_where (codeIs code) (discountCodes d)) ;;
  ret (first result).

(** The totals object of [calculateTotals]. *)
Module Totals.
Record t := mk
  { total : JS.number;
    refund : JS.number;
    credit : JS.number;
    exchangeValue : JS.number;
    additionalPayment : JS.number }.
End Totals.

(** A string used as a condition: [undefined], [null] and the empty
    string are falsy. *)
Definition truthy (s : option string) : option string :=
  match s with
  | Some "" => None
  | _ => s
  end.

(** The answers of [POST /api/products]. *)
Inductive ProductResponse :=
| Created (product : Product.t)
| BadRequest (error : string).

(** [ORDER BY] on one column: a stable insertion sort under the
    collation [le] of the database. *)
Section OrderBy.
Context {A K : Type}.
Variable le : K -> K -> bool.
Variable key : A -> K.

Fixpoint insertRow (r : A) (sorted : list A) : list A :=
  match sorted with
  | [] => [r]
  | x :: rest =>
      if le (key r) (key x) then r :: sorted else x :: insertRow r rest
  end.

Definition orderBy (t : list A) : list A := fold_right insertRow [] t.

(** The order the result is sorted in. *)
Definition byKey (a b : A) : Prop := le (key a) (key b) = true.
End OrderBy.

Section Application.

(** The JavaScript built-ins the code calls. *)
Variable parseFloat : string -> JS.number.
Variable toFixed : JS.number -> nat -> string.
(** The collation of the [product_name] column. *)
Variable collation : string -> string -> bool.

(** *** [storage.ts]: discount codes *)

Definition useDiscountCode (code amountUsed : string) : M UseResult.t :=
  discountCode <- getDiscountCode code ;;
  match discountCode with
  | None => ret (UseResult.mk None false false None)
  | Some discountCode =>
      let currentAmount := parseFloat (DiscountCode.amount discountCode) in
      let usedAmount := parseFloat amountUsed in
      if JS.isNaN usedAmount || JS.le usedAmount JS.zero then
        ret (UseResult.mk None false true
               (Some "Amount used must be a positive number"))
      else if JS.gt usedAmount currentAmount then
        ret (UseResult.mk None false true
               (Some ("Amount used ($" ++ toFixed usedAmount 2
                      ++ ") exceeds available credit ($"
                      ++ toFixed currentAmount 2 ++ ")")))
      else
        let remainingAmount := JS.sub currentAmount usedAmount in
        if JS.le remainingAmount JS.lit_0_01 then
          modify (set_discountCodes
            (delete_where (codeIdIs (DiscountCode.id discountCode)))) ;;
          ret (UseResult.mk None true true None)
        else
          modify (set_discountCodes
            (update_where (codeIdIs (DiscountCode.id discountCode))
               (fun d => DiscountCode.with_amount d
                           (toFixed remainingAmount 2)))) ;;
          updatedResult <- gets (fun d =>
            select_where (codeIdIs (DiscountCode.id discountCode))
                         (discountCodes d)) ;;
          ret (UseResult.mk (first updatedResult) false true None)
  end.

(** *** [storage.ts]: bulk stock statistics *)

(** The body of the loop over all products: get or create the
    statistics row of one product. *)
Definition syncProduct (product : Product.t) : M unit :=
  existing <- gets (fun d =>
    firstn 1 (select_where (statsOf (Product.id product)) (stockStats d))) ;;
  match existing with
  | [] =>
      id <- nanoid ;;
      modify (set_stockStats (insert_values
        (StockStats.mk id (Product.id product) (Product.productName product)
           (Product.sku product) (Product.category product)
           (Product.stockQuantity product) 0 0 0)))
  | _ :: _ =>
      modify (set_stockStats
        (update_where (statsOf (Product.id product))
           (StatsUpdate.merge
              (StatsUpdate.mk (Some (Product.stockQuantity product))
                              None None None))))
  end.

Definition getStockStats : M (list StockStats.t) :=
  allProducts <- gets products ;;
  for_of allProducts syncProduct ;;
  stats <- gets (fun d =>
    orderBy collation StockStats.productName (stockStats d)) ;;
  ret stats.

(** *** [create-return-dialog.tsx]: [calculateTotals]

    [returnItems] and [products] are the component's state and the
    product list it has fetched. *)

(** [returnItems.filter(item => item.quantity > 0)] *)
Definition itemsToReturn (returnItems : list InsertReturnItem.t)
  : list InsertReturnItem.t :=
  filter (fun item => 0 <? InsertReturnItem.quantity item) returnItems.

(** The body of [itemsToReturn.forEach], on the pair
    [(totalReturnValue, totalExchangeValue)]. *)
Definition addItem (products : list Product.t)
  (acc : JS.number * JS.number) (item : InsertReturnItem.t)
  : JS.number * JS.number :=
  let (totalReturnValue, totalExchangeValue) := acc in
  let returnValue := parseFloat (InsertReturnItem.subtotal item) in
  let totalReturnValue := JS.add totalReturnValue returnValue in
  match truthy (InsertReturnItem.exchangeProductId item) with
  | Some exchangeProductId =>
      match find (idIs exchangeProductId) products with
      | Some exchangeProduct =>
          (totalReturnValue,
           JS.add totalExchangeValue
             (JS.mul (parseFloat (Product.price exchangeProduct))
                     (JS.ofZ (InsertReturnItem.quantity item))))
      | None => (totalReturnValue, totalExchangeValue)
      end
  | None => (totalReturnValue, totalExchangeValue)
  end.

Definition calculateTotals (returnItems : list InsertReturnItem.t)
  (products : list Product.t) : Totals.t :=
  let sums :=
    fold_left (addItem products) (itemsToReturn returnItems)
              (JS.zero, JS.zero) in
  let totalReturnValue := fst sums in
  let totalExchangeValue := snd sums in
  let hasExchange := JS.gt totalExchangeValue JS.zero in
  let '(refundAmount, creditAmount, additionalPayment) :=
    if hasExchange then
      let difference := JS.sub totalReturnValue totalExchangeValue in
      if JS.gt difference JS.zero then (JS.zero, difference, JS.zero)
      else if JS.lt difference JS.zero then
        (JS.zero, JS.zero, JS.abs difference)
      else (JS.zero, JS.zero, JS.zero)
    else (totalReturnValue, JS.zero, JS.zero) in
  Totals.mk totalReturnValue refundAmount creditAmount totalExchangeValue
            additionalPayment.

(** *** [routes.ts]: [POST /api/products]

    [data] is [parsed.data], the request body after it has passed
    [insertProductSchema]. *)

Definition purchaseEntry (id : string) (product : Product.t)
  (costPrice difference totalDifference : JS.number) (quantity : Z)
  (notes : string) (fiscalYear fiscalMonth : Z) : Account.t :=
  Account.mk id "purchase" (Product.id product) (Product.sku product)
    "0.00" (toFixed (JS.mul costPrice (JS.ofZ quantity)) 2)
    (toFixed totalDifference 2)
    (Product.id product) (Product.productName product)
    (Product.category product) quantity notes
    fiscalYear fiscalMonth ((fiscalMonth + 2) / 3).

Definition postProduct (data : InsertProduct.t) : M ProductResponse :=
  existing <- getProductBySKU (InsertProduct.sku data) ;;
  match existing with
  | Some _ => ret (BadRequest "Product with this SKU already exists")
  | None =>
      product <- createProduct data ;;
      match truthy (InsertProduct.costPrice data),
            0 <? InsertProduct.stockQuantity data with
      | Some cost, true =>
          let sellingPrice := parseFloat (InsertProduct.price data) in
          let costPrice := parseFloat cost in
          let quantity := InsertProduct.stockQuantity data in
          let difference := JS.sub sellingPrice costPrice in
          let totalDifference := JS.mul difference (JS.ofZ quantity) in
          date <- today ;;
          let (fiscalYear, fiscalMonth) := date in
          if JS.gt difference JS.zero then
            id <- nanoid ;;
            modify (set_accounts (insert_values
              (purchaseEntry id product costPrice difference totalDifference
                 quantity
                 ("Purchase with potential profit of $"
                  ++ toFixed difference 2 ++ " per unit")
                 fiscalYear fiscalMonth))) ;;
            ret (Created product)
          else if JS.lt difference JS.zero then
            id <- nanoid ;;
            modify (set_accounts (insert_values
              (purchaseEntry id product costPrice difference totalDifference
                 quantity
                 ("Purchase with potential loss of $"
                  ++ toFixed (JS.abs difference) 2 ++ " per unit")
                 fiscalYear fiscalMonth))) ;;
            ret (Created product)
          else ret (Created product)
      | _, _ => ret (Created product)
      end
  end.

End Application.

(** The result signals an error: the code was not found, or an [error]
    message is set. *)
Definition signalsError (r : UseResult.t) : bool :=
  negb (UseResult.wasFound r)
  || match UseResult.error r with Some _ => true | None => false end.

Definition discountCodeByCode (code : string) (d : DB) : option DiscountCode.t :=
  first (select_where (codeIs code) (discountCodes d)).

Module SampleCredit.

Definition credit (amount : string) : DiscountCode.t :=
  DiscountCode.mk "d1" "CREDIT-1" "ann@example.com" amount false.

(** A database holding one store credit of the given balance. *)
Definition wallet (amount : string) : World :=
  mkWorld (mkDB [] [] [] [] [] [] [] [credit amount] [])
          Sample.entropy 0 2025 6.

End SampleCredit.

(** One iteration of the loop of [getStockStats] on the statistics
    table: refresh [available] on the rows of the product, or append a
    new row with the generated [id] when the product has none. *)
Definition newStatsRow (id : string) (p : Product.t) : StockStats.t :=
  StockStats.mk id (Product.id p) (Product.productName p) (Product.sku p)
    (Product.category p) (Product.stockQuantity p) 0 0 0.

Definition syncStats (p : Product.t) (id : string) (t : list StockStats.t)
  : list StockStats.t :=
  match firstn 1 (select_where (statsOf (Product.id p)) t) with
  | [] => insert_values (newStatsRow id p) t
  | _ :: _ =>
      update_where (statsOf (Product.id p))
        (StatsUpdate.merge
           (StatsUpdate.mk (Some (Product.stockQuantity p)) None None None)) t
  end.

(** [Synced ps t t']: the statistics table [t'] is reached from [t] by
    running the iteration for the products [ps] in order, with some
    generated ids. *)
Inductive Synced : list Product.t -> list StockStats.t -> list StockStats.t -> Prop :=
| Synced_nil t : Synced [] t t
| Synced_cons p ps id t t' :
    Synced ps (syncStats p id t) t' -> Synced (p :: ps) t t'.

(** The statistics rows of a product. *)
Definition rowOf (productId : string) (t : list StockStats.t) (r : StockStats.t) : Prop :=
  In r t /\ StockStats.productId r = productId.

Definition byProductName (collation : string -> string -> bool)
  : StockStats.t -> StockStats.t -> Prop :=
  byKey collation StockStats.productName.

(** Product ids are pairwise distinct ([id] is the primary key). *)
Fixpoint distinct (ids : list string) : bool :=
  match ids with
  | [] => true
  | id :: rest => negb (existsb (String.eqb id) rest) && distinct rest
  end.

Definition uniqueProductIds (d : DB) : bool :=
  distinct (map Product.id (products d)).

Module SampleStats.

Definition hat : Product.t :=
  Product.mk "p2" "Hat" "SKU-2" "caps" "15.00" None 4.

(** Two products; the shirt has a stale statistics row, the hat none. *)
Definition stale : World :=
  mkWorld
    (mkDB [Sample.shirt 8; hat] [] [] []
          [StockStats.mk "s1" "p1" "Shirt" "SKU-1" "tops" 3 2 0 10]
          [] [] [] [])
    Sample.entropy 0 2025 6.

End SampleStats.


(** The sum, from [init] on, of the values that the items contribute. *)
Definition sumFrom {A} (value : A -> option JS.number) (init : JS.number)
  (items : list A) : JS.number :=
  fold_left (fun acc item =>
               match value item with
               | Some v => JS.add acc v
               | None => acc
               end) items init.

(** What a returned item contributes to the return value and to the
    exchange value. *)
Definition returnValueOf (parseFloat : string -> JS.number)
  (item : InsertReturnItem.t) : option JS.number :=
  Some (parseFloat (InsertReturnItem.subtotal item)).

Definition exchangeValueOf (parseFloat : string -> JS.number)
  (products : list Product.t) (item : InsertReturnItem.t)
  : option JS.number :=
  match truthy (InsertReturnItem.exchangeProductId item) with
  | Some exchangeProductId =>
      match find (idIs exchangeProductId) products with
      | Some exchangeProduct =>
          Some (JS.mul (parseFloat (Product.price exchangeProduct))
                       (JS.ofZ (InsertReturnItem.quantity item)))
      | None => None
      end
  | None => None
  end.

Module SampleReturn.

Definition jacket : Product.t :=
  Product.mk "p7" "Jacket" "SKU-7" "coats" "60.00" None 5.

Definition coat : Product.t :=
  Product.mk "p8" "Coat" "SKU-8" "coats" "100.00" None 5.

(** One returned unit with the given subtotal, exchanged or not. *)
Definition line (subtotal : string) (exchange : option string)
  : InsertReturnItem.t :=
  InsertReturnItem.mk "p1" "Shirt" "SKU-1" 1 subtotal subtotal exchange None.

End SampleReturn.

Definition productBySKU (sku : string) (d : DB) : option Product.t :=
  first (select_where (fun p => String.eqb (Product.sku p) sku) (products d)).

Module SampleProduct.

Definition dress (price : string) (costPrice : option string) (stock : Z)
  : InsertProduct.t :=
  InsertProduct.mk "Dress" "SKU-9" "dresses" price costPrice stock.

Definition emptyShop : World := mkWorld Sample.emptyDB Sample.entropy 0 2025 6.

End SampleProduct.

(* ================================================================== *)
(** ** [server/storage.ts]: the remaining methods *)
(* ================================================================== *)

Definition orderIdIs (id : string) (o : Order.t) : bool :=
  String.eqb (Order.id o) id.
Definition itemOfOrder (orderId : string) (i : OrderItem.t) : bool :=
  String.eqb (OrderItem.orderId i) orderId.
Definition returnIdIs (id : string) (r : Return.t) : bool :=
  String.eqb (Return.id r) id.
Definition itemOfReturn (returnId : string) (i : ReturnItem.t) : bool :=
  String.eqb (ReturnItem.returnId i) returnId.
Definition movementOf (productId : string) (m : StockMovement.t) : bool :=
  String.eqb (StockMovement.productId m) productId.

(** [eq(column, value)] on a nullable column: [NULL] equals nothing. *)
Definition nullableIs (value : string) (column : option string) : bool :=
  match column with
  | Some v => String.eqb v value
  | None => false
  end.

(** *** Products *)

Definition getProducts : M (list Product.t) := gets products.

Definition deleteProduct (id : string) : M bool :=
  modify (set_stockStats (delete_where (statsOf id))) ;;
  existing <- gets (fun d => select_where (idIs id) (products d)) ;;
  match existing with
  | [] => ret false
  | _ :: _ =>
      modify (set_products (delete_where (idIs id))) ;;
      ret true
  end.

(** *** Orders *)

Definition getOrderItems (orderId : string) : M (list OrderItem.t) :=
  gets (fun d => select_where (itemOfOrder orderId) (orderItems d)).

Definition getOrders : M (list (Order.t * list OrderItem.t)) :=
  allOrders <- gets orders ;;
  for_of allOrders (fun order =>
    items <- getOrderItems (Order.id order) ;;
    ret (order, items)).

Definition getOrder (id : string) : M (option (Order.t * list OrderItem.t)) :=
  result <- gets (fun d => select_where (orderIdIs id) (orders d)) ;;
  match result with
  | [] => ret None
  | order :: _ =>
      items <- getOrderItems id ;;
      ret (Some (order, items))
  end.

Definition getOrdersByCustomerEmail (email : string)
  : M (list (Order.t * list OrderItem.t)) :=
  result <- gets (fun d =>
    select_where (fun o => nullableIs email (Order.customerEmail o))
                 (orders d)) ;;
  for_of result (fun order =>
    items <- getOrderItems (Order.id order) ;;
    ret (order, items)).

Definition updateOrder (id : string) (insertOrder : InsertOrder.t)
  : M (option Order.t) :=
  modify (set_orders
    (update_where (orderIdIs id)
       (fun o => Order.mk (Order.id o) (Order.orderNumber o)
                   (InsertOrder.customerName insertOrder)
                   (InsertOrder.customerEmail insertOrder)
                   (InsertOrder.totalAmount insertOrder)))) ;;
  result <- gets (fun d => select_where (orderIdIs id) (orders d)) ;;
  ret (first result).

Definition deleteOrder (id : string) : M bool :=
  modify (set_orderItems (delete_where (itemOfOrder id))) ;;
  result <- gets (fun d => select_where (orderIdIs id) (orders d)) ;;
  modify (set_orders (delete_where (orderIdIs id))) ;;
  ret (negb (Nat.eqb (List.length result) 0)).

(** *** Stock movements *)

Definition getStockMovements (productId : option string)
  : M (list StockMovement.t) :=
  match truthy productId with
  | Some productId =>
      gets (fun d => select_where (movementOf productId) (stockMovements d))
  | None => gets stockMovements
  end.

(** [getLowStockProducts(threshold = 10)] *)
Definition getLowStockProducts (threshold : option Z) : M (list Product.t) :=
  let threshold := match threshold with Some t => t | None => 10 end in
  gets (fun d =>
    select_where (fun p => (Product.stockQuantity p <? threshold)
                           && (0 <? Product.stockQuantity p))
                 (products d)).

(** *** Returns *)

Definition getReturn (id : string)
  : M (option (Return.t * list ReturnItem.t)) :=
  result <- gets (fun d => select_where (returnIdIs id) (returns d)) ;;
  match result with
  | [] => ret None
  | r :: _ =>
      items <- gets (fun d => select_where (itemOfReturn id) (returnItems d)) ;;
      ret (Some (r, items))
  end.

Definition getReturns : M (list (Return.t * list ReturnItem.t)) :=
  allReturns <- gets returns ;;
  for_of allReturns (fun r =>
    items <- gets (fun d =>
      select_where (itemOfReturn (Return.id r)) (returnItems d)) ;;
    ret (r, items)).

(** *** Discount codes *)

Module InsertDiscountCode.
Record t := mk
  { code : string;
    customerEmail : string;
    amount : string }.
End InsertDiscountCode.

Definition getDiscountCodes (customerEmail : option string)
  : M (list DiscountCode.t) :=
  match truthy customerEmail with
  | Some customerEmail =>
      gets (fun d =>
        select_where
          (fun c => String.eqb (DiscountCode.customerEmail c) customerEmail)
          (discountCodes d))
  | None => gets discountCodes
  end.

Definition createDiscountCode (data : InsertDiscountCode.t)
  : M DiscountCode.t :=
  id <- randomUUID ;;
  let amount := InsertDiscountCode.amount data in
  let row :=
    DiscountCode.mk id (InsertDiscountCode.code data)
      (InsertDiscountCode.customerEmail data) amount false in
  modify (set_discountCodes (insert_values row)) ;;
  discountCodeResult <- gets (fun d =>
    select_where (codeIdIs id) (discountCodes d)) ;;
  ret (first_inserted row discountCodeResult).

Definition deleteDiscountCode (id : string) : M bool :=
  result <- gets (fun d => select_where (codeIdIs id) (discountCodes d)) ;;
  modify (set_discountCodes (delete_where (codeIdIs id))) ;;
  ret (negb (Nat.eqb (List.length result) 0)).

(* ================================================================== *)
(** ** [server/routes.ts]: the other handlers *)
(* ================================================================== *)

(** The answer of a handler: the JSON body of a success, or the status
    of a refusal with its error message.  [Invalid] is the status 400
    that carries the message of the validation library. *)
Inductive Http (A : Type) :=
| Ok (body : A)
| Invalid
| Status400 (error : string)
| Status404 (error : string).
Arguments Ok {A} body.
Arguments Invalid {A}.
Arguments Status400 {A} error.
Arguments Status404 {A} error.

(** [z.string().min(1)] *)
Definition nonEmpty (s : string) : bool := negb (String.eqb s "").

(** [insertStockMovementSchema] on a body that has the types of the
    schema: the strings are not empty and the quantity is at least 1. *)
Definition validStockMovement (m : InsertStockMovement.t) : bool :=
  nonEmpty (InsertStockMovement.productId m)
  && nonEmpty (InsertStockMovement.productName m)
  && nonEmpty (InsertStockMovement.sku m)
  && (1 <=? InsertStockMovement.quantity m)
  && nonEmpty (InsertStockMovement.reason m).

(** [insertOrderItemSchema], likewise. *)
Definition validOrderItem (i : InsertOrderItem.t) : bool :=
  nonEmpty (InsertOrderItem.productId i)
  && nonEmpty (InsertOrderItem.productName i)
  && nonEmpty (InsertOrderItem.sku i)
  && (1 <=? InsertOrderItem.quantity i)
  && nonEmpty (InsertOrderItem.unitPrice i)
  && nonEmpty (InsertOrderItem.subtotal i).

(** The body of a successful [POST /api/discount-codes/:code/use]. *)
Module UseResponse.
Record t := mk
  { success : bool;
    remainingCredit : option DiscountCode.t;
    fullyUsed : bool }.
End UseResponse.

Section Handlers.

Variable parseFloat : string -> JS.number.
Variable toFixed : JS.number -> nat -> string.
(** [insertOrderSchema.safeParse(orderData).success]: the schema also
    constrains columns that the rows here do not carry (status, payment
    method) and uses the e-mail pattern of the validation library. *)
Variable insertOrderSchema : InsertOrder.t -> bool.

(** [PATCH /api/products/:id], on a body that the product schema
    accepts.  The body carries every column but the id, which the rows
    that are updated keep. *)
Definition patchProduct (id : string) (data : InsertProduct.t)
  : M (Http Product.t) :=
  existing <- getProductBySKU (InsertProduct.sku data) ;;
  match existing with
  | Some existing =>
      if negb (String.eqb (Product.id existing) id) then
        ret (Status400 "Product with this SKU already exists")
      else
        product <- updateProduct id (InsertProduct.with_id data id) ;;
        match product with
        | Some product => ret (Ok product)
        | None => ret (Status404 "Product not found")
        end
  | None =>
      product <- updateProduct id (InsertProduct.with_id data id) ;;
      match product with
      | Some product => ret (Ok product)
      | None => ret (Status404 "Product not found")
      end
  end.

(** [DELETE /api/products/:id] *)
Definition deleteProductRoute (id : string) : M (Http unit) :=
  success <- deleteProduct id ;;
  if success then ret (Ok tt) else ret (Status404 "Product not found").

(** [POST /api/orders] *)
Definition postOrder (orderData : InsertOrder.t)
  (items : list InsertOrderItem.t)
  : M (Http (Order.t * list OrderItem.t)) :=
  if negb (insertOrderSchema orderData) then ret Invalid
  else
    match items with
    | [] => ret (Status400 "Order must have at least one item")
    | _ :: _ =>
        if negb (forallb validOrderItem items) then
          ret Invalid
        else
          order <- createOrder orderData items ;;
          ret (Ok order)
    end.

(** [POST /api/stock-movements] *)
Definition postStockMovement (body : InsertStockMovement.t)
  : M (Http StockMovement.t) :=
  if negb (validStockMovement body) then
    ret Invalid
  else
    movement <- createStockMovement body ;;
    ret (Ok movement).

(** [POST /api/returns].  The body is used as it arrives; the e-mail
    that announces a new discount code and the log lines do not touch
    the database and are left out. *)
Definition postReturn (returnData : InsertReturn.t)
  (items : list InsertReturnItem.t) : M (Return.t * list ReturnItem.t) :=
  newReturn <- createReturn returnData items ;;
  let creditAmount :=
    match truthy (InsertReturn.creditAmount returnData) with
    | Some c => if String.eqb c "0" then JS.zero else parseFloat c
    | None => JS.zero
    end in
  match JS.gt creditAmount JS.zero,
        truthy (InsertReturn.customerEmail returnData) with
  | true, Some customerEmail =>
      now <- draw ;;
      rnd <- draw ;;
      let code := "CREDIT-" ++ now ++ "-" ++ rnd in
      createDiscountCode
        (InsertDiscountCode.mk code customerEmail (toFixed creditAmount 2)) ;;
      ret newReturn
  | _, _ => ret newReturn
  end.

(** [POST /api/discount-codes/:code/use] *)
Definition postUseDiscountCode (code amountUsed : string)
  : M (Http UseResponse.t) :=
  let num := parseFloat amountUsed in
  if negb (negb (JS.isNaN num) && JS.gt num JS.zero) then
    ret Invalid
  else
    result <- useDiscountCode parseFloat toFixed code amountUsed ;;
    if negb (UseResult.wasFound result) then
      ret (Status404 "Discount code not found")
    else
      match UseResult.error result with
      | Some error => ret (Status400 error)
      | None =>
          ret (Ok (UseResponse.mk true (UseResult.updated result)
                     (UseResult.wasDeleted result)))
      end.

(* ================================================================== *)
(** ** [create-return-dialog.tsx]: the state of the dialog *)
(* ================================================================== *)

(** The items the dialog starts from when an order is opened. *)
Definition initialReturnItems (order : Order.t * list OrderItem.t)
  : list InsertReturnItem.t :=
  map (fun item =>
         InsertReturnItem.mk (OrderItem.productId item)
           (OrderItem.productName item) (OrderItem.sku item) 0
           (OrderItem.unitPrice item) "0" None None)
      (snd order).

Definition updateQuantity (order : option (Order.t * list OrderItem.t))
  (productId : string) (newQuantity : Z)
  (items : list InsertReturnItem.t) : list InsertReturnItem.t :=
  map (fun item =>
         if String.eqb (InsertReturnItem.productId item) productId then
           let originalItem :=
             match order with
             | Some order =>
                 find (fun oi => String.eqb (OrderItem.productId oi) productId)
                      (snd order)
             | None => None
             end in
           let maxQty :=
             match originalItem with
             | Some originalItem => OrderItem.quantity originalItem
             | None => 999
             end in
           let quantity := Z.max 0 (Z.min newQuantity maxQty) in
           let subtotal :=
             toFixed (JS.mul (JS.ofZ quantity)
                             (parseFloat (InsertReturnItem.unitPrice item))) 2 in
           InsertReturnItem.mk (InsertReturnItem.productId item)
             (InsertReturnItem.productName item) (InsertReturnItem.sku item)
             quantity (InsertReturnItem.unitPrice item) subtotal
             (InsertReturnItem.exchangeProductId item)
             (InsertReturnItem.exchangeProductName item)
         else item)
      items.

Definition setExchangeProduct (products : list Product.t)
  (productId exchangeProductId : string)
  (items : list InsertReturnItem.t) : list InsertReturnItem.t :=
  let exchangeProduct := find (idIs exchangeProductId) products in
  map (fun item =>
         if String.eqb (InsertReturnItem.productId item) productId then
           InsertReturnItem.mk (InsertReturnItem.productId item)
             (InsertReturnItem.productName item) (InsertReturnItem.sku item)
             (InsertReturnItem.quantity item)
             (InsertReturnItem.unitPrice item)
             (InsertReturnItem.subtotal item)
             (if String.eqb exchangeProductId "none" then None
              else Some exchangeProductId)
             (if String.eqb exchangeProductId "none" then None
              else option_map Product.productName exchangeProduct)
         else item)
      items.

(** [amount > 0 ? amount.toFixed(2) : "0"] *)
Definition amountField (amount : JS.number) : string :=
  if JS.gt amount JS.zero then toFixed amount 2 else "0".

(** The submit handler, on form data that passed the resolver: [None]
    when nothing is selected (the toast "No Items Selected"), else the
    body that is posted to [/api/returns]. *)
Definition onSubmit (data : InsertReturn.t)
  (returnItems : list InsertReturnItem.t) (products : list Product.t)
  : option (InsertReturn.t * list InsertReturnItem.t) :=
  match itemsToReturn returnItems with
  | [] => None
  | _ :: _ =>
      let t := calculateTotals parseFloat returnItems products in
      Some (InsertReturn.mk (InsertReturn.orderId data)
              (InsertReturn.customerEmail data)
              (Some (amountField (Totals.refund t)))
              (Some (amountField (Totals.credit t)))
              (Some (amountField (Totals.exchangeValue t)))
              (Some (amountField (Totals.additionalPayment t))),
            itemsToReturn returnItems)
  end.

End Handlers.

(* ================================================================== *)
(** ** Shorthands for the statements about the remaining code *)
(* ================================================================== *)

(** The four counters of a statistics row:
    [(available, sold, returned, purchased)]. *)
Definition counters (s : StockStats.t) : Z * Z * Z * Z :=
  (StockStats.available s, StockStats.sold s, StockStats.returned s,
   StockStats.purchased s).

(** A product row without its stock quantity. *)
Definition listing (p : Product.t) : Product.t :=
  Product.with_stockQuantity p 0.

(** The catalogue: which products exist, in table order, with every
    column but the stock quantity. *)
Definition catalogue (d : DB) : list Product.t := map listing (products d).

Definition orderById (id : string) (d : DB) : option Order.t :=
  first (select_where (orderIdIs id) (orders d)).

Definition discountCodeById (id : string) (d : DB) : option DiscountCode.t :=
  first (select_where (codeIdIs id) (discountCodes d)).

(** An order item without the ids it is stored under. *)
Definition lineOf (i : OrderItem.t) : InsertOrderItem.t :=
  InsertOrderItem.mk (OrderItem.productId i) (OrderItem.productName i)
    (OrderItem.sku i) (OrderItem.quantity i) (OrderItem.unitPrice i)
    (OrderItem.subtotal i).

(** No two products share a SKU. *)
Definition uniqueSKUs (d : DB) : bool :=
  distinct (map Product.sku (products d)).

(** The reasons the stock movement dialog offers for each movement type
    (the [SelectItem] values of its reason field). *)
Definition reasonOptions (ty : MovementType) : list string :=
  match ty with
  | In_ => ["Purchase"; "Return"; "Transfer In"]
  | Out => ["Sale"; "Damaged"; "Transfer Out"; "Lost"]
  | Adjustment => ["Physical Count"; "Correction"; "Initial Stock"]
  end.

(** A handler answered with a status other than success. *)
Definition refused {A} (r : Http A) : bool :=
  match r with Ok _ => false | _ => true end.

(** The tables a stock movement does not touch. *)
Definition sameHistory (d d' : DB) : Prop :=
  orders d' = orders d /\ orderItems d' = orderItems d
  /\ returns d' = returns d /\ returnItems d' = returnItems d
  /\ discountCodes d' = discountCodes d /\ accounts d' = accounts d.

(** The invariant carried through a sequence of operations. *)
Definition sameCatalogue (w0 w : World) : Prop :=
  catalogue (db w) = catalogue (db w0).

(** The ledger of [w'] extends the ledger of [w]. *)
Definition ledgerExtends (w w' : World) : Prop :=
  exists entries,
    stockMovements (db w') = (stockMovements (db w) ++ entries)%list.

(** The movement a sale writes for one order line. *)
Definition saleMovement (orderNumber : string) (item : InsertOrderItem.t)
  : InsertStockMovement.t :=
  InsertStockMovement.mk
    (InsertOrderItem.productId item) (InsertOrderItem.productName item)
    (InsertOrderItem.sku item) Out (InsertOrderItem.quantity item)
    "sale" (Some ("Order " ++ orderNumber)).

(** The movement a return writes for one return line. *)
Definition returnMovement (returnNumber : string) (item : InsertReturnItem.t)
  : InsertStockMovement.t :=
  InsertStockMovement.mk
    (InsertReturnItem.productId item) (InsertReturnItem.productName item)
    (InsertReturnItem.sku item) In_ (InsertReturnItem.quantity item)
    "return" (Some ("Return " ++ returnNumber)).

(** The ledger entry [m] is the inbound movement of the return line. *)
Definition inboundFor (item : InsertReturnItem.t) (m : StockMovement.t) : Prop :=
  StockMovement.productId m = InsertReturnItem.productId item
  /\ StockMovement.type m = In_
  /\ StockMovement.quantity m = InsertReturnItem.quantity item
  /\ StockMovement.reason m = "return".


(** The stored order item [r] holds the order line [x] of the order [id]. *)
Definition storesLine (id : string) (x : InsertOrderItem.t) (r : OrderItem.t)
  : Prop :=
  lineOf r = x /\ OrderItem.orderId r = id.

(** The order row [createOrder] inserts. *)
Definition orderRow (data : InsertOrder.t) (w : World) : Order.t :=
  Order.mk (entropy w (draws w)) ("ORD-" ++ entropy w (S (draws w)))
    (InsertOrder.customerName data) (InsertOrder.customerEmail data)
    (InsertOrder.totalAmount data).

(** The item row [createOrder] inserts for one order line. *)
Definition orderItemRow (itemId id : string) (item : InsertOrderItem.t)
  : OrderItem.t :=
  OrderItem.mk itemId id
    (InsertOrderItem.productId item) (InsertOrderItem.productName item)
    (InsertOrderItem.sku item) (InsertOrderItem.quantity item)
    (InsertOrderItem.unitPrice item) (InsertOrderItem.subtotal item).

(** No two discount codes share a code. *)
Definition uniqueCodes (d : DB) : bool :=
  distinct (map DiscountCode.code (discountCodes d)).

(** The row [createDiscountCode] inserts. *)
Definition codeRow (id : string) (data : InsertDiscountCode.t) : DiscountCode.t :=
  DiscountCode.mk id (InsertDiscountCode.code data)
    (InsertDiscountCode.customerEmail data) (InsertDiscountCode.amount data)
    false.

(** Row by row, no product of [t'] holds more stock than in [t]. *)
Definition noGain (t t' : list Product.t) : Prop :=
  Forall2 (fun r r' =>
             Product.id r' = Product.id r
             /\ Product.stockQuantity r' <= Product.stockQuantity r) t t'.

(** The invariant of a sale that passed validation, relative to the
    world [w0] it started from. *)
Definition saleInvariant (w0 w : World) : Prop :=
  sameCatalogue w0 w
  /\ stockNonNegative (db w) = true
  /\ noGain (products (db w0)) (products (db w)).

(** A discount code minted for the store credit of a return. *)
Definition creditCodeFor (parseFloat : string -> JS.number)
  (toFixed : JS.number -> nat -> string) (returnData : InsertReturn.t)
  (c : DiscountCode.t) : Prop :=
  InsertReturn.customerEmail returnData = Some (DiscountCode.customerEmail c)
  /\ DiscountCode.isUsed c = false
  /\ exists credit,
       InsertReturn.creditAmount returnData = Some credit
       /\ JS.gt (parseFloat credit) JS.zero = true
       /\ DiscountCode.amount c = toFixed (parseFloat credit) 2%nat.

(** The request carries no store credit, or no address to send it to. *)
Definition noCreditDue (returnData : InsertReturn.t) : bool :=
  match InsertReturn.creditAmount returnData with
  | None => true
  | Some c => String.eqb c "" || String.eqb c "0"
  end
  || match InsertReturn.customerEmail returnData with
     | None => true
     | Some e => String.eqb e ""
     end.

(** The quantity of the product on the order, [999] when the order or
    the line is missing: the upper limit [updateQuantity] applies. *)
Definition maxReturnable (order : option (Order.t * list OrderItem.t))
  (productId : string) : Z :=
  match match order with
        | Some order =>
            find (fun oi => String.eqb (OrderItem.productId oi) productId)
                 (snd order)
        | None => None
        end with
  | Some originalItem => OrderItem.quantity originalItem
  | None => 999
  end.

(** No line of the dialog names an exchange product. *)
Definition noExchange (items : list InsertReturnItem.t) : bool :=
  forallb (fun i =>
             match truthy (InsertReturnItem.exchangeProductId i) with
             | Some _ => false
             | None => true
             end) items.

(** What a return line says about the goods that come back. *)
Definition returnedGoods (i : InsertReturnItem.t) : string * Z * string * string :=
  (InsertReturnItem.productId i, InsertReturnItem.quantity i,
   InsertReturnItem.unitPrice i, InsertReturnItem.subtotal i).

Module SampleDialog.

Definition order : Order.t * list OrderItem.t :=
  (Order.mk "o1" "ORD-1" "Ann" (Some "ann@example.com") "150.00",
   [OrderItem.mk "i1" "o1" "p1" "Shirt" "SKU-1" 3 "50.00" "150.00"]).

Definition form : InsertReturn.t :=
  InsertReturn.mk "o1" (Some "ann@example.com") (Some "0") (Some "0")
                  None None.

End SampleDialog.

(* ================================================================== *)
(** ** Reasoning about queries *)
(* ================================================================== *)

Ltac run_monad :=
  cbv [bind ret gets modify draw randomUUID nanoid today];
  cbn [db entropy draws year month fst snd
       products orders orderItems stockMovements stockStats
       returns returnItems discountCodes accounts
       set_products set_orders set_orderItems set_stockMovements
       set_stockStats set_returns set_returnItems set_discountCodes
       set_accounts].

Lemma first_select_update {A} (c : A -> bool) (set : A -> A) (t : list A) :
  (forall r, c r = true -> c (set r) = true) ->
  first (select_where c (update_where c set t))
  = option_map set (first (select_where c t)).
Proof.
  intros Hc. induction t as [|r t IH]; cbn; [reflexivity|].
  destruct (c r) eqn:E.
  - rewrite (Hc r E). reflexivity.
  - rewrite E. exact IH.
Qed.

Lemma first_select_In {A} (c : A -> bool) (t : list A) (r : A) :
  first (select_where c t) = Some r -> In r t /\ c r = true.
Proof.
  unfold select_where. intros H.
  assert (Hin : In r (filter c t)).
  { destruct (filter c t); [discriminate|]. injection H as ->. now left. }
  now apply filter_In in Hin.
Qed.

Lemma productById_id id d p : productById id d = Some p -> Product.id p = id.
Proof.
  intros H. apply first_select_In in H as [_ H]. now apply String.eqb_eq.
Qed.

(* ================================================================== *)
(** ** Effect of the stock operations on the tables *)
(* ================================================================== *)

Lemma createStockMovement_products im w :
  products (db (snd (createStockMovement im w)))
  = match productById (InsertStockMovement.productId im) (db w) with
    | Some p =>
        update_where (idIs (InsertStockMovement.productId im))
          (fun _ => Product.with_stockQuantity p
             (Z.max 0 (newQuantity (InsertStockMovement.type im)
                         (Product.stockQuantity p)
                         (InsertStockMovement.quantity im))))
          (products (db w))
    | None => products (db w)
    end.
Proof.
  unfold createStockMovement, getProduct, updateProduct,
    getStockStatsByProduct, updateStockStats, productById.
  run_monad.
  destruct (first (select_where _ (products (db w)))) as [p|]; run_monad;
    [|reflexivity].
  match goal with
  | |- context [first ?l] => destruct (first l)
  end; run_monad.
  - destruct (String.eqb _ "purchase"); run_monad;
      destruct (InsertStockMovement.type im); reflexivity.
  - destruct (InsertStockMovement.type im); reflexivity.
Qed.

Lemma createStockMovement_stockMovements im w :
  stockMovements (db (snd (createStockMovement im w)))
  = (stockMovements (db w) ++ [movementRow (entropy w (draws w)) im])%list.
Proof.
  unfold createStockMovement, getProduct, updateProduct,
    getStockStatsByProduct, updateStockStats.
  run_monad.
  destruct (first (select_where _ (products (db w)))) as [p|]; run_monad;
    [|reflexivity].
  match goal with
  | |- context [first ?l] => destruct (first l)
  end; run_monad; [|reflexivity].
  destruct (String.eqb _ "purchase"); reflexivity.
Qed.

Lemma createStockMovement_stockStats im w :
  stockStats (db (snd (createStockMovement im w)))
  = match productById (InsertStockMovement.productId im) (db w),
          statsByProduct (InsertStockMovement.productId im) (db w) with
    | Some p, Some st =>
        let final :=
          Z.max 0 (newQuantity (InsertStockMovement.type im)
                     (Product.stockQuantity p)
                     (InsertStockMovement.quantity im)) in
        update_where (statsOf (InsertStockMovement.productId im))
          (StatsUpdate.merge
             (if String.eqb (InsertStockMovement.reason im) "purchase"
              then StatsUpdate.mk (Some final) None None
                     (Some (StockStats.purchased st
                            + InsertStockMovement.quantity im))
              else StatsUpdate.mk (Some final) None None None))
          (stockStats (db w))
    | _, _ => stockStats (db w)
    end.
Proof.
  unfold createStockMovement, getProduct, updateProduct,
    getStockStatsByProduct, updateStockStats, productById, statsByProduct.
  run_monad.
  destruct (first (select_where _ (products (db w)))) as [p|]; run_monad;
    [|reflexivity].
  destruct (first (select_where _ (stockStats (db w)))) as [st|]; run_monad;
    [|reflexivity].
  destruct (String.eqb _ "purchase"); run_monad;
    destruct (InsertStockMovement.type im); reflexivity.
Qed.

Lemma update_where_twice {A} (c : A -> bool) (x y : A) (t : list A) :
  c y = true ->
  update_where c (fun _ => x) (update_where c (fun _ => y) t)
  = update_where c (fun _ => x) t.
Proof.
  intros Hy. unfold update_where. rewrite map_map. apply map_ext.
  intros r. destruct (c r) eqn:E; [now rewrite Hy | now rewrite E].
Qed.

Lemma productById_idIs id d p : productById id d = Some p -> idIs id p = true.
Proof. intros H. now apply first_select_In in H. Qed.

(** One order line: the caller writes [s - q] and the nested
    [createStockMovement] of type [out] subtracts [q] once more. *)
Lemma createOrder_item_products id orderNumber item w :
  products (db (snd (createOrder_item id orderNumber item w)))
  = match productById (InsertOrderItem.productId item) (db w) with
    | Some p =>
        update_where (idIs (InsertOrderItem.productId item))
          (fun _ => Product.with_stockQuantity p
             (Z.max 0 (Product.stockQuantity p
                       - InsertOrderItem.quantity item
                       - InsertOrderItem.quantity item)))
          (products (db w))
    | None => products (db w)
    end.
Proof.
  unfold createOrder_item, getProduct, updateProduct,
    getStockStatsByProduct, updateStockStats.
  run_monad. fold (productById (InsertOrderItem.productId item) (db w)).
  destruct (productById _ (db w)) as [p|] eqn:Hp; run_monad; [|reflexivity].
  pose proof (productById_idIs _ _ _ Hp) as Hid.
  match goal with
  | |- context [createStockMovement ?im ?w1] =>
      pose proof (createStockMovement_products im w1) as Hm;
      destruct (createStockMovement im w1) as [mv w2]
  end.
  cbn [snd InsertStockMovement.productId InsertStockMovement.type
       InsertStockMovement.quantity newQuantity] in Hm.
  unfold productById in Hm.
  cbn [db products set_products set_orderItems] in Hm.
  rewrite first_select_update in Hm by (intros; exact Hid).
  fold (productById (InsertOrderItem.productId item) (db w)) in Hm.
  rewrite Hp in Hm.
  cbn [option_map Product.with_stockQuantity Product.stockQuantity] in Hm.
  rewrite update_where_twice in Hm by exact Hid.
  destruct (first _); run_monad; exact Hm.
Qed.


(** One return line: the caller writes [s + q] and the nested
    [createStockMovement] of type [in] adds [q] once more. *)
Lemma createReturn_item_products returnId returnNumber item w :
  products (db (snd (createReturn_item returnId returnNumber item w)))
  = match productById (InsertReturnItem.productId item) (db w) with
    | Some p =>
        update_where (idIs (InsertReturnItem.productId item))
          (fun _ => Product.with_stockQuantity p
             (Z.max 0 (Product.stockQuantity p
                       + InsertReturnItem.quantity item
                       + InsertReturnItem.quantity item)))
          (products (db w))
    | None => products (db w)
    end.
Proof.
  unfold createReturn_item, getProduct, updateProduct,
    getStockStatsByProduct, updateStockStats.
  run_monad. fold (productById (InsertReturnItem.productId item) (db w)).
  destruct (productById _ (db w)) as [p|] eqn:Hp; run_monad.
  - pose proof (productById_idIs _ _ _ Hp) as Hid.
    destruct (first _); run_monad;
    match goal with
    | |- context [createStockMovement ?im ?w1] =>
        pose proof (createStockMovement_products im w1) as Hm;
        destruct (createStockMovement im w1) as [mv w2]
    end;
    cbn [snd InsertStockMovement.productId InsertStockMovement.type
         InsertStockMovement.quantity newQuantity] in Hm;
    unfold productById in Hm;
    cbn [db products set_products set_returnItems set_stockStats] in Hm;
    rewrite first_select_update in Hm by (intros; exact Hid);
    fold (productById (InsertReturnItem.productId item) (db w)) in Hm;
    rewrite Hp in Hm;
    cbn [option_map Product.with_stockQuantity Product.stockQuantity] in Hm;
    rewrite update_where_twice in Hm by exact Hid;
    exact Hm.
  - match goal with
    | |- context [createStockMovement ?im ?w1] =>
        pose proof (createStockMovement_products im w1) as Hm;
        destruct (createStockMovement im w1) as [mv w2]
    end.
    cbn [snd InsertStockMovement.productId] in Hm.
    unfold productById in Hm.
    cbn [db products set_returnItems] in Hm.
    fold (productById (InsertReturnItem.productId item) (db w)) in Hm.
    now rewrite Hp in Hm.
Qed.


(* ================================================================== *)
(** ** Sales, returns and manual movements *)
(* ================================================================== *)

Lemma for_of_preserves {A B} (P : World -> Prop) (body : A -> M B) :
  (forall x w, P w -> P (snd (body x w))) ->
  forall xs w, P w -> P (snd (for_of xs body w)).
Proof.
  intros Hbody xs. induction xs as [|x xs IH]; intros w Hw; cbn.
  - exact Hw.
  - unfold bind. specialize (Hbody x w Hw).
    destruct (body x w) as [b w1]. cbn [snd] in Hbody.
    specialize (IH w1 Hbody). destruct (for_of xs body w1) as [bs w2].
    exact IH.
Qed.

Lemma forallb_update_where {A} (f c : A -> bool) (x : A) (t : list A) :
  f x = true -> forallb f t = true ->
  forallb f (update_where c (fun _ => x) t) = true.
Proof.
  intros Hx. induction t as [|r t IH]; cbn; [reflexivity|].
  intros H. apply andb_true_iff in H as [Hr Ht].
  fold (update_where c (fun _ => x) t). rewrite (IH Ht), andb_true_r.
  now destruct (c r).
Qed.

Lemma clamped_row_nonneg p q :
  (0 <=? Product.stockQuantity (Product.with_stockQuantity p (Z.max 0 q))) = true.
Proof. cbn. apply Z.leb_le, Z.le_max_l. Qed.

Lemma createStockMovement_nonneg im w :
  stockNonNegative (db w) = true ->
  stockNonNegative (db (snd (createStockMovement im w))) = true.
Proof.
  unfold stockNonNegative. intros H. rewrite createStockMovement_products.
  destruct (productById _ _); [|exact H].
  apply forallb_update_where; [apply clamped_row_nonneg | exact H].
Qed.

Lemma createOrder_item_nonneg id orderNumber item w :
  stockNonNegative (db w) = true ->
  stockNonNegative (db (snd (createOrder_item id orderNumber item w))) = true.
Proof.
  unfold stockNonNegative. intros H. rewrite createOrder_item_products.
  destruct (productById _ _); [|exact H].
  apply forallb_update_where; [apply clamped_row_nonneg | exact H].
Qed.

Lemma createReturn_item_nonneg returnId returnNumber item w :
  stockNonNegative (db w) = true ->
  stockNonNegative
    (db (snd (createReturn_item returnId returnNumber item w))) = true.
Proof.
  unfold stockNonNegative. intros H. rewrite createReturn_item_products.
  destruct (productById _ _); [|exact H].
  apply forallb_update_where; [apply clamped_row_nonneg | exact H].
Qed.

Lemma createOrder_nonneg orderData items w :
  stockNonNegative (db w) = true ->
  stockNonNegative (db (snd (createOrder orderData items w))) = true.
Proof.
  intros H. unfold createOrder. run_monad.
  match goal with
  | |- context [for_of items ?body ?w1] =>
      pose proof (for_of_preserves
        (fun w => stockNonNegative (db w) = true) body
        (fun x w => createOrder_item_nonneg _ _ x w) items w1 H) as Hloop;
      destruct (for_of items body w1) as [created w2]
  end.
  exact Hloop.
Qed.

Lemma createReturn_nonneg data items w :
  stockNonNegative (db w) = true ->
  stockNonNegative (db (snd (createReturn data items w))) = true.
Proof.
  intros H. unfold createReturn. run_monad.
  match goal with
  | |- context [for_of items ?body ?w1] =>
      pose proof (for_of_preserves
        (fun w => stockNonNegative (db w) = true) body
        (fun x w => createReturn_item_nonneg _ _ x w) items w1 H) as Hloop;
      destruct (for_of items body w1) as [created w2]
  end.
  exact Hloop.
Qed.

Lemma applyOp_nonneg op w :
  stockNonNegative (db w) = true ->
  stockNonNegative (db (snd (applyOp op w))) = true.
Proof.
  intros H. destruct op as [o items | r items | m]; unfold applyOp, bind, ret.
  - pose proof (createOrder_nonneg o items w H) as H'.
    now destruct (createOrder o items w).
  - pose proof (createReturn_nonneg r items w H) as H'.
    now destruct (createReturn r items w).
  - pose proof (createStockMovement_nonneg m w H) as H'.
    now destruct (createStockMovement m w).
Qed.

Lemma runOps_nonneg ops :
  forall w, stockNonNegative (db w) = true ->
            stockNonNegative (db (runOps ops w)) = true.
Proof.
  induction ops as [|op ops IH]; intros w H; cbn; [exact H|].
  apply IH, applyOp_nonneg, H.
Qed.

(** *** The product an operation is applied to *)

Lemma productById_None id d r :
  productById id d = None -> In r (products d) -> Product.id r <> id.
Proof.
  unfold productById. intros H Hin Hid.
  assert (Hf : In r (select_where (idIs id) (products d)))
    by (apply filter_In; split; [exact Hin | now apply String.eqb_eq]).
  destruct (select_where _ _); [destruct Hf | discriminate].
Qed.

Lemma clamped_rows_of pid p q t r :
  Product.id p = pid ->
  In r (update_where (idIs pid)
          (fun _ => Product.with_stockQuantity p (Z.max 0 q)) t) ->
  (In r t /\ Product.id r <> pid)
  \/ (r = Product.with_stockQuantity p (Z.max 0 q)).
Proof.
  intros Hp Hin. unfold update_where in Hin.
  apply in_map_iff in Hin as (r0 & Hr & Hin).
  destruct (idIs pid r0) eqn:E; [now right | left].
  subst r0. split; [exact Hin|]. now apply String.eqb_neq.
Qed.

Lemma clampsOneProduct_preserves t t' pid' pid :
  clampsOneProduct t t' pid' ->
  (forall r, In r t -> Product.id r = pid -> 0 <= Product.stockQuantity r) ->
  forall r, In r t' -> Product.id r = pid -> 0 <= Product.stockQuantity r.
Proof.
  intros [-> | (p & q & Hp & ->)] H r Hin Hid; [now apply H|].
  destruct (clamped_rows_of _ _ _ _ _ Hp Hin) as [[Hin' _] | ->].
  - now apply H.
  - cbn. apply Z.le_max_l.
Qed.

Lemma createStockMovement_clamps im w :
  clampsOneProduct (products (db w))
    (products (db (snd (createStockMovement im w))))
    (InsertStockMovement.productId im).
Proof.
  rewrite createStockMovement_products.
  destruct (productById _ _) as [p|] eqn:Hp; [right | now left].
  exists p. eexists. split; [now apply (productById_id _ _ _ Hp) | reflexivity].
Qed.

Lemma createOrder_item_clamps id orderNumber item w :
  clampsOneProduct (products (db w))
    (products (db (snd (createOrder_item id orderNumber item w))))
    (InsertOrderItem.productId item).
Proof.
  rewrite createOrder_item_products.
  destruct (productById _ _) as [p|] eqn:Hp; [right | now left].
  exists p. eexists. split; [now apply (productById_id _ _ _ Hp) | reflexivity].
Qed.

Lemma createReturn_item_clamps returnId returnNumber item w :
  clampsOneProduct (products (db w))
    (products (db (snd (createReturn_item returnId returnNumber item w))))
    (InsertReturnItem.productId item).
Proof.
  rewrite createReturn_item_products.
  destruct (productById _ _) as [p|] eqn:Hp; [right | now left].
  exists p. eexists. split; [now apply (productById_id _ _ _ Hp) | reflexivity].
Qed.

(** A step that names the product leaves all its rows clamped, whatever
    they held before. *)
Lemma clamp_establishes pid w w' :
  (match productById pid (db w) with
   | Some p => exists q,
       products (db w')
       = update_where (idIs pid)
           (fun _ => Product.with_stockQuantity p (Z.max 0 q))
           (products (db w))
   | None => products (db w') = products (db w)
   end) ->
  stockNonNegativeOf pid (db w').
Proof.
  intros H r Hin Hid.
  destruct (productById pid (db w)) as [p|] eqn:Hp.
  - destruct H as [q H]. rewrite H in Hin.
    destruct (clamped_rows_of _ _ _ _ _ (productById_id _ _ _ Hp) Hin)
      as [[_ Hne] | ->]; [contradiction|].
    cbn. apply Z.le_max_l.
  - rewrite H in Hin. now destruct (productById_None _ _ _ Hp Hin).
Qed.

Lemma for_of_establishes {A B} (P : World -> Prop) (body : A -> M B)
  (hit : A -> bool) :
  (forall x w, P w -> P (snd (body x w))) ->
  (forall x w, hit x = true -> P (snd (body x w))) ->
  forall xs w, existsb hit xs = true -> P (snd (for_of xs body w)).
Proof.
  intros Hkeep Hhit xs. induction xs as [|x xs IH]; intros w Hex;
    [discriminate|].
  cbn in Hex |- *. unfold bind.
  destruct (hit x) eqn:Hx.
  - pose proof (Hhit x w Hx) as H1.
    destruct (body x w) as [b w1]. cbn [snd] in H1.
    pose proof (for_of_preserves P body Hkeep xs w1 H1) as H2.
    now destruct (for_of xs body w1).
  - destruct (body x w) as [b w1]. specialize (IH w1 Hex).
    now destruct (for_of xs body w1).
Qed.

(** Whatever the stock was before, an operation applied to a product
    leaves that product with a stock quantity of at least zero. *)
Lemma applied_operation_clamps pid op w :
  appliedTo pid op = true ->
  stockNonNegativeOf pid (db (snd (applyOp op w))).
Proof.
  destruct op as [o items | r items | m]; cbn [appliedTo]; intros Happ.
  - unfold applyOp, createOrder. run_monad.
    match goal with
    | |- context [for_of items ?body ?w1] =>
        pose proof (for_of_establishes
          (fun w => stockNonNegativeOf pid (db w)) body
          (fun i => String.eqb (InsertOrderItem.productId i) pid)) as Hloop;
        specialize (fun H1 H2 => Hloop H1 H2 items w1 Happ);
        destruct (for_of items body w1) as [created w2]
    end.
    apply Hloop.
    + intros x w0 H. unfold stockNonNegativeOf.
      eapply clampsOneProduct_preserves; [apply createOrder_item_clamps|].
      exact H.
    + intros x w0 Hx. apply String.eqb_eq in Hx. subst pid.
      apply (clamp_establishes _ w0). rewrite createOrder_item_products.
      destruct (productById _ _); [eexists|]; reflexivity.
  - unfold applyOp, createReturn. run_monad.
    match goal with
    | |- context [for_of items ?body ?w1] =>
        pose proof (for_of_establishes
          (fun w => stockNonNegativeOf pid (db w)) body
          (fun i => String.eqb (InsertReturnItem.productId i) pid)) as Hloop;
        specialize (fun H1 H2 => Hloop H1 H2 items w1 Happ);
        destruct (for_of items body w1) as [created w2]
    end.
    apply Hloop.
    + intros x w0 H. unfold stockNonNegativeOf.
      eapply clampsOneProduct_preserves; [apply createReturn_item_clamps|].
      exact H.
    + intros x w0 Hx. apply String.eqb_eq in Hx. subst pid.
      apply (clamp_establishes _ w0). rewrite createReturn_item_products.
      destruct (productById _ _); [eexists|]; reflexivity.
  - apply String.eqb_eq in Happ. subst pid. unfold applyOp, bind, ret.
    pose proof (createStockMovement_products m w) as H.
    destruct (createStockMovement m w) as [mv w1]. cbn [snd] in H |- *.
    apply (clamp_establishes _ w). rewrite H.
    destruct (productById _ _); [eexists|]; reflexivity.
Qed.

(** *** One order line, one return line *)



(** C1 (defect). A sale of [q = 3] against a stock of [s = 10] leaves the
    product at [4 = max 0 (s - 2q)], not at [7 = max 0 (s - q)]: the order
    line writes [s - q] itself and the nested [out] movement subtracts
    [q] again.  The statistics row counts the sale once ([sold] grows by
    exactly [3]) and records [available = 7], which no longer matches the
    product row. *)
Theorem C1_createOrder_double_decrement :
  let w' := snd (createOrder Sample.order [Sample.orderLine 3] (Sample.shop 10)) in
  option_map Product.stockQuantity (productById "p1" (db w')) = Some 4
  /\ option_map StockStats.sold (statsByProduct "p1" (db w')) = Some 3
  /\ option_map StockStats.available (statsByProduct "p1" (db w')) = Some 7.
Proof. vm_compute. repeat split. Qed.

(** C2 (defect). A return of [q = 2] against a stock of [s = 5] leaves the
    product at [9 = s + 2q], not at [7 = s + q]: the return line writes
    [s + q] itself and the nested [in] movement adds [q] again.  The
    [returned] counter grows by exactly [2]. *)
Theorem C2_createReturn_double_increment :
  let w' := snd (createReturn Sample.returnData [Sample.returnLine 2]
                   (Sample.shop 5)) in
  option_map Product.stockQuantity (productById "p1" (db w')) = Some 9
  /\ option_map StockStats.returned (statsByProduct "p1" (db w')) = Some 2
  /\ option_map StockStats.available (statsByProduct "p1" (db w')) = Some 9.
Proof. vm_compute. repeat split. Qed.

(** The invariant on the whole product table: when no stock quantity
    is negative, none is after any prefix of any sequence of operations. *)
Lemma stock_invariant_preserved (ops : list StockOp) (w : World) (n : nat) :
  stockNonNegative (db w) = true ->
  stockNonNegative (db (runOps (firstn n ops) w)) = true.
Proof. apply runOps_nonneg. Qed.

Lemma applyOp_preserves_of pid op w :
  stockNonNegativeOf pid (db w) ->
  stockNonNegativeOf pid (db (snd (applyOp op w))).
Proof.
  intros H. destruct op as [o items | r items | m].
  - unfold applyOp, createOrder. run_monad.
    match goal with
    | |- context [for_of items ?body ?w1] =>
        pose proof (for_of_preserves
          (fun w => stockNonNegativeOf pid (db w)) body) as Hloop;
        specialize (fun Hb => Hloop Hb items w1 H);
        destruct (for_of items body w1) as [created w2]
    end.
    apply Hloop. intros x w0 H0. unfold stockNonNegativeOf.
    eapply clampsOneProduct_preserves; [apply createOrder_item_clamps|].
    exact H0.
  - unfold applyOp, createReturn. run_monad.
    match goal with
    | |- context [for_of items ?body ?w1] =>
        pose proof (for_of_preserves
          (fun w => stockNonNegativeOf pid (db w)) body) as Hloop;
        specialize (fun Hb => Hloop Hb items w1 H);
        destruct (for_of items body w1) as [created w2]
    end.
    apply Hloop. intros x w0 H0. unfold stockNonNegativeOf.
    eapply clampsOneProduct_preserves; [apply createReturn_item_clamps|].
    exact H0.
  - unfold applyOp, bind, ret.
    pose proof (createStockMovement_clamps m w) as Hc.
    destruct (createStockMovement m w) as [mv w1]. cbn [snd] in Hc |- *.
    unfold stockNonNegativeOf.
    eapply clampsOneProduct_preserves; [exact Hc | exact H].
Qed.

Lemma runOps_preserves_of pid ops :
  forall w, stockNonNegativeOf pid (db w) ->
            stockNonNegativeOf pid (db (runOps ops w)).
Proof.
  induction ops as [|op ops IH]; intros w H; cbn; [exact H|].
  apply IH, applyOp_preserves_of, H.
Qed.

(** C3. For every product and every finite sequence of sales, returns
    and manual movements applied to it, whatever the database held
    before: after each completed operation (after every non-empty prefix
    of the sequence) every row of the product has [stockQuantity >= 0].
    The operations are total functions: a result below zero is clamped
    to zero, no operation is refused. *)
Theorem C3_stock_never_negative
  (pid : string) (ops : list StockOp) (w : World) (n : nat) :
  forallb (appliedTo pid) ops = true ->
  (0 < n <= List.length ops)%nat ->
  stockNonNegativeOf pid (db (runOps (firstn n ops) w)).
Proof.
  intros Hall [Hn Hlen].
  destruct ops as [|op ops]; [cbn in Hlen; lia|].
  destruct n as [|n]; [lia|].
  cbn in Hall. apply andb_true_iff in Hall as [Hop _].
  cbn [firstn runOps].
  apply runOps_preserves_of, applied_operation_clamps, Hop.
Qed.

Lemma C3_stock_never_negative_witness :
  map Product.stockQuantity
      (products
         (db (runOps
                (firstn 2 [Sale Sample.order [Sample.orderLine 5];
                           ReturnIntake Sample.returnData [Sample.returnLine 1];
                           ManualMovement (Sample.movement Out 9 "damaged")])
                (Sample.shop 3))))
  = [2]
  /\ stockNonNegativeOf "p1"
       (db (runOps
              (firstn 2 [Sale Sample.order [Sample.orderLine 5];
                         ReturnIntake Sample.returnData [Sample.returnLine 1];
                         ManualMovement (Sample.movement Out 9 "damaged")])
              (Sample.shop 3))).
Proof.
  split; [reflexivity|].
  apply (C3_stock_never_negative "p1"
           [Sale Sample.order [Sample.orderLine 5];
            ReturnIntake Sample.returnData [Sample.returnLine 1];
            ManualMovement (Sample.movement Out 9 "damaged")]
           (Sample.shop 3) 2).
  - reflexivity.
  - cbn. lia.
Defined.

(** C4. A movement of type [adjustment] with quantity [v] on an existing
    product sets its stock to [max 0 v] whatever the stock was before,
    and the ledger gains exactly one row that carries the supplied
    product, type, quantity [v], reason and notes unchanged. *)
Theorem C4_adjustment_sets_absolute_stock
  (im : InsertStockMovement.t) (w : World) (p : Product.t) :
  InsertStockMovement.type im = Adjustment ->
  productById (InsertStockMovement.productId im) (db w) = Some p ->
  let w' := snd (createStockMovement im w) in
  productById (InsertStockMovement.productId im) (db w')
  = Some (Product.with_stockQuantity p
            (Z.max 0 (InsertStockMovement.quantity im)))
  /\ (forall r, In r (products (db w')) ->
        Product.id r = InsertStockMovement.productId im ->
        Product.stockQuantity r = Z.max 0 (InsertStockMovement.quantity im))
  /\ stockMovements (db w')
     = (stockMovements (db w) ++ [movementRow (entropy w (draws w)) im])%list
  /\ StockMovement.quantity (movementRow (entropy w (draws w)) im)
     = InsertStockMovement.quantity im
  /\ StockMovement.type (movementRow (entropy w (draws w)) im) = Adjustment.
Proof.
  intros Hty Hp w'. subst w'.
  pose proof (productById_idIs _ _ _ Hp) as Hid.
  repeat split.
  - unfold productById at 1. rewrite createStockMovement_products, Hp, Hty.
    cbn [newQuantity]. rewrite first_select_update by (intros; exact Hid).
    fold (productById (InsertStockMovement.productId im) (db w)).
    now rewrite Hp.
  - intros r Hin Hr. rewrite createStockMovement_products, Hp, Hty in Hin.
    cbn [newQuantity] in Hin. unfold update_where in Hin.
    apply in_map_iff in Hin as [r0 [Hr0 _]].
    destruct (idIs _ r0) eqn:E.
    + now subst r.
    + subst r0. unfold idIs in E. rewrite Hr, String.eqb_refl in E.
      discriminate.
  - apply createStockMovement_stockMovements.
  - cbn. exact Hty.
Qed.

Lemma C4_adjustment_sets_absolute_stock_witness :
  productById "p1"
    (db (snd (createStockMovement
                (Sample.movement Adjustment 42 "physical-count")
                (Sample.shop 7))))
  = Some (Sample.shirt 42).
Proof.
  exact (proj1 (C4_adjustment_sets_absolute_stock
                  (Sample.movement Adjustment 42 "physical-count")
                  (Sample.shop 7) (Sample.shirt 7) eq_refl eq_refl)).
Defined.

(* ================================================================== *)
(** ** Facts about binary64 comparison and rounding *)
(* ================================================================== *)




Lemma positive_not_le_zero (x : JS.number) :
  JS.lt JS.zero x = true -> JS.le x JS.zero = false.
Proof. destruct x as [s|s| |s m e]; cbn; try congruence; now destruct s. Qed.

Lemma negative_not_positive (x : JS.number) :
  JS.lt x JS.zero = true -> JS.gt x JS.zero = false.
Proof. destruct x as [s|s| |s m e]; cbn; try congruence; now destruct s. Qed.

Lemma eq_zero_not_positive (x : JS.number) :
  JS.eq x JS.zero = true -> JS.gt x JS.zero = false.
Proof. destruct x as [s|s| |s m e]; cbn; try congruence; now destruct s. Qed.

Lemma eq_zero_not_negative (x : JS.number) :
  JS.eq x JS.zero = true -> JS.lt x JS.zero = false.
Proof. destruct x as [s|s| |s m e]; cbn; try congruence; now destruct s. Qed.

Lemma binary_round_aux_sign s m e l :
  binary_round_aux JS.prec JS.emax s m e l
  = JS.withSign s (binary_round_aux JS.prec JS.emax false m e l).
Proof.
  unfold binary_round_aux.
  destruct (shr_fexp _ _ m e l) as [mrs' e'].
  destruct (shr_fexp _ _ _ e' loc_Exact) as [mrs'' e''].
  destruct (shr_m mrs''); try reflexivity.
  now destruct (e'' <=? _).
Qed.

Lemma binary_round_sign s m e :
  binary_round JS.prec JS.emax s m e
  = JS.withSign s (binary_round JS.prec JS.emax false m e).
Proof.
  unfold binary_round. destruct (shl_align _ _ _) as [mz ez].
  apply binary_round_aux_sign.
Qed.

Lemma withSign_false_not_negative x : JS.lt (JS.withSign false x) JS.zero = false.
Proof. now destruct x. Qed.

Lemma abs_withSign s x : JS.abs (JS.withSign s x) = JS.withSign false x.
Proof. now destruct x. Qed.

Lemma sub_finite sx mx ex sy my ey :
  JS.sub (S754_finite sx mx ex) (S754_finite sy my ey)
  = binary_normalize JS.prec JS.emax
      (cond_Zopp sx (Zpos (fst (shl_align mx ex (Z.min ex ey))))
       - cond_Zopp sy (Zpos (fst (shl_align my ey (Z.min ex ey)))))
      (Z.min ex ey) false.
Proof. reflexivity. Qed.

Lemma binary_normalize_opp z e :
  JS.lt (binary_normalize JS.prec JS.emax z e false) JS.zero = true ->
  JS.abs (binary_normalize JS.prec JS.emax z e false)
  = binary_normalize JS.prec JS.emax (- z) e false.
Proof.
  destruct z as [|k|k]; cbn [binary_normalize Z.opp].
  - discriminate.
  - rewrite binary_round_sign, withSign_false_not_negative. discriminate.
  - intros _. rewrite (binary_round_sign true), abs_withSign.
    symmetry. apply binary_round_sign.
Qed.

(** When [x - y] is negative, [Math.abs(x - y)] is [y - x]. *)
Lemma abs_sub_negative (x y : JS.number) :
  JS.lt (JS.sub x y) JS.zero = true -> JS.abs (JS.sub x y) = JS.sub y x.
Proof.
  destruct x as [sx|sx| |sx mx ex], y as [sy|sy| |sy my ey];
    try (cbn; discriminate);
    try (destruct sx; cbn; (discriminate || reflexivity));
    try (destruct sy; cbn; (discriminate || reflexivity));
    try (destruct sx, sy; cbn; (discriminate || reflexivity)).
  rewrite !sub_finite. intros H.
  rewrite (binary_normalize_opp _ _ H), (Z.min_comm ey ex).
  f_equal. lia.
Qed.


(** A non-negative number minus [y] can only be negative when [y] is
    positive. *)
Lemma sub_negative_from_nonneg (x y : JS.number) :
  JS.le JS.zero x = true -> JS.lt (JS.sub x y) JS.zero = true ->
  JS.gt y JS.zero = true.
Proof.
  destruct x as [sx|sx| |sx mx ex], y as [sy|sy| |sy my ey];
    try (cbn; discriminate);
    try (destruct sx; cbn; (discriminate || reflexivity));
    try (destruct sy; cbn; (discriminate || reflexivity));
    try (destruct sx, sy; cbn; (discriminate || reflexivity)).
  destruct sx; [cbn; discriminate|]. intros _. rewrite sub_finite.
  destruct sy; [|reflexivity].
  cbn [cond_Zopp]. rewrite Z.sub_opp_r. cbn [Z.add binary_normalize].
  rewrite binary_round_sign, withSign_false_not_negative. discriminate.
Qed.

(* ================================================================== *)
(** ** Rounding never turns a representable magnitude into zero *)
(* ================================================================== *)

Lemma digits2_log2 m : Zpos (digits2_pos m) = Z.log2 (Zpos m) + 1.
Proof.
  induction m as [m IH|m IH|]; cbn [digits2_pos]; [| |reflexivity];
    rewrite Pos2Z.inj_succ, IH.
  - change (Zpos m~1) with (2 * Zpos m + 1).
    rewrite Z.log2_succ_double by lia. lia.
  - change (Zpos m~0) with (2 * Zpos m).
    rewrite Z.log2_double by lia. lia.
Qed.

Lemma Zdigits2_log2 z : 0 < z -> Zdigits2 z = Z.log2 z + 1.
Proof. destruct z; try lia. intros _. apply digits2_log2. Qed.

Lemma shr_1_div2 mrs : 0 <= shr_m mrs -> shr_m (shr_1 mrs) = Z.div2 (shr_m mrs).
Proof.
  destruct mrs as [m r s]. cbn [shr_m]. intros H.
  destruct m as [|[p|p|]|p]; try reflexivity; lia.
Qed.

Lemma iter_shr_1 p : forall mrs,
  0 <= shr_m mrs ->
  shr_m (iter_pos shr_1 p mrs) = Z.shiftr (shr_m mrs) (Zpos p).
Proof.
  induction p as [p IH|p IH|]; intros mrs H; cbn [iter_pos].
  - assert (H1 : 0 <= shr_m (shr_1 mrs)).
    { rewrite shr_1_div2, Z.div2_spec by exact H. now apply Z.shiftr_nonneg. }
    assert (H2 : 0 <= shr_m (iter_pos shr_1 p (shr_1 mrs))).
    { rewrite IH by exact H1. now apply Z.shiftr_nonneg. }
    rewrite IH, IH, shr_1_div2, Z.div2_spec, !Z.shiftr_shiftr by (lia || assumption).
    f_equal. lia.
  - assert (H2 : 0 <= shr_m (iter_pos shr_1 p mrs)).
    { rewrite IH by exact H. now apply Z.shiftr_nonneg. }
    rewrite IH, IH, !Z.shiftr_shiftr by (lia || assumption).
    f_equal. lia.
  - rewrite shr_1_div2, Z.div2_spec by exact H. reflexivity.
Qed.

(** Shifting right by fewer bits than the number has keeps it positive
    and keeps its JS.magnitude. *)
Lemma shiftr_positive z n :
  0 < z -> 0 <= n -> n < Zdigits2 z ->
  0 < Z.shiftr z n /\ Zdigits2 (Z.shiftr z n) = Zdigits2 z - n.
Proof.
  intros Hz Hn Hlt. rewrite Zdigits2_log2 in Hlt by exact Hz.
  assert (Hpos : 0 < Z.shiftr z n).
  { assert (H0 : 0 <= Z.shiftr z n) by (apply Z.shiftr_nonneg; lia).
    assert (Hne : Z.shiftr z n <> 0).
    { intros E. apply Z.shiftr_eq_0_iff in E. lia. }
    lia. }
  split; [exact Hpos|].
  rewrite !Zdigits2_log2, Z.log2_shiftr by assumption. lia.
Qed.

Lemma shr_positive m r s e n :
  0 < m -> n < Zdigits2 m ->
  let '(mrs, e') := shr (Build_shr_record m r s) e n in
  0 < shr_m mrs /\ Zdigits2 (shr_m mrs) + e' = Zdigits2 m + e.
Proof.
  intros Hm Hn. unfold shr. destruct n as [|p|p]; cbn [shr_m];
    try (split; [exact Hm | reflexivity]).
  rewrite iter_shr_1 by (cbn; lia). cbn [shr_m].
  destruct (shiftr_positive m (Zpos p) Hm ltac:(lia) Hn) as [H1 H2].
  split; [exact H1 | lia].
Qed.

Lemma shr_record_of_loc_m m l : shr_m (shr_record_of_loc m l) = m.
Proof. destruct l as [|[ | | ]]; reflexivity. Qed.

Lemma fexp_shift_small d e :
  0 < d -> JS.prec = 53 -> emin JS.prec JS.emax < d + e ->
  fexp JS.prec JS.emax (d + e) - e < d.
Proof. unfold fexp, emin, JS.prec, JS.emax. lia. Qed.

Lemma shr_fexp_positive m e l :
  0 < m -> emin JS.prec JS.emax < Zdigits2 m + e ->
  let '(mrs, e') := shr_fexp JS.prec JS.emax m e l in
  0 < shr_m mrs /\ Zdigits2 (shr_m mrs) + e' = Zdigits2 m + e
  /\ emin JS.prec JS.emax <= e'.
Proof.
  intros Hm He. unfold shr_fexp.
  assert (Hd : 0 < Zdigits2 m) by (rewrite Zdigits2_log2 by exact Hm;
                                   pose proof (Z.log2_nonneg m); lia).
  pose proof (fexp_shift_small (Zdigits2 m) e Hd eq_refl He) as Hn.
  destruct (shr_record_of_loc m l) as [m0 r s] eqn:Erec.
  assert (Hm0 : m0 = m).
  { pose proof (shr_record_of_loc_m m l) as H. now rewrite Erec in H. }
  subst m0.
  pose proof (shr_positive m r s e _ Hm Hn) as H.
  destruct (shr (Build_shr_record m r s) e _) as [mrs e'] eqn:Eshr.
  destruct H as [H1 H2]. repeat split; try assumption.
  unfold shr in Eshr.
  destruct (fexp JS.prec JS.emax (Zdigits2 m + e) - e) as [|p|p] eqn:En;
    injection Eshr as _ <-; unfold fexp in *; lia.
Qed.

Lemma round_nearest_even_ge m l :
  0 < m -> m <= round_nearest_even m l <= m + 1.
Proof.
  intros Hm. destruct l as [|[ | | ]]; cbn; try lia.
  destruct (Z.even m); lia.
Qed.

Lemma Zdigits2_mono a b : 0 < a -> a <= b -> Zdigits2 a <= Zdigits2 b.
Proof.
  intros Ha Hab. rewrite !Zdigits2_log2 by lia.
  pose proof (Z.log2_le_mono a b Hab). lia.
Qed.

(** Rounding a positive mantissa at or above the smallest subnormal
    never yields zero: the result is a finite number of at least the
    same JS.magnitude, or an infinity. *)
Lemma binary_round_aux_nonzero s m e l :
  emin JS.prec JS.emax < JS.magnitude m e ->
  (exists m' e', binary_round_aux JS.prec JS.emax s (Zpos m) e l
                 = S754_finite s m' e'
                 /\ JS.magnitude m e <= JS.magnitude m' e'
                 /\ emin JS.prec JS.emax <= e')
  \/ binary_round_aux JS.prec JS.emax s (Zpos m) e l = S754_infinity s.
Proof.
  unfold JS.magnitude. intros He. unfold binary_round_aux.
  pose proof (shr_fexp_positive (Zpos m) e l ltac:(lia) He) as H1.
  destruct (shr_fexp JS.prec JS.emax (Zpos m) e l) as [mrs' e'].
  destruct H1 as (Hpos1 & Hmag1 & Hmin1).
  pose proof (round_nearest_even_ge (shr_m mrs') (loc_of_shr_record mrs') Hpos1)
    as Hr.
  set (m1 := round_nearest_even (shr_m mrs') (loc_of_shr_record mrs')) in *.
  assert (Hd1 : Zdigits2 (shr_m mrs') <= Zdigits2 m1)
    by (apply Zdigits2_mono; lia).
  pose proof (shr_fexp_positive m1 e' loc_Exact ltac:(lia) ltac:(cbn in *; lia)) as H2.
  destruct (shr_fexp JS.prec JS.emax m1 e' loc_Exact) as [mrs'' e''].
  destruct H2 as (Hpos2 & Hmag2 & Hmin2).
  destruct (shr_m mrs'') as [|m2|m2] eqn:Em2; try lia.
  destruct (e'' <=? JS.emax - JS.prec); [left | now right].
  exists m2, e''. repeat split; [|exact Hmin2]. cbn in *. lia.
Qed.

Lemma digits2_iter_xO m d :
  Zpos (digits2_pos (Pos.iter xO m d)) = Zpos (digits2_pos m) + Zpos d.
Proof.
  induction d as [|d IH] using Pos.peano_ind.
  - cbn. lia.
  - rewrite Pos.iter_succ. cbn [digits2_pos]. lia.
Qed.

Lemma shl_align_magnitude m e e' :
  let '(mz, ez) := shl_align m e e' in JS.magnitude mz ez = JS.magnitude m e.
Proof.
  unfold shl_align, JS.magnitude. destruct (e' - e) as [|d|d] eqn:E;
    try reflexivity.
  rewrite digits2_iter_xO. lia.
Qed.

Lemma binary_round_nonzero s m e :
  emin JS.prec JS.emax < JS.magnitude m e ->
  (exists m' e', binary_round JS.prec JS.emax s m e = S754_finite s m' e'
                 /\ JS.magnitude m e <= JS.magnitude m' e'
                 /\ emin JS.prec JS.emax <= e')
  \/ binary_round JS.prec JS.emax s m e = S754_infinity s.
Proof.
  intros He. unfold binary_round.
  pose proof (shl_align_magnitude m e
                (fexp JS.prec JS.emax (Zpos (digits2_pos m) + e))) as Hm.
  destruct (shl_align m e _) as [mz ez]. rewrite <- Hm in *.
  apply binary_round_aux_nonzero, He.
Qed.

(** A positive integer converts to a number of JS.magnitude at least one. *)
Lemma ofZ_positive q :
  0 < q ->
  (exists m e, JS.ofZ q = S754_finite false m e /\ 1 <= JS.magnitude m e)
  \/ JS.ofZ q = S754_infinity false.
Proof.
  destruct q as [|k|k]; try lia. intros _. unfold JS.ofZ.
  cbn [binary_normalize].
  assert (Hk : emin JS.prec JS.emax < JS.magnitude k 0)
    by (unfold JS.magnitude, emin, JS.prec, JS.emax; lia).
  destruct (binary_round_nonzero false k 0 Hk) as [(m & e & H & Hmag & _) | H].
  - left. exists m, e. split; [exact H|]. unfold JS.magnitude in *. lia.
  - now right.
Qed.

Lemma valid_exponent s m e :
  valid_binary JS.prec JS.emax (S754_finite s m e) = true ->
  emin JS.prec JS.emax <= e.
Proof.
  unfold valid_binary, bounded, canonical_mantissa. intros H.
  apply andb_true_iff in H as [H _]. apply Z.eqb_eq in H.
  rewrite <- H. apply Z.le_max_r.
Qed.

Lemma shr_fexp_exponent m e l :
  emin JS.prec JS.emax <= snd (shr_fexp JS.prec JS.emax m e l).
Proof.
  unfold shr_fexp, shr.
  destruct (fexp JS.prec JS.emax (Zdigits2 m + e) - e) eqn:En; cbn [snd];
    unfold fexp in *; lia.
Qed.

Lemma binary_round_aux_exponent s m e l s' m' e' :
  binary_round_aux JS.prec JS.emax s m e l = S754_finite s' m' e' ->
  emin JS.prec JS.emax <= e'.
Proof.
  unfold binary_round_aux.
  destruct (shr_fexp _ _ m e l) as [mrs1 e1].
  match goal with
  | |- context [shr_fexp ?p ?x ?m1 e1 loc_Exact] =>
      pose proof (shr_fexp_exponent m1 e1 loc_Exact) as He;
      destruct (shr_fexp p x m1 e1 loc_Exact) as [mrs2 e2]
  end.
  cbn [snd] in He.
  destruct (shr_m mrs2); try discriminate.
  destruct (e2 <=? _); try discriminate.
  intros H. now injection H as _ _ <-.
Qed.

Lemma binary_normalize_exponent z e s m e' :
  binary_normalize JS.prec JS.emax z e false = S754_finite s m e' ->
  emin JS.prec JS.emax <= e'.
Proof.
  destruct z as [|k|k]; cbn [binary_normalize]; [discriminate| |];
    unfold binary_round; destruct (shl_align _ _ _) as [mz ez];
    apply binary_round_aux_exponent.
Qed.

(** A well-formed finite number has an exponent of at least [emin]; so
    has every finite difference of two well-formed numbers. *)
Lemma sub_exponent x y s m e :
  valid_binary JS.prec JS.emax x = true ->
  valid_binary JS.prec JS.emax y = true ->
  JS.sub x y = S754_finite s m e -> emin JS.prec JS.emax <= e.
Proof.
  intros Hx Hy.
  destruct x as [sx|sx| |sx mx ex], y as [sy|sy| |sy my ey];
    try (cbn; discriminate);
    try (destruct sx; cbn; discriminate);
    try (destruct sx, sy; cbn; discriminate).
  - cbn. intros H. injection H as _ <- <-. now apply valid_exponent in Hy.
  - cbn. intros H. injection H as _ <- <-. now apply valid_exponent in Hx.
  - apply binary_normalize_exponent.
Qed.

(** The product of a negative number and a positive integer is
    negative: it can neither vanish nor change sign. *)
Lemma mul_negative_by_positive d q :
  (forall s m e, d = S754_finite s m e -> emin JS.prec JS.emax <= e) ->
  JS.lt d JS.zero = true -> 0 < q ->
  JS.lt (JS.mul d (JS.ofZ q)) JS.zero = true.
Proof.
  intros Hexp Hneg Hq.
  destruct (ofZ_positive q Hq) as [(mq & eq & -> & Hmag) | ->];
    destruct d as [sd|sd| |sd md ed]; try discriminate Hneg;
    destruct sd; try discriminate Hneg; try reflexivity.
  unfold JS.mul. cbn [SFmul xorb].
  specialize (Hexp _ _ _ eq_refl).
  assert (Hm : emin JS.prec JS.emax < JS.magnitude (md * mq) (ed + eq)).
  { unfold JS.magnitude in *. rewrite !digits2_log2 in *.
    rewrite Pos2Z.inj_mul.
    pose proof (Z.log2_mul_below (Zpos md) (Zpos mq) ltac:(lia) ltac:(lia)).
    pose proof (Z.log2_nonneg (Zpos md)). lia. }
  destruct (binary_round_aux_nonzero true (md * mq) (ed + eq) loc_Exact Hm)
    as [(m' & e' & -> & _) | ->]; reflexivity.
Qed.

(* ================================================================== *)
(** ** Comparison against subtraction *)
(* ================================================================== *)

Lemma Zpos_iter_xO m d : Zpos (Pos.iter xO m d) = Zpos m * 2 ^ Zpos d.
Proof.
  induction d as [|d IH] using Pos.peano_ind.
  - cbn. lia.
  - rewrite Pos.iter_succ, Pos2Z.inj_succ, Z.pow_succ_r by lia.
    rewrite Pos2Z.inj_xO, IH. lia.
Qed.

(** The mantissa of [m * 2^e] once aligned on a smaller exponent. *)
Lemma shl_align_value m e ez :
  ez <= e -> Zpos (fst (shl_align m e ez)) = Zpos m * 2 ^ (e - ez).
Proof.
  intros H. unfold shl_align. destruct (ez - e) as [|d|d] eqn:E; cbn [fst].
  - replace (e - ez) with 0 by lia. lia.
  - lia.
  - rewrite Zpos_iter_xO. f_equal. f_equal. lia.
Qed.

Lemma digits2_bounds m :
  2 ^ (Zpos (digits2_pos m) - 1) <= Zpos m < 2 ^ Zpos (digits2_pos m).
Proof.
  rewrite digits2_log2.
  destruct (Z.log2_spec (Zpos m) ltac:(lia)) as [H1 H2].
  replace (Z.log2 (Zpos m) + 1 - 1) with (Z.log2 (Zpos m)) by lia.
  split; [exact H1 | exact H2].
Qed.

(** Of two well-formed positive mantissas, the one with the larger
    exponent is the larger number. *)
Lemma canonical_exponent_lt m1 e1 m2 e2 :
  canonical_mantissa JS.prec JS.emax m1 e1 = true ->
  canonical_mantissa JS.prec JS.emax m2 e2 = true ->
  e1 < e2 -> Zpos m1 < Zpos m2 * 2 ^ (e2 - e1).
Proof.
  unfold canonical_mantissa, fexp, emin, JS.prec, JS.emax.
  intros H1 H2 Hlt. apply Z.eqb_eq in H1, H2.
  assert (D2 : Zpos (digits2_pos m2) = 53) by lia.
  assert (D1 : Zpos (digits2_pos m1) <= 53) by lia.
  pose proof (digits2_bounds m1) as [_ B1].
  pose proof (digits2_bounds m2) as [B2 _].
  rewrite D2 in B2.
  assert (P1 : 2 ^ Zpos (digits2_pos m1) <= 2 ^ 53)
    by (apply Z.pow_le_mono_r; lia).
  assert (P2 : 2 ^ 1 <= 2 ^ (e2 - e1)) by (apply Z.pow_le_mono_r; lia).
  change (2 ^ 1) with 2 in P2. change (2 ^ (53 - 1)) with (2 ^ 52) in B2.
  change (2 ^ 53) with (2 * 2 ^ 52) in P1.
  nia.
Qed.

Lemma valid_canonical s m e :
  JS.wellFormed (S754_finite s m e) = true ->
  canonical_mantissa JS.prec JS.emax m e = true.
Proof.
  unfold JS.wellFormed, valid_binary, bounded. intros H.
  now apply andb_true_iff in H as [H _].
Qed.

Lemma binary_normalize_negative k e :
  emin JS.prec JS.emax <= e ->
  JS.lt (binary_normalize JS.prec JS.emax (Zneg k) e false) JS.zero = true.
Proof.
  intros He. cbn [binary_normalize].
  assert (Hm : emin JS.prec JS.emax < JS.magnitude k e)
    by (unfold JS.magnitude; lia).
  destruct (binary_round_nonzero true k e Hm) as [(m' & e' & -> & _) | ->];
    reflexivity.
Qed.

(** If [y] exceeds [x] then [x - y] is negative. *)
Lemma lt_sub_negative (x y : JS.number) :
  JS.wellFormed x = true -> JS.wellFormed y = true ->
  JS.lt x y = true -> JS.lt (JS.sub x y) JS.zero = true.
Proof.
  intros Hx Hy.
  destruct x as [sx|sx| |sx mx ex], y as [sy|sy| |sy my ey];
    try (cbn; discriminate);
    try (destruct sx; cbn; (discriminate || reflexivity));
    try (destruct sy; cbn; (discriminate || reflexivity));
    try (destruct sx, sy; cbn; (discriminate || reflexivity)).
  pose proof (valid_exponent sx mx ex Hx) as Ex.
  pose proof (valid_exponent sy my ey Hy) as Ey.
  pose proof (valid_canonical sx mx ex Hx) as Cx.
  pose proof (valid_canonical sy my ey Hy) as Cy.
  unfold JS.lt at 1, SFltb. cbn [SFcompare]. rewrite sub_finite.
  pose proof (shl_align_value mx ex (Z.min ex ey) ltac:(lia)) as Ax.
  pose proof (shl_align_value my ey (Z.min ex ey) ltac:(lia)) as Ay.
  set (ax := Zpos (fst (shl_align mx ex (Z.min ex ey)))) in *.
  set (ay := Zpos (fst (shl_align my ey (Z.min ex ey)))) in *.
  assert (Hneg : forall z, z < 0 ->
            JS.lt (binary_normalize JS.prec JS.emax z (Z.min ex ey) false)
                  JS.zero = true).
  { intros [|k|k] Hz; try lia. apply binary_normalize_negative. lia. }
  assert (Hax : 0 < ax) by (subst ax; lia).
  assert (Hay : 0 < ay) by (subst ay; lia).
  clearbody ax ay.
  change (Pos.compare_cont Eq mx my) with (Pos.compare mx my).
  destruct sx, sy; cbn [cond_Zopp]; try discriminate.
  - (* both negative *)
    destruct (ex ?= ey) eqn:He.
    + apply Z.compare_eq in He. subst ey.
      destruct (mx ?= my)%positive eqn:Hm; try discriminate. intros _.
      rewrite Pos.compare_gt_iff in Hm. apply Hneg.
      rewrite Z.min_id, Z.sub_diag, Z.pow_0_r, Z.mul_1_r in Ax, Ay. lia.
    + discriminate.
    + intros _. rewrite Z.compare_gt_iff in He. apply Hneg.
      pose proof (canonical_exponent_lt my ey mx ex Cy Cx He) as Hlt.
      rewrite Z.min_r in Ax, Ay by lia.
      rewrite Z.sub_diag, Z.pow_0_r, Z.mul_1_r in Ay.
      rewrite <- Ax in Hlt. lia.
  - (* negative minus positive *)
    intros _. apply Hneg. lia.
  - (* both positive *)
    destruct (ex ?= ey) eqn:He.
    + apply Z.compare_eq in He. subst ey.
      destruct (mx ?= my)%positive eqn:Hm; try discriminate. intros _.
      rewrite Pos.compare_lt_iff in Hm. apply Hneg.
      rewrite Z.min_id, Z.sub_diag, Z.pow_0_r, Z.mul_1_r in Ax, Ay. lia.
    + intros _. rewrite Z.compare_lt_iff in He. apply Hneg.
      pose proof (canonical_exponent_lt mx ex my ey Cx Cy He) as Hlt.
      rewrite Z.min_l in Ax, Ay by lia.
      rewrite Z.sub_diag, Z.pow_0_r, Z.mul_1_r in Ax.
      rewrite <- Ay in Hlt. lia.
    + discriminate.
Qed.

(* ================================================================== *)
(** ** Redeeming discount codes *)
(* ================================================================== *)


Lemma In_delete_where {A} (c : A -> bool) (t : list A) (r : A) :
  In r (delete_where c t) -> c r = false.
Proof.
  unfold delete_where. intros H. apply filter_In in H as [_ H].
  now apply negb_true_iff.
Qed.

Section DiscountCodes.

Variable parseFloat : string -> JS.number.
Variable toFixed : JS.number -> nat -> string.


(** C6. Whenever the request is one of the three error cases -- the code
    does not exist, the amount is not a number or is not positive, or the
    amount exceeds the balance of the code -- the result signals the
    error (nothing updated, nothing deleted) and the whole database,
    with the code and its balance, is exactly as before. *)
Theorem C6_error_leaves_store_unchanged
  (code amountUsed : string) (w : World) :
  let a := parseFloat amountUsed in
  let r := fst (useDiscountCode parseFloat toFixed code amountUsed w) in
  let w' := snd (useDiscountCode parseFloat toFixed code amountUsed w) in
  (discountCodeByCode code (db w) = None
   \/ (exists dc, discountCodeByCode code (db w) = Some dc
                  /\ (JS.isNaN a = true \/ JS.le a JS.zero = true))
   \/ (exists dc, discountCodeByCode code (db w) = Some dc
                  /\ JS.gt a (parseFloat (DiscountCode.amount dc)) = true)) ->
  w' = w
  /\ signalsError r = true
  /\ UseResult.updated r = None
  /\ UseResult.wasDeleted r = false
  /\ (UseResult.wasFound r = false <-> discountCodeByCode code (db w) = None).
Proof.
  intros a r w' H. subst r w'.
  unfold useDiscountCode, getDiscountCode. run_monad.
  fold (discountCodeByCode code (db w)). fold a.
  destruct H as [H | [(dc & H & Ha) | (dc & H & Ha)]]; rewrite H.
  - cbn. intuition congruence.
  - assert (E : JS.isNaN a || JS.le a JS.zero = true)
      by (destruct Ha as [-> | ->]; [reflexivity | apply orb_true_r]).
    rewrite E. cbn. intuition congruence.
  - destruct (JS.isNaN a || JS.le a JS.zero); [cbn; intuition congruence|].
    rewrite Ha. cbn. intuition congruence.
Qed.

(** Conversely, these are the only requests for which an error is
    signalled. *)
Lemma signalsError_cases (code amountUsed : string) (w : World) :
  signalsError (fst (useDiscountCode parseFloat toFixed code amountUsed w)) = true ->
  discountCodeByCode code (db w) = None
  \/ exists dc, discountCodeByCode code (db w) = Some dc
       /\ (JS.isNaN (parseFloat amountUsed) = true
           \/ JS.le (parseFloat amountUsed) JS.zero = true
           \/ JS.gt (parseFloat amountUsed)
                    (parseFloat (DiscountCode.amount dc)) = true).
Proof.
  unfold useDiscountCode, getDiscountCode. run_monad.
  fold (discountCodeByCode code (db w)).
  destruct (discountCodeByCode code (db w)) as [dc|]; [|now left].
  intros H. right. exists dc. split; [reflexivity|].
  destruct (JS.isNaN _) eqn:E1; [now left|].
  destruct (JS.le _ JS.zero) eqn:E2; [now right; left|].
  destruct (JS.gt _ _) eqn:E3; [now right; right|].
  cbn [orb] in H. cbv zeta in H.
  destruct (JS.le (JS.sub _ _) JS.lit_0_01); discriminate H.
Qed.

End DiscountCodes.


Lemma C6_error_leaves_store_unchanged_witness :
  snd (useDiscountCode JS.parseFloat JS.toFixed "CREDIT-1" "50.00"
         (SampleCredit.wallet "40.00"))
  = SampleCredit.wallet "40.00".
Proof.
  apply (C6_error_leaves_store_unchanged JS.parseFloat JS.toFixed
           "CREDIT-1" "50.00" (SampleCredit.wallet "40.00")).
  right; right. exists (SampleCredit.credit "40.00").
  split; reflexivity.
Defined.

(** Redemptions evaluated on concrete balances.  The amounts go through
    binary64: [0.30 - 0.29] evaluates to a little more than the literal
    [0.01], so one cent stays on the code, while [0.03 - 0.02] evaluates
    to a little less, so the code is deleted. *)
Example redeem_examples :
  let run balance amount :=
    let (r, w') := useDiscountCode JS.parseFloat JS.toFixed "CREDIT-1" amount
                     (SampleCredit.wallet balance) in
    (UseResult.wasDeleted r,
     map DiscountCode.amount (discountCodes (db w'))) in
  run "40.00" "40.00" = (true, [])
  /\ run "40.00" "39.995" = (true, [])
  /\ run "40.00" "12.50" = (false, ["27.50"])
  /\ run "0.30" "0.29" = (false, ["0.01"])
  /\ run "0.03" "0.02" = (true, [])
  /\ run "40.00" "40.01" = (false, ["40.00"])
  /\ run "40.00" "abc" = (false, ["40.00"])
  /\ run "40.00" "-1" = (false, ["40.00"]).
Proof. vm_compute. repeat split. Qed.

(* ================================================================== *)
(** ** Bulk stock statistics *)
(* ================================================================== *)

Section OrderByFacts.
Context {A K : Type}.
Variable le : K -> K -> bool.
Variable key : A -> K.
Hypothesis le_total : forall x y, le x y = true \/ le y x = true.

Lemma insertRow_Permutation r t : Permutation (r :: t) (insertRow le key r t).
Proof.
  induction t as [|x t IH]; cbn; [apply Permutation_refl|].
  destruct (le (key r) (key x)); [apply Permutation_refl|].
  eapply Permutation_trans; [apply perm_swap|]. now apply perm_skip.
Qed.

Lemma orderBy_Permutation t : Permutation t (orderBy le key t).
Proof.
  induction t as [|r t IH]; cbn; [constructor|].
  eapply Permutation_trans; [apply perm_skip, IH|].
  apply insertRow_Permutation.
Qed.

Lemma insertRow_HdRel x r t :
  byKey le key x r -> HdRel (byKey le key) x t ->
  HdRel (byKey le key) x (insertRow le key r t).
Proof.
  intros Hxr Hhd. destruct t as [|y t]; cbn; [now constructor|].
  destruct (le (key r) (key y)); constructor; [exact Hxr|].
  now inversion Hhd.
Qed.

Lemma insertRow_Sorted r t :
  Sorted (byKey le key) t -> Sorted (byKey le key) (insertRow le key r t).
Proof.
  induction t as [|x t IH]; cbn; intros Hs.
  - repeat constructor.
  - destruct (le (key r) (key x)) eqn:E.
    + constructor; [exact Hs | now constructor].
    + inversion Hs as [|? ? Ht Hhd]; subst.
      constructor; [now apply IH|].
      apply insertRow_HdRel; [|exact Hhd].
      destruct (le_total (key r) (key x)) as [H|H]; [congruence | exact H].
Qed.

Lemma orderBy_Sorted t : Sorted (byKey le key) (orderBy le key t).
Proof.
  induction t as [|r t IH]; cbn; [constructor | now apply insertRow_Sorted].
Qed.

End OrderByFacts.

(** *** The statistics table after the loop *)

Lemma select_firstn_nil {A} (c : A -> bool) (t : list A) :
  firstn 1 (select_where c t) = [] -> forall r, In r t -> c r = false.
Proof.
  intros H r Hin. destruct (c r) eqn:E; [|reflexivity].
  assert (Hf : In r (select_where c t)) by (apply filter_In; now split).
  destruct (select_where c t); [destruct Hf | discriminate].
Qed.

Lemma statsOf_true pid r : statsOf pid r = true <-> StockStats.productId r = pid.
Proof. apply String.eqb_eq. Qed.

Lemma statsOf_false pid r : statsOf pid r = false <-> StockStats.productId r <> pid.
Proof. apply String.eqb_neq. Qed.

(** After its iteration a product has a row, and all its rows carry the
    live stock quantity. *)
Lemma syncStats_covers p id t :
  exists r, rowOf (Product.id p) (syncStats p id t) r.
Proof.
  unfold syncStats, rowOf.
  destruct (firstn 1 (select_where _ t)) as [|r0 l] eqn:E.
  - exists (newStatsRow id p). split; [|reflexivity].
    apply in_or_app. right. now left.
  - assert (Hin : In r0 (select_where (statsOf (Product.id p)) t)).
    { destruct (select_where _ t); [discriminate|].
      cbn in E. injection E as -> _. now left. }
    apply filter_In in Hin as [Hin Hc].
    exists (StatsUpdate.merge
              (StatsUpdate.mk (Some (Product.stockQuantity p)) None None None) r0).
    split.
    + unfold update_where. apply in_map_iff. exists r0.
      now rewrite Hc.
    + cbn. now apply statsOf_true.
Qed.

Lemma syncStats_available p id t r :
  rowOf (Product.id p) (syncStats p id t) r ->
  StockStats.available r = Product.stockQuantity p.
Proof.
  unfold syncStats, rowOf. intros [Hin Hpid].
  destruct (firstn 1 (select_where _ t)) as [|r0 l] eqn:E.
  - apply in_app_or in Hin as [Hin | [<- | []]]; [|reflexivity].
    apply (select_firstn_nil _ _ E) in Hin. apply statsOf_false in Hin.
    contradiction.
  - unfold update_where in Hin. apply in_map_iff in Hin as (r1 & Hr & _).
    destruct (statsOf (Product.id p) r1) eqn:Hc.
    + now subst r.
    + subst r1. apply statsOf_false in Hc. contradiction.
Qed.

(** A product without a row gets a single fresh row with zero counters. *)
Lemma syncStats_fresh p id t r :
  (forall r0, ~ rowOf (Product.id p) t r0) ->
  rowOf (Product.id p) (syncStats p id t) r -> r = newStatsRow id p.
Proof.
  unfold syncStats, rowOf. intros Hnone [Hin Hpid].
  destruct (firstn 1 (select_where _ t)) as [|r0 l] eqn:E.
  - apply in_app_or in Hin as [Hin | [<- | []]]; [|reflexivity].
    exfalso. now apply (Hnone r).
  - exfalso.
    assert (Hin0 : In r0 (select_where (statsOf (Product.id p)) t)).
    { destruct (select_where _ t); [discriminate|].
      cbn in E. injection E as -> _. now left. }
    apply filter_In in Hin0 as [Hin0 Hc]. apply statsOf_true in Hc.
    now apply (Hnone r0).
Qed.

(** The rows of the other products are left alone. *)
Lemma syncStats_other p id t pid r :
  Product.id p <> pid ->
  rowOf pid (syncStats p id t) r <-> rowOf pid t r.
Proof.
  unfold syncStats, rowOf. intros Hne.
  destruct (firstn 1 (select_where _ t)) as [|r0 l] eqn:E.
  - split; intros [Hin Hpid]; (split; [|exact Hpid]).
    + apply in_app_or in Hin as [Hin | [<- | []]]; [exact Hin|].
      cbn in Hpid. contradiction.
    + apply in_or_app. now left.
  - unfold update_where. split; intros [Hin Hpid]; (split; [|exact Hpid]).
    + apply in_map_iff in Hin as (r1 & Hr & Hin).
      destruct (statsOf (Product.id p) r1) eqn:Hc.
      * subst r. cbn in Hpid. apply statsOf_true in Hc. congruence.
      * now subst r1.
    + apply in_map_iff. exists r. split; [|exact Hin].
      assert (Hc : statsOf (Product.id p) r = false)
        by (apply statsOf_false; congruence).
      now rewrite Hc.
Qed.

Lemma Synced_other ps t t' :
  Synced ps t t' ->
  forall pid r, (forall p, In p ps -> Product.id p <> pid) ->
                (rowOf pid t' r <-> rowOf pid t r).
Proof.
  induction 1 as [t | p ps id t t' _ IH]; intros pid r Hne; [reflexivity|].
  rewrite IH by (intros q Hq; apply Hne; now right).
  apply syncStats_other, Hne. now left.
Qed.

Lemma Synced_keeps_rows ps t t' :
  Synced ps t t' ->
  forall pid, (exists r, rowOf pid t r) -> exists r, rowOf pid t' r.
Proof.
  induction 1 as [t | p ps id t t' _ IH]; intros pid Hex; [exact Hex|].
  apply IH. destruct (String.eqb_spec (Product.id p) pid) as [<- | Hne].
  - apply syncStats_covers.
  - destruct Hex as [r Hr]. exists r.
    now apply (syncStats_other p id t pid r Hne).
Qed.

Lemma NoDup_ids_cons p ps :
  NoDup (map Product.id (p :: ps)) ->
  NoDup (map Product.id ps)
  /\ forall q, In q ps -> Product.id q <> Product.id p.
Proof.
  intros H. inversion H as [|? ? Hnotin Hnd]; subst. split; [exact Hnd|].
  intros q Hq Heq. apply Hnotin. rewrite <- Heq. now apply in_map.
Qed.

Lemma Synced_covers ps t t' :
  Synced ps t t' ->
  forall p, In p ps -> exists r, rowOf (Product.id p) t' r.
Proof.
  induction 1 as [t | p0 ps id t t' Hs IH]; intros p Hin; [destruct Hin|].
  destruct Hin as [-> | Hin]; [|now apply IH].
  apply (Synced_keeps_rows _ _ _ Hs), syncStats_covers.
Qed.

Lemma Synced_available ps t t' :
  Synced ps t t' -> NoDup (map Product.id ps) ->
  forall p r, In p ps -> rowOf (Product.id p) t' r ->
              StockStats.available r = Product.stockQuantity p.
Proof.
  induction 1 as [t | p0 ps id t t' Hs IH]; intros Hnd p r Hin Hr;
    [destruct Hin|].
  apply NoDup_ids_cons in Hnd as [Hnd Hne].
  destruct Hin as [-> | Hin]; [|now apply IH].
  apply (Synced_other _ _ _ Hs) in Hr; [|exact Hne].
  now apply (syncStats_available p id t).
Qed.

Lemma Synced_fresh ps t t' :
  Synced ps t t' -> NoDup (map Product.id ps) ->
  forall p r, In p ps -> (forall r0, ~ rowOf (Product.id p) t r0) ->
              rowOf (Product.id p) t' r ->
              exists id, r = newStatsRow id p.
Proof.
  induction 1 as [t | p0 ps id t t' Hs IH]; intros Hnd p r Hin Hnone Hr;
    [destruct Hin|].
  apply NoDup_ids_cons in Hnd as [Hnd Hne].
  destruct Hin as [-> | Hin].
  - apply (Synced_other _ _ _ Hs) in Hr; [|exact Hne].
    exists id. now apply (syncStats_fresh p id t).
  - apply (IH Hnd p r Hin); [|exact Hr].
    intros r0 Hr0. apply syncStats_other in Hr0; [now apply (Hnone r0)|].
    intros Heq. now apply (Hne p Hin).
Qed.

Lemma distinct_NoDup ids : distinct ids = true -> NoDup ids.
Proof.
  induction ids as [|id rest IH]; cbn; intros H; constructor;
    apply andb_true_iff in H as [Hhd Htl]; [|now apply IH].
  intros Hin. apply negb_true_iff in Hhd.
  assert (E : existsb (String.eqb id) rest = true)
    by (apply existsb_exists; exists id; split;
        [exact Hin | apply String.eqb_refl]).
  congruence.
Qed.

Lemma statsByProduct_None pid d :
  statsByProduct pid d = None -> forall r, ~ rowOf pid (stockStats d) r.
Proof.
  unfold statsByProduct. intros H r [Hin Hpid].
  assert (Hf : In r (select_where (statsOf pid) (stockStats d)))
    by (apply filter_In; split; [exact Hin | now apply statsOf_true]).
  destruct (select_where _ _); [destruct Hf | discriminate].
Qed.

Section StockStatsCache.

Variable collation : string -> string -> bool.
Hypothesis collation_total :
  forall x y, collation x y = true \/ collation y x = true.

Lemma getStockStats_step p w :
  products (db (snd (syncProduct p w))) = products (db w)
  /\ stockStats (db (snd (syncProduct p w)))
     = syncStats p (entropy w (draws w)) (stockStats (db w)).
Proof.
  unfold syncProduct, syncStats. run_monad.
  destruct (firstn 1 _); split; reflexivity.
Qed.

Lemma getStockStats_loop ps :
  forall w,
    products (db (snd (for_of ps syncProduct w))) = products (db w)
    /\ Synced ps (stockStats (db w)) (stockStats (db (snd (for_of ps syncProduct w)))).
Proof.
  induction ps as [|p ps IH]; intros w.
  - split; [reflexivity | constructor].
  - destruct (getStockStats_step p w) as [Hp Hs].
    cbn [for_of]. unfold bind, ret.
    destruct (syncProduct p w) as [u w1]. cbn [snd] in Hp, Hs.
    destruct (IH w1) as [IHp IHs].
    destruct (for_of ps syncProduct w1) as [us w2]. cbn [snd] in IHp, IHs |- *.
    split; [congruence|].
    apply Synced_cons with (id := entropy w (draws w)).
    rewrite <- Hs. exact IHs.
Qed.

(** C7. After the bulk [getStockStats()], provided product ids are
    unique (the primary key): the products are untouched; every product
    has a statistics row; the rows of a product that had none are new
    rows with [sold = returned = purchased = 0] and [available] equal to
    its stock quantity; every returned row that belongs to a product
    carries that product's live stock quantity in [available]; and the
    returned list is the statistics table sorted by [productName]. *)
Theorem C7_getStockStats_reconciles (w : World) :
  let stats := fst (getStockStats collation w) in
  let w' := snd (getStockStats collation w) in
  uniqueProductIds (db w) = true ->
  products (db w') = products (db w)
  /\ (forall p, In p (products (db w)) ->
        exists r, In r (stockStats (db w'))
                  /\ StockStats.productId r = Product.id p)
  /\ (forall p r, In p (products (db w)) ->
        statsByProduct (Product.id p) (db w) = None ->
        In r (stockStats (db w')) ->
        StockStats.productId r = Product.id p ->
        StockStats.sold r = 0 /\ StockStats.returned r = 0
        /\ StockStats.purchased r = 0
        /\ StockStats.available r = Product.stockQuantity p)
  /\ (forall p r, In p (products (db w')) -> In r stats ->
        StockStats.productId r = Product.id p ->
        StockStats.available r = Product.stockQuantity p)
  /\ Permutation (stockStats (db w')) stats
  /\ Sorted (byProductName collation) stats.
Proof.
  intros stats w' Hnd. subst stats w'. apply distinct_NoDup in Hnd.
  unfold getStockStats. run_monad.
  pose proof (getStockStats_loop (products (db w)) w) as Hloop.
  destruct (for_of (products (db w)) syncProduct w) as [us w1].
  cbn [snd fst db] in Hloop |- *. destruct Hloop as [Hp Hs].
  split; [exact Hp|]. split; [|split; [|split; [|split]]].
  - intros p Hin. destruct (Synced_covers _ _ _ Hs p Hin) as [r Hr].
    now exists r.
  - intros p r Hin Hnone Hr Hpid.
    destruct (Synced_fresh _ _ _ Hs Hnd p r Hin) as [id ->];
      [now apply statsByProduct_None | now split | now repeat split].
  - intros p r Hin Hr Hpid. rewrite Hp in Hin.
    apply (Synced_available _ _ _ Hs Hnd p r Hin). split; [|exact Hpid].
    eapply Permutation_in; [|exact Hr].
    apply Permutation_sym, orderBy_Permutation.
  - apply orderBy_Permutation.
  - apply orderBy_Sorted, collation_total.
Qed.

End StockStatsCache.

Lemma C7_getStockStats_reconciles_witness :
  map (fun r => (StockStats.productName r, StockStats.available r,
                 StockStats.sold r, StockStats.purchased r))
      (fst (getStockStats String.leb SampleStats.stale))
  = [("Hat", 4, 0, 0); ("Shirt", 8, 2, 10)]
  /\ Sorted (byProductName String.leb)
            (fst (getStockStats String.leb SampleStats.stale)).
Proof.
  split; [reflexivity|].
  apply (C7_getStockStats_reconciles String.leb String.leb_total
           SampleStats.stale).
  reflexivity.
Defined.

(* ================================================================== *)
(** ** The financial outcome of a return *)
(* ================================================================== *)

Section ReturnTotals.

Variable parseFloat : string -> JS.number.

Lemma addItem_sums products items :
  forall r0 e0,
    fold_left (addItem parseFloat products) items (r0, e0)
    = (sumFrom (returnValueOf parseFloat) r0 items,
       sumFrom (exchangeValueOf parseFloat products) e0 items).
Proof.
  unfold sumFrom. induction items as [|item items IH]; intros r0 e0;
    [reflexivity|].
  cbn [fold_left]. unfold addItem at 2, exchangeValueOf at 2.
  destruct (truthy _) as [pid|]; [destruct (find _ _)|]; apply IH.
Qed.

(** The return value is the sum of the subtotals of the returned items;
    the exchange value is the sum of [price * quantity] over the
    returned items whose exchange product is known. *)
Lemma calculateTotals_sums items products :
  Totals.total (calculateTotals parseFloat items products)
  = sumFrom (returnValueOf parseFloat) JS.zero (itemsToReturn items)
  /\ Totals.exchangeValue (calculateTotals parseFloat items products)
     = sumFrom (exchangeValueOf parseFloat products) JS.zero
               (itemsToReturn items).
Proof.
  unfold calculateTotals. rewrite addItem_sums. cbn [fst snd].
  split;
    (destruct (JS.gt _ JS.zero);
       [destruct (JS.gt (JS.sub _ _) JS.zero);
          [|destruct (JS.lt (JS.sub _ _) JS.zero)]|]; reflexivity).
Qed.

(** The outcome as a function of the two sums. *)
Lemma calculateTotals_outcome items products :
  let t := calculateTotals parseFloat items products in
  let R := Totals.total t in
  let E := Totals.exchangeValue t in
  (Totals.refund t, Totals.credit t, Totals.additionalPayment t)
  = if JS.gt E JS.zero then
      if JS.gt (JS.sub R E) JS.zero then (JS.zero, JS.sub R E, JS.zero)
      else if JS.lt (JS.sub R E) JS.zero then
        (JS.zero, JS.zero, JS.abs (JS.sub R E))
      else (JS.zero, JS.zero, JS.zero)
    else (R, JS.zero, JS.zero).
Proof.
  cbv zeta. unfold calculateTotals.
  match goal with
  | |- context [fold_left ?f ?l ?a] => destruct (fold_left f l a) as [R E]
  end.
  cbn [fst snd].
  destruct (JS.gt E JS.zero) eqn:HE;
    [destruct (JS.gt (JS.sub R E) JS.zero) eqn:Hpos;
       [|destruct (JS.lt (JS.sub R E) JS.zero) eqn:Hneg]|];
    cbn [Totals.total Totals.refund Totals.credit Totals.exchangeValue
         Totals.additionalPayment];
    rewrite ?HE, ?Hpos, ?Hneg; reflexivity.
Qed.


(** The claim's third case without the guard [E > 0] does hold when the
    return value is not negative. *)
Lemma additionalPayment_of_nonnegative_return
  (items : list InsertReturnItem.t) (products : list Product.t) :
  let t := calculateTotals parseFloat items products in
  let R := Totals.total t in
  let E := Totals.exchangeValue t in
  JS.le JS.zero R = true -> JS.lt (JS.sub R E) JS.zero = true ->
  Totals.additionalPayment t = JS.sub E R /\ Totals.refund t = JS.zero
  /\ Totals.credit t = JS.zero.
Proof.
  intros t R E HR Hneg.
  pose proof (sub_negative_from_nonneg R E HR Hneg) as HE.
  pose proof (negative_not_positive _ Hneg) as Hpos.
  pose proof (calculateTotals_outcome items products) as H.
  cbv zeta in H. fold t in H. fold R E in H.
  rewrite HE, Hpos, Hneg in H. injection H as Hr Hc Ha.
  rewrite Hr, Hc, Ha. repeat split. now apply abs_sub_negative.
Qed.

End ReturnTotals.



(** The four examples of the specification. *)
Example totals_examples :
  let show t := (JS.toFixed (Totals.refund t) 2,
                 JS.toFixed (Totals.credit t) 2,
                 JS.toFixed (Totals.additionalPayment t) 2) in
  show (calculateTotals JS.parseFloat
          [SampleReturn.line "100.00" None] [])
  = ("100.00", "0.00", "0.00")
  /\ show (calculateTotals JS.parseFloat
             [SampleReturn.line "100.00" (Some "p7")] [SampleReturn.jacket])
     = ("0.00", "40.00", "0.00")
  /\ show (calculateTotals JS.parseFloat
             [SampleReturn.line "60.00" (Some "p8")] [SampleReturn.coat])
     = ("0.00", "0.00", "40.00")
  /\ show (calculateTotals JS.parseFloat
             [SampleReturn.line "100.00" (Some "p8")] [SampleReturn.coat])
     = ("0.00", "0.00", "0.00").
Proof. vm_compute. repeat split. Qed.

(* ================================================================== *)
(** ** Product creation and the purchase ledger *)
(* ================================================================== *)

Section ProductCreation.

Variable parseFloat : string -> JS.number.
Variable toFixed : JS.number -> nat -> string.

Lemma createProduct_accounts data w :
  accounts (db (snd (createProduct data w))) = accounts (db w).
Proof. reflexivity. Qed.

(** What the handler appends to the accounts table. *)
Lemma postProduct_accounts data w :
  productBySKU (InsertProduct.sku data) (db w) = None ->
  let product := fst (createProduct data w) in
  let w1 := snd (createProduct data w) in
  let quantity := InsertProduct.stockQuantity data in
  accounts (db (snd (postProduct parseFloat toFixed data w)))
  = match truthy (InsertProduct.costPrice data), 0 <? quantity with
    | Some cost, true =>
        let costPrice := parseFloat cost in
        let difference :=
          JS.sub (parseFloat (InsertProduct.price data)) costPrice in
        let total := JS.mul difference (JS.ofZ quantity) in
        if JS.gt difference JS.zero then
          (accounts (db w)
           ++ [purchaseEntry toFixed (entropy w1 (draws w1)) product costPrice
                 difference total quantity
                 ("Purchase with potential profit of $"
                  ++ toFixed difference 2 ++ " per unit")
                 (year w) (month w)])%list
        else if JS.lt difference JS.zero then
          (accounts (db w)
           ++ [purchaseEntry toFixed (entropy w1 (draws w1)) product costPrice
                 difference total quantity
                 ("Purchase with potential loss of $"
                  ++ toFixed (JS.abs difference) 2 ++ " per unit")
                 (year w) (month w)])%list
        else accounts (db w)
    | _, _ => accounts (db w)
    end.
Proof.
  intros Hsku. cbv zeta.
  unfold postProduct, getProductBySKU. unfold bind at 1 2. unfold gets at 1.
  unfold ret at 1. cbn [db]. fold (productBySKU (InsertProduct.sku data) (db w)).
  rewrite Hsku. unfold bind at 1.
  destruct (createProduct data w) as [product w1] eqn:Ecreate.
  assert (Hacc : accounts (db w1) = accounts (db w)).
  { pose proof (createProduct_accounts data w) as H. now rewrite Ecreate in H. }
  assert (Hdate : year w1 = year w /\ month w1 = month w).
  { pose proof (f_equal snd Ecreate) as H. cbn in H. subst w1. now split. }
  destruct Hdate as [Hy Hm]. cbn [fst snd].
  destruct (truthy (InsertProduct.costPrice data)) as [cost|];
    [|exact Hacc].
  destruct (0 <? InsertProduct.stockQuantity data); [|exact Hacc].
  run_monad.
  destruct (JS.gt _ JS.zero); run_monad; [now rewrite Hacc, Hy, Hm|].
  destruct (JS.lt _ JS.zero); run_monad; [now rewrite Hacc, Hy, Hm|].
  exact Hacc.
Qed.

(** C9, as the code has it.  When a product is created with a cost
    price, a positive initial stock and a per-unit difference
    [price - costPrice] that is positive or negative, exactly one
    account entry is appended: its [transactionType] is [purchase], it
    refers to the created product, and its [profit] is
    [((price - costPrice) * stockQuantity).toFixed(2)], the rendering of
    a negative number when the cost price exceeds the price.  When the
    cost price is absent no account entry is written. *)
Theorem C9_purchase_entry_when_prices_differ
  (data : InsertProduct.t) (w : World) :
  let quantity := InsertProduct.stockQuantity data in
  let sellingPrice := parseFloat (InsertProduct.price data) in
  let product := fst (createProduct data w) in
  let w' := snd (postProduct parseFloat toFixed data w) in
  productBySKU (InsertProduct.sku data) (db w) = None ->
  match truthy (InsertProduct.costPrice data) with
  | Some cost =>
      let costPrice := parseFloat cost in
      let difference := JS.sub sellingPrice costPrice in
      let total := JS.mul difference (JS.ofZ quantity) in
      0 < quantity ->
      JS.gt difference JS.zero = true \/ JS.lt difference JS.zero = true ->
      (exists entry,
          accounts (db w') = (accounts (db w) ++ [entry])%list
          /\ Account.transactionType entry = "purchase"
          /\ Account.productId entry = Product.id product
          /\ Account.quantity entry = quantity
          /\ Account.profit entry = toFixed total 2)
      /\ (JS.wellFormed sellingPrice = true ->
          JS.wellFormed costPrice = true ->
          JS.gt costPrice sellingPrice = true ->
          JS.lt total JS.zero = true)
  | None => accounts (db w') = accounts (db w)
  end.
Proof.
  intros quantity sellingPrice product w' Hsku. subst w'.
  rewrite (postProduct_accounts data w Hsku). cbv zeta.
  destruct (truthy (InsertProduct.costPrice data)) as [cost|];
    [|reflexivity].
  fold quantity sellingPrice product.
  intros Hq Hdiff. apply Z.ltb_lt in Hq as Hq'. rewrite Hq'. split.
  - destruct Hdiff as [Hd | Hd].
    + rewrite Hd. eexists. split; [reflexivity|]. now repeat split.
    + rewrite (negative_not_positive _ Hd), Hd.
      eexists. split; [reflexivity|]. now repeat split.
  - intros Hp Hc Hgt.
    apply mul_negative_by_positive; [|now apply lt_sub_negative|exact Hq].
    intros s m e. now apply sub_exponent.
Qed.

(** C10. With a cost price present, when the per-unit difference
    [price - costPrice] is exactly zero, or when the initial stock
    quantity is zero, creating the product writes no account entry. *)
Theorem C10_no_entry_at_break_even_or_zero_stock
  (data : InsertProduct.t) (cost : string) (w : World) :
  let difference :=
    JS.sub (parseFloat (InsertProduct.price data)) (parseFloat cost) in
  productBySKU (InsertProduct.sku data) (db w) = None ->
  truthy (InsertProduct.costPrice data) = Some cost ->
  JS.eq difference JS.zero = true \/ InsertProduct.stockQuantity data = 0 ->
  accounts (db (snd (postProduct parseFloat toFixed data w))) = accounts (db w)
  /\ fst (postProduct parseFloat toFixed data w) = Created (fst (createProduct data w)).
Proof.
  intros difference Hsku Hcost Hcase. split.
  - rewrite (postProduct_accounts data w Hsku). cbv zeta. rewrite Hcost.
    destruct Hcase as [Hd | ->]; [|reflexivity].
    fold difference.
    rewrite (eq_zero_not_positive _ Hd), (eq_zero_not_negative _ Hd).
    now destruct (0 <? _).
  - unfold postProduct, getProductBySKU.
    unfold bind at 1 2. unfold gets at 1. unfold ret at 1. cbn [db].
    fold (productBySKU (InsertProduct.sku data) (db w)). rewrite Hsku.
    unfold bind at 1. destruct (createProduct data w) as [product w1].
    rewrite Hcost. cbn [fst]. fold difference.
    destruct (0 <? _); [|reflexivity]. run_monad.
    destruct Hcase as [Hd | Hq].
    + now rewrite (eq_zero_not_positive _ Hd), (eq_zero_not_negative _ Hd).
    + destruct (JS.gt _ _); [reflexivity|]. now destruct (JS.lt _ _).
Qed.

End ProductCreation.

Lemma C9_purchase_entry_when_prices_differ_witness :
  map (fun e => (Account.transactionType e, Account.profit e))
      (accounts (db (snd (postProduct JS.parseFloat JS.toFixed
                            (SampleProduct.dress "20" (Some "30") 10)
                            SampleProduct.emptyShop))))
  = [("purchase", "-100.00")]
  /\ JS.lt (JS.mul (JS.sub (JS.parseFloat "20") (JS.parseFloat "30"))
                   (JS.ofZ 10)) JS.zero = true.
Proof.
  split; [reflexivity|].
  apply (C9_purchase_entry_when_prices_differ JS.parseFloat JS.toFixed
           (SampleProduct.dress "20" (Some "30") 10)
           SampleProduct.emptyShop eq_refl);
    [reflexivity | right; reflexivity | reflexivity..].
Defined.

(** C9 as stated fails at break-even: with the cost price present
    ([30]) and ten units in stock, a price equal to the cost price
    writes no account entry at all. *)
Lemma C9_break_even_writes_no_entry :
  let data := SampleProduct.dress "30" (Some "30") 10 in
  let w' := snd (postProduct JS.parseFloat JS.toFixed data
                   SampleProduct.emptyShop) in
  truthy (InsertProduct.costPrice data) = Some "30"
  /\ 0 < InsertProduct.stockQuantity data
  /\ option_map Product.stockQuantity (productBySKU "SKU-9" (db w')) = Some 10
  /\ accounts (db w') = []
  /\ ~ (exists entry, In entry (accounts (db w'))
                      /\ Account.transactionType entry = "purchase").
Proof.
  cbv zeta. repeat split.
  intros [entry [Hin _]]. vm_compute in Hin. exact Hin.
Qed.

Lemma C10_no_entry_at_break_even_or_zero_stock_witness :
  accounts (db (snd (postProduct JS.parseFloat JS.toFixed
                       (SampleProduct.dress "45.50" (Some "45.50") 12)
                       SampleProduct.emptyShop)))
  = [].
Proof.
  apply (C10_no_entry_at_break_even_or_zero_stock JS.parseFloat JS.toFixed
           (SampleProduct.dress "45.50" (Some "45.50") 12) "45.50"
           SampleProduct.emptyShop eq_refl eq_refl).
  left. reflexivity.
Defined.

(** The examples of the specification: ten units bought at 30 and priced
    at 50 project a profit of 200.00; a cost above the price projects a
    loss; no cost price, no entry. *)
Example purchase_examples :
  let profits data :=
    map Account.profit
        (accounts (db (snd (postProduct JS.parseFloat JS.toFixed data
                              SampleProduct.emptyShop)))) in
  profits (SampleProduct.dress "50" (Some "30") 10) = ["200.00"]
  /\ profits (SampleProduct.dress "20" (Some "30") 10) = ["-100.00"]
  /\ profits (SampleProduct.dress "50" None 10) = []
  /\ profits (SampleProduct.dress "50" (Some "30") 0) = [].
Proof. vm_compute. repeat split. Qed.

(* ================================================================== *)
(** ** Products, stock movements and the ledger *)
(* ================================================================== *)

Lemma first_None_nil {A} (c : A -> bool) (t : list A) :
  first (select_where c t) = None -> select_where c t = [].
Proof. now destruct (select_where c t). Qed.

Lemma select_insert {A} (c : A -> bool) (r : A) (t : list A) :
  select_where c (insert_values r t)
  = (select_where c t ++ (if c r then [r] else []))%list.
Proof.
  unfold select_where, insert_values. rewrite filter_app. cbn.
  now destruct (c r).
Qed.

Lemma select_delete_same {A} (c : A -> bool) (t : list A) :
  select_where c (delete_where c t) = [].
Proof.
  unfold select_where, delete_where.
  induction t as [|r t IH]; cbn; [reflexivity|].
  destruct (c r) eqn:E; cbn; [exact IH | now rewrite E].
Qed.

Lemma select_delete_other {A} (c c' : A -> bool) (t : list A) :
  (forall r, c r = true -> c' r = false) ->
  select_where c (delete_where c' t) = select_where c t.
Proof.
  intros H. unfold select_where, delete_where.
  induction t as [|r t IH]; cbn; [reflexivity|].
  destruct (c r) eqn:E.
  - rewrite (H r E). cbn. now rewrite E, IH.
  - destruct (c' r); cbn; [exact IH | now rewrite E].
Qed.

Lemma eqb_other (a b x : string) :
  a <> b -> String.eqb x b = true -> String.eqb x a = false.
Proof.
  intros Hne H. apply String.eqb_eq in H. subst x.
  apply String.eqb_neq. congruence.
Qed.

Lemma with_id_id data id : Product.id (InsertProduct.with_id data id) = id.
Proof. reflexivity. Qed.

Lemma idIs_with_id data id : idIs id (InsertProduct.with_id data id) = true.
Proof. unfold idIs. rewrite with_id_id. apply String.eqb_refl. Qed.

(** X1. A created product can be fetched again: when the generated id
    is not yet in use, [createProduct] returns the request body under
    that id, [getProduct] then returns the same row, and the statistics
    row of the product starts with [available] and [purchased] at the
    initial stock and [sold] and [returned] at zero. *)
Theorem createProduct_round_trip (data : InsertProduct.t) (w : World) :
  let id := entropy w (draws w) in
  let created := fst (createProduct data w) in
  let w' := snd (createProduct data w) in
  productById id (db w) = None ->
  statsByProduct id (db w) = None ->
  created = InsertProduct.with_id data id
  /\ fst (getProduct (Product.id created) w') = Some created
  /\ option_map counters (fst (getStockStatsByProduct (Product.id created) w'))
     = Some (InsertProduct.stockQuantity data, 0, 0,
             InsertProduct.stockQuantity data).
Proof.
  cbv zeta. unfold productById, statsByProduct. intros Hp Hs.
  apply first_None_nil in Hp. apply first_None_nil in Hs.
  unfold createProduct, initializeStockStats, getProduct,
    getStockStatsByProduct.
  run_monad. rewrite !select_insert, Hp, idIs_with_id.
  cbn [app first_inserted hd]. rewrite with_id_id.
  rewrite Hp, Hs, idIs_with_id.
  unfold statsOf. cbn [StockStats.productId].
  rewrite String.eqb_refl. cbn. repeat split; reflexivity.
Qed.

Lemma createProduct_round_trip_witness :
  fst (getProduct "id-0"
         (snd (createProduct (SampleProduct.dress "80.00" None 7)
                             SampleProduct.emptyShop)))
  = Some (fst (createProduct (SampleProduct.dress "80.00" None 7)
                             SampleProduct.emptyShop)).
Proof.
  exact (proj1 (proj2 (createProduct_round_trip
    (SampleProduct.dress "80.00" None 7) SampleProduct.emptyShop
    eq_refl eq_refl))).
Defined.

(** X2. [deleteProduct] answers whether the product existed; afterwards
    neither the product nor its statistics row can be found (the
    statistics are removed even when there was no such product), every
    other product and its statistics are untouched, and the history
    tables (orders, order items, stock movements, returns, return items,
    accounts) are exactly as before. *)
Theorem deleteProduct_keeps_history (id : string) (w : World) :
  let w' := snd (deleteProduct id w) in
  fst (deleteProduct id w)
  = match productById id (db w) with Some _ => true | None => false end
  /\ productById id (db w') = None
  /\ statsByProduct id (db w') = None
  /\ (forall pid, pid <> id ->
        productById pid (db w') = productById pid (db w)
        /\ statsByProduct pid (db w') = statsByProduct pid (db w))
  /\ orders (db w') = orders (db w)
  /\ orderItems (db w') = orderItems (db w)
  /\ stockMovements (db w') = stockMovements (db w)
  /\ returns (db w') = returns (db w)
  /\ returnItems (db w') = returnItems (db w)
  /\ accounts (db w') = accounts (db w).
Proof.
  cbv zeta. unfold deleteProduct, productById, statsByProduct. run_monad.
  assert (Hother : forall pid, pid <> id ->
    select_where (statsOf pid) (delete_where (statsOf id) (stockStats (db w)))
    = select_where (statsOf pid) (stockStats (db w))).
  { intros pid Hne. apply select_delete_other. intros r.
    unfold statsOf. now apply eqb_other. }
  destruct (select_where (idIs id) (products (db w))) as [|p ps] eqn:Hsel;
    run_monad; rewrite ?select_delete_same, ?Hsel.
  all: repeat split; try reflexivity;
    try (f_equal; apply Hother; assumption).
  f_equal. apply select_delete_other. intros r.
  unfold idIs. now apply eqb_other.
Qed.

(** X3. A movement for a product that does not exist is not refused:
    the ledger row is written all the same, while the product and the
    statistics tables stay as they are. *)
Theorem createStockMovement_unknown_product
  (im : InsertStockMovement.t) (w : World) :
  let w' := snd (createStockMovement im w) in
  productById (InsertStockMovement.productId im) (db w) = None ->
  products (db w') = products (db w)
  /\ stockStats (db w') = stockStats (db w)
  /\ stockMovements (db w')
     = (stockMovements (db w) ++ [movementRow (entropy w (draws w)) im])%list.
Proof.
  cbv zeta. intros H.
  rewrite createStockMovement_products, createStockMovement_stockStats,
    createStockMovement_stockMovements, H.
  repeat split; reflexivity.
Qed.

Lemma createStockMovement_unknown_product_witness :
  stockMovements (db (snd (createStockMovement
     (InsertStockMovement.mk "p9" "Scarf" "SKU-9" In_ 5 "Purchase" None)
     (Sample.shop 10))))
  = [StockMovement.mk "id-0" "p9" "Scarf" "SKU-9" In_ 5 "Purchase" None].
Proof.
  exact (proj2 (proj2 (createStockMovement_unknown_product
    (InsertStockMovement.mk "p9" "Scarf" "SKU-9" In_ 5 "Purchase" None)
    (Sample.shop 10) eq_refl))).
Defined.

Lemma merge_statsOf pid u r :
  statsOf pid (StatsUpdate.merge u r) = statsOf pid r.
Proof. reflexivity. Qed.

(** The statistics row of the product after a movement. *)
Lemma createStockMovement_statsByProduct im w p st :
  productById (InsertStockMovement.productId im) (db w) = Some p ->
  statsByProduct (InsertStockMovement.productId im) (db w) = Some st ->
  statsByProduct (InsertStockMovement.productId im)
    (db (snd (createStockMovement im w)))
  = Some (StatsUpdate.merge
            (if String.eqb (InsertStockMovement.reason im) "purchase"
             then StatsUpdate.mk
                    (Some (Z.max 0 (newQuantity (InsertStockMovement.type im)
                                      (Product.stockQuantity p)
                                      (InsertStockMovement.quantity im))))
                    None None
                    (Some (StockStats.purchased st
                           + InsertStockMovement.quantity im))
             else StatsUpdate.mk
                    (Some (Z.max 0 (newQuantity (InsertStockMovement.type im)
                                      (Product.stockQuantity p)
                                      (InsertStockMovement.quantity im))))
                    None None None) st).
Proof.
  intros Hp Hs. unfold statsByProduct at 1.
  rewrite createStockMovement_stockStats, Hp, Hs. cbv zeta.
  rewrite first_select_update by (intros r Hr; now rewrite merge_statsOf).
  fold (statsByProduct (InsertStockMovement.productId im) (db w)).
  now rewrite Hs.
Qed.



(** X5. None of the reasons that the stock movement dialog offers is
    the string the storage layer compares with: a movement recorded
    through the dialog, [Purchase] included, leaves the [purchased]
    counter of the product where it was. *)
Theorem dialog_reason_never_counts_as_purchase
  (im : InsertStockMovement.t) (w : World) (p : Product.t) (st : StockStats.t) :
  let pid := InsertStockMovement.productId im in
  let w' := snd (createStockMovement im w) in
  In (InsertStockMovement.reason im)
     (reasonOptions (InsertStockMovement.type im)) ->
  productById pid (db w) = Some p ->
  statsByProduct pid (db w) = Some st ->
  option_map StockStats.purchased (statsByProduct pid (db w'))
  = Some (StockStats.purchased st).
Proof.
  cbv zeta. intros Hin Hp Hs.
  rewrite (createStockMovement_statsByProduct im w p st Hp Hs).
  assert (Hr : String.eqb (InsertStockMovement.reason im) "purchase" = false).
  { destruct (InsertStockMovement.type im); cbn in Hin;
      repeat (destruct Hin as [<- | Hin]; [reflexivity|]); destruct Hin. }
  now rewrite Hr.
Qed.

Lemma dialog_reason_never_counts_as_purchase_witness :
  option_map StockStats.purchased
    (statsByProduct "p1"
       (db (snd (createStockMovement (Sample.movement In_ 4 "Purchase")
                                     (Sample.shop 10)))))
  = Some 10.
Proof.
  refine (dialog_reason_never_counts_as_purchase
            (Sample.movement In_ 4 "Purchase")
            (Sample.shop 10) (Sample.shirt 10) (Sample.shirtStats 10)
            _ eq_refl eq_refl).
  simpl. left. reflexivity.
Defined.

(* ================================================================== *)
(** ** What the stock operations leave alone *)
(* ================================================================== *)

Lemma createStockMovement_sameHistory im w :
  sameHistory (db w) (db (snd (createStockMovement im w))).
Proof.
  unfold createStockMovement, getProduct, updateProduct,
    getStockStatsByProduct, updateStockStats, sameHistory.
  run_monad.
  destruct (first (select_where _ (products (db w)))) as [p|]; run_monad;
    [|repeat split; reflexivity].
  match goal with
  | |- context [first ?l] => destruct (first l)
  end; run_monad; [|repeat split; reflexivity].
  destruct (String.eqb _ "purchase"); repeat split; reflexivity.
Qed.

Lemma In_same_id (t : list Product.t) (a b : Product.t) :
  NoDup (map Product.id t) -> In a t -> In b t ->
  Product.id a = Product.id b -> a = b.
Proof.
  induction t as [|r t IH]; cbn; intros Hnd Ha Hb Hid; [destruct Ha|].
  inversion Hnd as [|? ? Hnotin Hnd']; subst.
  destruct Ha as [-> | Ha], Hb as [-> | Hb].
  - reflexivity.
  - destruct Hnotin. rewrite Hid. now apply in_map.
  - destruct Hnotin. rewrite <- Hid. now apply in_map.
  - now apply IH.
Qed.

Lemma catalogue_ids d : map Product.id (products d) = map Product.id (catalogue d).
Proof. unfold catalogue. rewrite map_map. reflexivity. Qed.

(** Overwriting the rows of a product with its own row at another stock
    quantity changes no other column, when ids are unique. *)
Lemma restock_keeps_listing pid p q t :
  NoDup (map Product.id t) ->
  first (select_where (idIs pid) t) = Some p ->
  map listing (update_where (idIs pid)
                 (fun _ => Product.with_stockQuantity p q) t)
  = map listing t.
Proof.
  intros Hnd Hp. unfold update_where. rewrite map_map.
  apply map_ext_in. intros r Hin.
  destruct (idIs pid r) eqn:E; [|reflexivity].
  apply first_select_In in Hp as [Hinp Hidp].
  apply String.eqb_eq in E. apply String.eqb_eq in Hidp.
  assert (r = p) as -> by (apply (In_same_id t); congruence).
  reflexivity.
Qed.

Lemma step_keeps_catalogue pid q w w' :
  products (db w')
  = match productById pid (db w) with
    | Some p =>
        update_where (idIs pid)
          (fun _ => Product.with_stockQuantity p (q p)) (products (db w))
    | None => products (db w)
    end ->
  uniqueProductIds (db w) = true ->
  catalogue (db w') = catalogue (db w).
Proof.
  intros H Hu. unfold catalogue. rewrite H.
  destruct (productById pid (db w)) as [p|] eqn:Hp; [|reflexivity].
  apply restock_keeps_listing; [|exact Hp].
  now apply distinct_NoDup.
Qed.

Lemma unique_of_catalogue d d' :
  catalogue d' = catalogue d ->
  uniqueProductIds d = true -> uniqueProductIds d' = true.
Proof.
  unfold uniqueProductIds. rewrite !catalogue_ids. now intros ->.
Qed.

Lemma step_sameCatalogue pid q w0 w w' :
  uniqueProductIds (db w0) = true ->
  products (db w')
  = match productById pid (db w) with
    | Some p =>
        update_where (idIs pid)
          (fun _ => Product.with_stockQuantity p (q p)) (products (db w))
    | None => products (db w)
    end ->
  sameCatalogue w0 w -> sameCatalogue w0 w'.
Proof.
  unfold sameCatalogue. intros Hu H Hc. rewrite <- Hc.
  apply (step_keeps_catalogue pid q); [exact H|].
  now apply (unique_of_catalogue (db w0)).
Qed.

Lemma applyOp_sameCatalogue w0 op w :
  uniqueProductIds (db w0) = true ->
  sameCatalogue w0 w -> sameCatalogue w0 (snd (applyOp op w)).
Proof.
  intros Hu Hc. destruct op as [o items | r items | m].
  - unfold applyOp, createOrder. run_monad.
    match goal with
    | |- context [for_of items ?body ?w1] =>
        pose proof (for_of_preserves (sameCatalogue w0) body) as Hloop;
        specialize (fun H => Hloop H items w1);
        destruct (for_of items body w1) as [created w2]
    end.
    apply Hloop; [|exact Hc].
    intros x w1 H1.
    apply (step_sameCatalogue (InsertOrderItem.productId x)
             (fun p => Z.max 0 (Product.stockQuantity p
                                - InsertOrderItem.quantity x
                                - InsertOrderItem.quantity x)) w0 w1);
      [exact Hu | apply createOrder_item_products | exact H1].
  - unfold applyOp, createReturn. run_monad.
    match goal with
    | |- context [for_of items ?body ?w1] =>
        pose proof (for_of_preserves (sameCatalogue w0) body) as Hloop;
        specialize (fun H => Hloop H items w1);
        destruct (for_of items body w1) as [created w2]
    end.
    apply Hloop; [|exact Hc].
    intros x w1 H1.
    apply (step_sameCatalogue (InsertReturnItem.productId x)
             (fun p => Z.max 0 (Product.stockQuantity p
                                + InsertReturnItem.quantity x
                                + InsertReturnItem.quantity x)) w0 w1);
      [exact Hu | apply createReturn_item_products | exact H1].
  - unfold applyOp, bind, ret.
    pose proof (createStockMovement_products m w) as H.
    destruct (createStockMovement m w) as [mv w1]. cbn [snd] in H |- *.
    apply (step_sameCatalogue (InsertStockMovement.productId m)
             (fun p => Z.max 0 (newQuantity (InsertStockMovement.type m)
                                  (Product.stockQuantity p)
                                  (InsertStockMovement.quantity m))) w0 w);
      [exact Hu | exact H | exact Hc].
Qed.

(** X6. Sales, returns and manual movements change stock quantities and
    nothing else of the product table: with unique product ids, after
    any sequence of them the same products exist, in the same order,
    with the same name, SKU, category, price and cost price. *)
Theorem stock_operations_keep_catalogue (ops : list StockOp) (w : World) :
  uniqueProductIds (db w) = true ->
  catalogue (db (runOps ops w)) = catalogue (db w).
Proof.
  intros Hu. change (sameCatalogue w (runOps ops w)).
  assert (H : sameCatalogue w w) by reflexivity.
  revert H. generalize w at 2 4 as w1.
  induction ops as [|op ops IH]; intros w1 H; cbn [runOps]; [exact H|].
  apply IH. now apply applyOp_sameCatalogue.
Qed.

Lemma stock_operations_keep_catalogue_witness :
  catalogue (db (runOps [Sale Sample.order [Sample.orderLine 3];
                         ManualMovement (Sample.movement Adjustment 7 "Correction")]
                        (Sample.shop 10)))
  = [Sample.shirt 0].
Proof.
  exact (stock_operations_keep_catalogue
           [Sale Sample.order [Sample.orderLine 3];
            ManualMovement (Sample.movement Adjustment 7 "Correction")]
           (Sample.shop 10) eq_refl).
Defined.

(* ================================================================== *)
(** ** The ledger *)
(* ================================================================== *)

Lemma ledgerExtends_refl w : ledgerExtends w w.
Proof. exists []. now rewrite app_nil_r. Qed.

Lemma ledgerExtends_trans w1 w2 w3 :
  ledgerExtends w1 w2 -> ledgerExtends w2 w3 -> ledgerExtends w1 w3.
Proof.
  intros [l1 H1] [l2 H2]. exists (l1 ++ l2)%list.
  now rewrite H2, H1, app_assoc.
Qed.

Lemma createStockMovement_ledger im w :
  ledgerExtends w (snd (createStockMovement im w)).
Proof. eexists. apply createStockMovement_stockMovements. Qed.

Lemma createOrder_item_stockMovements id orderNumber item w :
  stockMovements (db (snd (createOrder_item id orderNumber item w)))
  = (stockMovements (db w)
     ++ match productById (InsertOrderItem.productId item) (db w) with
        | Some _ => [movementRow (entropy w (S (draws w)))
                       (saleMovement orderNumber item)]
        | None => []
        end)%list.
Proof.
  unfold createOrder_item, getProduct, updateProduct,
    getStockStatsByProduct, updateStockStats.
  run_monad. fold (productById (InsertOrderItem.productId item) (db w)).
  destruct (productById _ (db w)) as [p|] eqn:Hp; run_monad;
    [|now rewrite app_nil_r].
  match goal with
  | |- context [createStockMovement ?im ?w1] =>
      pose proof (createStockMovement_stockMovements im w1) as Hm;
      pose proof (createStockMovement_sameHistory im w1) as Hh;
      destruct (createStockMovement im w1) as [mv w2]
  end.
  cbn [snd db stockMovements set_products set_orderItems entropy draws] in Hm.
  destruct (first _); run_monad; exact Hm.
Qed.

Lemma createOrder_item_ledger id orderNumber item w :
  ledgerExtends w (snd (createOrder_item id orderNumber item w)).
Proof. eexists. apply createOrder_item_stockMovements. Qed.

Lemma createReturn_item_stockMovements returnId returnNumber item w :
  exists id,
    stockMovements (db (snd (createReturn_item returnId returnNumber item w)))
    = (stockMovements (db w)
       ++ [movementRow id (returnMovement returnNumber item)])%list.
Proof.
  unfold createReturn_item, getProduct, updateProduct,
    getStockStatsByProduct, updateStockStats.
  run_monad.
  destruct (first (select_where _ (products (db w)))) as [p|]; run_monad.
  - destruct (first _); run_monad;
      match goal with
      | |- context [createStockMovement ?im ?w1] =>
          pose proof (createStockMovement_stockMovements im w1) as Hm;
          destruct (createStockMovement im w1) as [mv w2]
      end; eexists; exact Hm.
  - match goal with
    | |- context [createStockMovement ?im ?w1] =>
        pose proof (createStockMovement_stockMovements im w1) as Hm;
        destruct (createStockMovement im w1) as [mv w2]
    end; eexists; exact Hm.
Qed.

Lemma createReturn_item_ledger returnId returnNumber item w :
  ledgerExtends w (snd (createReturn_item returnId returnNumber item w)).
Proof.
  destruct (createReturn_item_stockMovements returnId returnNumber item w)
    as [id H].
  eexists. exact H.
Qed.

Lemma applyOp_ledger w0 op w :
  ledgerExtends w0 w -> ledgerExtends w0 (snd (applyOp op w)).
Proof.
  intros H. destruct op as [o items | r items | m].
  - unfold applyOp, createOrder. run_monad.
    match goal with
    | |- context [for_of items ?body ?w1] =>
        pose proof (for_of_preserves (ledgerExtends w0) body) as Hloop;
        specialize (fun H => Hloop H items w1);
        destruct (for_of items body w1) as [created w2]
    end.
    apply Hloop; [|exact H].
    intros x w1 H1. eapply ledgerExtends_trans; [exact H1|].
    apply createOrder_item_ledger.
  - unfold applyOp, createReturn. run_monad.
    match goal with
    | |- context [for_of items ?body ?w1] =>
        pose proof (for_of_preserves (ledgerExtends w0) body) as Hloop;
        specialize (fun H => Hloop H items w1);
        destruct (for_of items body w1) as [created w2]
    end.
    apply Hloop; [|exact H].
    intros x w1 H1. eapply ledgerExtends_trans; [exact H1|].
    apply createReturn_item_ledger.
  - unfold applyOp, bind, ret.
    pose proof (createStockMovement_ledger m w) as Hm.
    destruct (createStockMovement m w) as [mv w1]. cbn [snd] in Hm |- *.
    eapply ledgerExtends_trans; [exact H | exact Hm].
Qed.

(** X7. The stock movement ledger is append-only under sales, returns
    and manual movements: after any sequence of them the earlier ledger
    is a prefix of the later one, so that no entry is ever removed,
    rewritten or reordered. *)
Theorem ledger_is_append_only (ops : list StockOp) (w : World) :
  exists entries,
    stockMovements (db (runOps ops w))
    = (stockMovements (db w) ++ entries)%list.
Proof.
  change (ledgerExtends w (runOps ops w)).
  pose proof (ledgerExtends_refl w) as H.
  revert H. generalize w at 2 4 as w1.
  induction ops as [|op ops IH]; intros w1 H; cbn [runOps]; [exact H|].
  apply IH. now apply applyOp_ledger.
Qed.

(** A loop whose body appends one row to a table appends one row per
    element, in order. *)
Lemma for_of_appends_each {A B R} (tbl : World -> list R)
  (body : A -> M B) (rel : A -> R -> Prop) :
  (forall x w, exists r,
      tbl (snd (body x w)) = (tbl w ++ [r])%list /\ rel x r) ->
  forall xs w, exists rows,
      tbl (snd (for_of xs body w)) = (tbl w ++ rows)%list
      /\ Forall2 rel xs rows.
Proof.
  intros Hbody xs. induction xs as [|x xs IH]; intros w; cbn [for_of].
  - exists []. split; [now rewrite app_nil_r | constructor].
  - unfold bind, ret. destruct (Hbody x w) as (r & Hr & Hrel).
    destruct (body x w) as [b w1]. cbn [snd] in Hr.
    destruct (IH w1) as (rows & Hrows & Hall).
    destruct (for_of xs body w1) as [bs w2]. cbn [snd] in Hrows |- *.
    exists (r :: rows). split; [|now constructor].
    now rewrite Hrows, Hr, <- app_assoc.
Qed.

(** X8. A return writes exactly one ledger entry per return line, in
    the order of the lines, each an inbound movement of the returned
    quantity with the reason [return]; it does so whether or not the
    product of the line exists. *)
Theorem createReturn_one_movement_per_line
  (data : InsertReturn.t) (items : list InsertReturnItem.t) (w : World) :
  exists entries,
    stockMovements (db (snd (createReturn data items w)))
    = (stockMovements (db w) ++ entries)%list
    /\ Forall2 inboundFor items entries.
Proof.
  unfold createReturn. run_monad.
  match goal with
  | |- context [for_of items ?body ?w1] =>
      pose proof (for_of_appends_each
        (fun w => stockMovements (db w)) body inboundFor) as Hloop;
      specialize (fun H => Hloop H items w1);
      destruct (for_of items body w1) as [created w2]
  end.
  cbn [snd db stockMovements] in Hloop |- *. apply Hloop.
  intros x w0.
  destruct (createReturn_item_stockMovements
              (entropy w (draws w))
              ("RET-" ++ entropy w (S (draws w)) ++ "-"
               ++ entropy w (S (S (draws w)))) x w0) as [id H].
  eexists. split; [exact H|]. repeat split.
Qed.

(* ================================================================== *)
(** ** Orders *)
(* ================================================================== *)

Lemma storesLine_row itemId id item :
  storesLine id item (orderItemRow itemId id item).
Proof. destruct item. split; reflexivity. Qed.

Lemma createOrder_item_orderItems id orderNumber item w :
  exists r,
    orderItems (db (snd (createOrder_item id orderNumber item w)))
    = (orderItems (db w) ++ [r])%list
    /\ storesLine id item r.
Proof.
  exists (orderItemRow (entropy w (draws w)) id item).
  split; [|apply storesLine_row].
  unfold createOrder_item, getProduct, updateProduct,
    getStockStatsByProduct, updateStockStats.
  run_monad.
  destruct (first (select_where _ (products (db w)))) as [p|]; run_monad;
    [|reflexivity].
  match goal with
  | |- context [createStockMovement ?im ?w1] =>
      pose proof (createStockMovement_sameHistory im w1) as Hh;
      destruct (createStockMovement im w1) as [mv w2]
  end.
  destruct Hh as (_ & Hh & _). cbn [snd db orderItems set_products] in Hh.
  destruct (first _); run_monad; exact Hh.
Qed.

Lemma createOrder_item_orders id orderNumber item w :
  orders (db (snd (createOrder_item id orderNumber item w))) = orders (db w).
Proof.
  unfold createOrder_item, getProduct, updateProduct,
    getStockStatsByProduct, updateStockStats.
  run_monad.
  destruct (first (select_where _ (products (db w)))) as [p|]; run_monad;
    [|reflexivity].
  match goal with
  | |- context [createStockMovement ?im ?w1] =>
      pose proof (createStockMovement_sameHistory im w1) as Hh;
      destruct (createStockMovement im w1) as [mv w2]
  end.
  destruct Hh as (Hh & _). cbn [snd db orders set_products] in Hh.
  destruct (first _); run_monad; exact Hh.
Qed.

Lemma Forall2_storesLine id items rows :
  Forall2 (storesLine id) items rows ->
  map lineOf rows = items
  /\ Forall (fun r => OrderItem.orderId r = id) rows.
Proof.
  induction 1 as [|x r items rows [Hl Ho] _ [IH1 IH2]]; cbn.
  - split; constructor.
  - split; [now rewrite Hl, IH1 | now constructor].
Qed.

(** The rows an order leaves in the two order tables, and the order it
    returns. *)
Lemma createOrder_tables data items w :
  fst (fst (createOrder data items w))
  = first_inserted (orderRow data w)
      (select_where (orderIdIs (entropy w (draws w)))
         (insert_values (orderRow data w) (orders (db w))))
  /\ orders (db (snd (createOrder data items w)))
     = (orders (db w) ++ [orderRow data w])%list
  /\ exists rows,
       orderItems (db (snd (createOrder data items w)))
       = (orderItems (db w) ++ rows)%list
       /\ Forall2 (storesLine (entropy w (draws w))) items rows.
Proof.
  unfold createOrder. run_monad.
  match goal with
  | |- context [for_of items ?body ?w1] =>
      pose proof (for_of_appends_each
        (fun w => orderItems (db w)) body
        (storesLine (entropy w (draws w)))) as Hitems;
      specialize (fun H => Hitems H items w1);
      pose proof (for_of_preserves
        (fun w' => orders (db w') = orders (db w1)) body) as Horders;
      specialize (fun H => Horders H items w1 eq_refl);
      destruct (for_of items body w1) as [created w2]
  end.
  cbn [fst snd db orders orderItems] in Hitems, Horders |- *.
  split; [reflexivity|]. split.
  - apply Horders. intros x w0 H0.
    now rewrite createOrder_item_orders.
  - apply Hitems. intros x w0. apply createOrder_item_orderItems.
Qed.

(** X9. An order is recorded in full whatever the stock: the order row
    is appended to the order table and one item row per order line to
    the item table, in order, each holding the line as it was sent and
    the id of the order.  No line is dropped for an unknown product or
    for a quantity above the stock. *)
Theorem createOrder_records_every_line
  (data : InsertOrder.t) (items : list InsertOrderItem.t) (w : World) :
  let w' := snd (createOrder data items w) in
  orders (db w') = (orders (db w) ++ [orderRow data w])%list
  /\ exists rows,
       orderItems (db w') = (orderItems (db w) ++ rows)%list
       /\ map lineOf rows = items
       /\ Forall (fun r => OrderItem.orderId r = entropy w (draws w)) rows.
Proof.
  cbv zeta.
  destruct (createOrder_tables data items w) as (_ & Ho & rows & Hi & Hall).
  split; [exact Ho|]. exists rows. split; [exact Hi|].
  now apply Forall2_storesLine.
Qed.

Lemma select_all {A} (c : A -> bool) (t : list A) :
  Forall (fun r => c r = true) t -> select_where c t = t.
Proof.
  unfold select_where. induction 1 as [|r t Hr _ IH]; cbn; [reflexivity|].
  now rewrite Hr, IH.
Qed.

(** X10. An order can be fetched again: when the generated order id is
    not yet used by an order or by an order item, [getOrder] on that id
    returns the order that [createOrder] returned, together with exactly
    the lines that were sent. *)
Theorem getOrder_after_createOrder
  (data : InsertOrder.t) (items : list InsertOrderItem.t) (w : World) :
  let id := entropy w (draws w) in
  let w' := snd (createOrder data items w) in
  orderById id (db w) = None ->
  select_where (itemOfOrder id) (orderItems (db w)) = [] ->
  exists rows,
    fst (getOrder id w') = Some (fst (fst (createOrder data items w)), rows)
    /\ map lineOf rows = items.
Proof.
  cbv zeta. unfold orderById. intros Hfresh Hitems.
  apply first_None_nil in Hfresh.
  destruct (createOrder_tables data items w) as (Hret & Ho & rows & Hi & Hall).
  apply Forall2_storesLine in Hall as [Hlines Hid].
  exists rows. split; [|exact Hlines].
  rewrite Hret. unfold getOrder, getOrderItems. run_monad.
  rewrite Ho. fold (insert_values (orderRow data w) (orders (db w))).
  rewrite select_insert, Hfresh.
  unfold orderIdIs at 1 2. cbn [orderRow Order.id].
  rewrite String.eqb_refl. cbn [app first_inserted hd fst]. run_monad.
  rewrite Hi. unfold select_where at 1. rewrite filter_app.
  fold (select_where (itemOfOrder (entropy w (draws w))) (orderItems (db w))).
  fold (select_where (itemOfOrder (entropy w (draws w))) rows).
  rewrite Hitems, select_all; [reflexivity|].
  eapply Forall_impl; [|exact Hid].
  intros r Hr. unfold itemOfOrder. rewrite Hr. apply String.eqb_refl.
Qed.

Lemma getOrder_after_createOrder_witness :
  exists rows,
    fst (getOrder "id-0"
           (snd (createOrder Sample.order [Sample.orderLine 3]
                             (Sample.shop 10))))
    = Some (fst (fst (createOrder Sample.order [Sample.orderLine 3]
                                  (Sample.shop 10))), rows)
    /\ map lineOf rows = [Sample.orderLine 3].
Proof.
  exact (getOrder_after_createOrder Sample.order [Sample.orderLine 3]
           (Sample.shop 10) eq_refl eq_refl).
Defined.

(** X11. [deleteOrder] answers whether the order existed; afterwards
    the order and its items cannot be found, every other order and its
    items are untouched, and the stock is not put back: products,
    statistics and ledger are exactly as before. *)
Theorem deleteOrder_does_not_restock (id : string) (w : World) :
  let w' := snd (deleteOrder id w) in
  fst (deleteOrder id w)
  = match orderById id (db w) with Some _ => true | None => false end
  /\ fst (getOrder id w') = None
  /\ fst (getOrderItems id w') = []
  /\ (forall other, other <> id ->
        fst (getOrder other w') = fst (getOrder other w))
  /\ products (db w') = products (db w)
  /\ stockStats (db w') = stockStats (db w)
  /\ stockMovements (db w') = stockMovements (db w).
Proof.
  cbv zeta. unfold deleteOrder, getOrder, getOrderItems, orderById.
  run_monad. rewrite !select_delete_same.
  split; [now destruct (select_where _ _)|].
  repeat split.
  intros other Hne.
  rewrite (select_delete_other (orderIdIs other) (orderIdIs id))
    by (intros r; unfold orderIdIs; now apply eqb_other).
  destruct (select_where (orderIdIs other) (orders (db w))); run_monad;
    [reflexivity|].
  rewrite select_delete_other
    by (intros r; unfold itemOfOrder; now apply eqb_other).
  reflexivity.
Qed.

(** X12. A product that an outbound movement sells out disappears from
    the low stock list: when the quantity taken is at least the stock,
    no row of that product is reported afterwards, whatever the
    threshold. *)
Theorem sold_out_is_not_low_stock
  (im : InsertStockMovement.t) (w : World) (p : Product.t)
  (threshold : option Z) :
  let pid := InsertStockMovement.productId im in
  let w' := snd (createStockMovement im w) in
  productById pid (db w) = Some p ->
  InsertStockMovement.type im = Out ->
  Product.stockQuantity p <= InsertStockMovement.quantity im ->
  Forall (fun r => Product.id r <> pid)
         (fst (getLowStockProducts threshold w')).
Proof.
  cbv zeta. intros Hp Hty Hq. apply Forall_forall. intros r Hin Hid.
  unfold getLowStockProducts, gets in Hin. cbn [fst] in Hin.
  apply filter_In in Hin as [Hin Hlow].
  rewrite createStockMovement_products, Hp, Hty in Hin.
  destruct (clamped_rows_of _ _ _ _ _ (productById_id _ _ _ Hp) Hin)
    as [[_ Hne] | ->]; [contradiction|].
  apply andb_true_iff in Hlow as [_ Hpos]. apply Z.ltb_lt in Hpos.
  cbn [newQuantity Product.with_stockQuantity Product.stockQuantity] in Hpos.
  lia.
Qed.

Lemma sold_out_is_not_low_stock_witness :
  Forall (fun r => Product.id r <> "p1")
    (fst (getLowStockProducts None
            (snd (createStockMovement (Sample.movement Out 8 "Sale")
                                      SampleStats.stale)))).
Proof.
  apply (sold_out_is_not_low_stock (Sample.movement Out 8 "Sale")
           SampleStats.stale (Sample.shirt 8) None);
    [reflexivity | reflexivity | simpl; lia].
Defined.

(* ================================================================== *)
(** ** Discount codes *)
(* ================================================================== *)

(** X13. A created discount code can be looked up by its code: when
    neither the generated id nor the code is in use, [createDiscountCode]
    returns the new row, unused and with the amount as it was given, and
    [getDiscountCode] returns the same row. *)
Theorem createDiscountCode_round_trip (data : InsertDiscountCode.t) (w : World) :
  let id := entropy w (draws w) in
  let w' := snd (createDiscountCode data w) in
  discountCodeById id (db w) = None ->
  discountCodeByCode (InsertDiscountCode.code data) (db w) = None ->
  fst (createDiscountCode data w) = codeRow id data
  /\ fst (getDiscountCode (InsertDiscountCode.code data) w')
     = Some (codeRow id data).
Proof.
  cbv zeta. unfold discountCodeById, discountCodeByCode. intros Hid Hcode.
  apply first_None_nil in Hid. apply first_None_nil in Hcode.
  unfold createDiscountCode, getDiscountCode. run_monad.
  fold (codeRow (entropy w (draws w)) data).
  rewrite !select_insert, Hid, Hcode.
  unfold codeIdIs, codeIs. cbn [codeRow DiscountCode.id DiscountCode.code].
  rewrite !String.eqb_refl. split; reflexivity.
Qed.

Lemma createDiscountCode_round_trip_witness :
  fst (getDiscountCode "CREDIT-2"
         (snd (createDiscountCode
                 (InsertDiscountCode.mk "CREDIT-2" "bob@example.com" "12.50")
                 (SampleCredit.wallet "30.00"))))
  = Some (DiscountCode.mk "id-0" "CREDIT-2" "bob@example.com" "12.50" false).
Proof.
  exact (proj2 (createDiscountCode_round_trip
    (InsertDiscountCode.mk "CREDIT-2" "bob@example.com" "12.50")
    (SampleCredit.wallet "30.00") eq_refl eq_refl)).
Defined.

(** X14. [deleteDiscountCode] answers whether a code with the id
    existed; afterwards there is none, codes with other ids are
    untouched, and deleting the same id again answers [false]. *)
Theorem deleteDiscountCode_once (id : string) (w : World) :
  let w' := snd (deleteDiscountCode id w) in
  fst (deleteDiscountCode id w)
  = match discountCodeById id (db w) with Some _ => true | None => false end
  /\ discountCodeById id (db w') = None
  /\ (forall other, other <> id ->
        discountCodeById other (db w') = discountCodeById other (db w))
  /\ fst (deleteDiscountCode id w') = false.
Proof.
  cbv zeta. unfold deleteDiscountCode, discountCodeById. run_monad.
  rewrite !select_delete_same.
  split; [now destruct (select_where _ _)|].
  repeat split.
  intros other Hne. f_equal. apply select_delete_other.
  intros r. unfold codeIdIs. now apply eqb_other.
Qed.

Lemma In_same_key {A K} (key : A -> K) (t : list A) (a b : A) :
  NoDup (map key t) -> In a t -> In b t -> key a = key b -> a = b.
Proof.
  induction t as [|r t IH]; cbn; intros Hnd Ha Hb Hk; [destruct Ha|].
  inversion Hnd as [|? ? Hnotin Hnd']; subst.
  destruct Ha as [-> | Ha], Hb as [-> | Hb].
  - reflexivity.
  - destruct Hnotin. rewrite Hk. now apply in_map.
  - destruct Hnotin. rewrite <- Hk. now apply in_map.
  - now apply IH.
Qed.

Lemma select_nil {A} (c : A -> bool) (t : list A) :
  (forall r, In r t -> c r = false) -> select_where c t = [].
Proof.
  unfold select_where. induction t as [|r t IH]; cbn; intros H;
    [reflexivity|].
  rewrite (H r) by now left. apply IH. intros r' Hr'. apply H. now right.
Qed.

Section DiscountCodeRedemption.

Variable parseFloat : string -> JS.number.
Variable toFixed : JS.number -> nat -> string.

(** X15. Redeeming a code touches the rows that carry the id of the
    code that was found, and nothing else: rows with any other id are
    the same rows in the same order, every other table is unchanged,
    and no id is generated. *)
Theorem useDiscountCode_frame (code amountUsed : string) (w : World) :
  let w' := snd (useDiscountCode parseFloat toFixed code amountUsed w) in
  (forall id,
     (forall dc, discountCodeByCode code (db w) = Some dc ->
                 DiscountCode.id dc <> id) ->
     select_where (codeIdIs id) (discountCodes (db w'))
     = select_where (codeIdIs id) (discountCodes (db w)))
  /\ w' = mkWorld (set_discountCodes (fun _ => discountCodes (db w')) (db w))
                  (entropy w) (draws w) (year w) (month w).
Proof.
  cbv zeta. unfold useDiscountCode, getDiscountCode. run_monad.
  fold (discountCodeByCode code (db w)).
  assert (Hw : forall w0 : World,
    w0 = mkWorld (set_discountCodes (fun _ => discountCodes (db w0)) (db w0))
                 (entropy w0) (draws w0) (year w0) (month w0)).
  { intros [[] ? ? ? ?]. reflexivity. }
  destruct (discountCodeByCode code (db w)) as [dc|];
    [|split; [reflexivity | apply Hw]].
  destruct (JS.isNaN _ || JS.le _ JS.zero);
    [split; [reflexivity | apply Hw]|].
  destruct (JS.gt _ _); [split; [reflexivity | apply Hw]|].
  destruct (JS.le _ JS.lit_0_01); run_monad.
  - split; [|reflexivity]. intros id Hne. apply select_delete_other.
    intros r Hr. unfold codeIdIs in *. apply String.eqb_eq in Hr.
    apply String.eqb_neq. intros Heq. apply (Hne dc eq_refl). congruence.
  - split; [|reflexivity]. intros id Hne.
    unfold select_where, update_where.
    induction (discountCodes (db w)) as [|r t IH]; cbn; [reflexivity|].
    destruct (codeIdIs (DiscountCode.id dc) r) eqn:E.
    + unfold codeIdIs in *. cbn [DiscountCode.with_amount DiscountCode.id].
      apply String.eqb_eq in E.
      assert (Hf : String.eqb (DiscountCode.id r) id = false).
      { apply String.eqb_neq. intros Heq. apply (Hne dc eq_refl). congruence. }
      rewrite Hf. exact IH.
    + destruct (codeIdIs id r); [now rewrite IH | exact IH].
Qed.

Lemma useDiscountCode_deleted code amountUsed w :
  UseResult.wasDeleted
    (fst (useDiscountCode parseFloat toFixed code amountUsed w)) = true ->
  exists dc,
    discountCodeByCode code (db w) = Some dc
    /\ discountCodes
         (db (snd (useDiscountCode parseFloat toFixed code amountUsed w)))
       = delete_where (codeIdIs (DiscountCode.id dc)) (discountCodes (db w)).
Proof.
  unfold useDiscountCode, getDiscountCode. run_monad.
  fold (discountCodeByCode code (db w)).
  destruct (discountCodeByCode code (db w)) as [dc|] eqn:Hdc;
    [|discriminate].
  destruct (JS.isNaN _ || JS.le _ JS.zero); [discriminate|].
  destruct (JS.gt _ _); [discriminate|].
  destruct (JS.le _ JS.lit_0_01); run_monad; [|discriminate].
  intros _. now exists dc.
Qed.

Lemma useDiscountCode_not_found code amountUsed w :
  discountCodeByCode code (db w) = None ->
  useDiscountCode parseFloat toFixed code amountUsed w
  = (UseResult.mk None false false None, w).
Proof.
  unfold useDiscountCode, getDiscountCode, discountCodeByCode. run_monad.
  now intros ->.
Qed.

(** X16. A code that was redeemed in full is gone: with unique codes,
    when a redemption answers [wasDeleted], a second attempt on the same
    code, for any amount, answers that the code was not found and
    changes nothing. *)
Theorem redeemed_code_cannot_be_used_again
  (code amountUsed again : string) (w : World) :
  let first_use := useDiscountCode parseFloat toFixed code amountUsed w in
  let second_use := useDiscountCode parseFloat toFixed code again (snd first_use) in
  uniqueCodes (db w) = true ->
  UseResult.wasDeleted (fst first_use) = true ->
  fst second_use = UseResult.mk None false false None
  /\ snd second_use = snd first_use.
Proof.
  cbv zeta. intros Hu Hdel. apply distinct_NoDup in Hu.
  destruct (useDiscountCode_deleted _ _ _ Hdel) as (dc & Hdc & Hcodes).
  rewrite useDiscountCode_not_found; [split; reflexivity|].
  unfold discountCodeByCode. rewrite Hcodes.
  rewrite select_nil; [reflexivity|].
  intros r Hr.
  destruct (codeIs code r) eqn:Hc; [|reflexivity].
  pose proof (In_delete_where _ _ _ Hr) as Hid.
  unfold delete_where in Hr. apply filter_In in Hr as [Hin _].
  apply first_select_In in Hdc as [Hindc Hcdc].
  unfold codeIs in Hc, Hcdc.
  apply String.eqb_eq in Hc. apply String.eqb_eq in Hcdc.
  assert (r = dc) as -> by (apply (In_same_key DiscountCode.code
                                     (discountCodes (db w))); congruence).
  unfold codeIdIs in Hid. now rewrite String.eqb_refl in Hid.
Qed.

(** X17. [POST /api/discount-codes/:code/use]: a request that is
    refused changes nothing at all, and an amount that is not a positive
    number is refused by the handler whether or not the code exists, so
    that the storage layer's own message for such an amount is never
    the answer. *)
Theorem postUseDiscountCode_refusals (code amountUsed : string) (w : World) :
  let r := postUseDiscountCode parseFloat toFixed code amountUsed w in
  (refused (fst r) = true -> snd r = w)
  /\ (JS.isNaN (parseFloat amountUsed) = true
      \/ JS.gt (parseFloat amountUsed) JS.zero = false ->
      fst r = Invalid)
  /\ fst r <> Status400 "Amount used must be a positive number".
Proof.
  cbv zeta. unfold postUseDiscountCode, useDiscountCode, getDiscountCode.
  run_monad.
  destruct (JS.isNaN (parseFloat amountUsed)) eqn:Hnan; cbn [negb andb];
    [split; [reflexivity | split; [reflexivity | discriminate]]|].
  destruct (JS.gt (parseFloat amountUsed) JS.zero) eqn:Hpos; cbn [negb];
    [|split; [reflexivity | split; [reflexivity | discriminate]]].
  rewrite (positive_not_le_zero _ Hpos). cbn [orb].
  assert (Hprem : false = true \/ true = false -> False)
    by (intros [H|H]; discriminate).
  clear Hpos.
  destruct (first _) as [dc|]; run_monad.
  - destruct (JS.gt (parseFloat amountUsed)
                    (parseFloat (DiscountCode.amount dc))); run_monad.
    + split; [reflexivity|]. split; [intros H; destruct (Hprem H)|].
      cbn. intros H. discriminate H.
    + destruct (JS.le _ JS.lit_0_01); run_monad;
        (split; [discriminate|]);
        (split; [intros H; destruct (Hprem H) | discriminate]).
  - split; [reflexivity|].
    split; [intros H; destruct (Hprem H) | discriminate].
Qed.

End DiscountCodeRedemption.

Lemma redeemed_code_cannot_be_used_again_witness :
  fst (useDiscountCode JS.parseFloat JS.toFixed "CREDIT-1" "5.00"
         (snd (useDiscountCode JS.parseFloat JS.toFixed "CREDIT-1" "30.00"
                 (SampleCredit.wallet "30.00"))))
  = UseResult.mk None false false None.
Proof.
  exact (proj1 (redeemed_code_cannot_be_used_again JS.parseFloat JS.toFixed
    "CREDIT-1" "30.00" "5.00" (SampleCredit.wallet "30.00")
    eq_refl eq_refl)).
Defined.

(* ================================================================== *)
(** ** The product handlers *)
(* ================================================================== *)

Lemma NoDup_distinct ids : NoDup ids -> distinct ids = true.
Proof.
  induction 1 as [|id rest Hnotin _ IH]; cbn; [reflexivity|].
  rewrite IH, andb_true_r. apply negb_true_iff.
  destruct (existsb (String.eqb id) rest) eqn:E; [|reflexivity].
  apply existsb_exists in E as (x & Hin & Hx).
  apply String.eqb_eq in Hx. subst x. contradiction.
Qed.

Lemma productBySKU_None sku d r :
  productBySKU sku d = None -> In r (products d) -> Product.sku r <> sku.
Proof.
  unfold productBySKU. intros H Hin Hsku.
  assert (Hf : In r (select_where (fun p => String.eqb (Product.sku p) sku)
                                  (products d)))
    by (apply filter_In; split; [exact Hin | now apply String.eqb_eq]).
  destruct (select_where _ _); [destruct Hf | discriminate].
Qed.

Lemma update_none {A} (c : A -> bool) (set : A -> A) (t : list A) :
  (forall r, In r t -> c r = false) -> update_where c set t = t.
Proof.
  intros H. unfold update_where. rewrite <- (map_id t) at 2.
  apply map_ext_in. intros r Hin. now rewrite (H r Hin).
Qed.

Lemma update_keeps_ids pid x t :
  Product.id x = pid ->
  map Product.id (update_where (idIs pid) (fun _ => x) t) = map Product.id t.
Proof.
  intros Hx. unfold update_where. rewrite map_map. apply map_ext.
  intros r. destruct (idIs pid r) eqn:E; [|reflexivity].
  apply String.eqb_eq in E. congruence.
Qed.

(** Giving the product [pid] a SKU that no row carries keeps SKUs
    unique. *)
Lemma update_fresh_sku pid x t :
  NoDup (map Product.id t) -> NoDup (map Product.sku t) ->
  (forall r, In r t -> Product.sku r <> Product.sku x) ->
  NoDup (map Product.sku (update_where (idIs pid) (fun _ => x) t)).
Proof.
  induction t as [|r t IH]; cbn; intros Hid Hsku Hfresh; [constructor|].
  inversion Hid as [|? ? Hnotin Hid']; subst.
  inversion Hsku as [|? ? Hnotin' Hsku']; subst.
  fold (update_where (idIs pid) (fun _ => x) t).
  destruct (idIs pid r) eqn:E.
  - apply String.eqb_eq in E.
    rewrite update_none.
    + constructor; [|exact Hsku'].
      intros Hin. apply in_map_iff in Hin as (r' & Hr' & Hin).
      apply (Hfresh r'); [now right | exact Hr'].
    + intros r' Hin. apply String.eqb_neq. intros Heq.
      apply Hnotin. rewrite E, <- Heq. now apply in_map.
  - constructor; [|apply IH; auto].
    intros Hin. apply in_map_iff in Hin as (r' & Hr' & Hin).
    unfold update_where in Hin. apply in_map_iff in Hin as (r0 & Hr0 & Hin).
    destruct (idIs pid r0).
    + subst r'. apply (Hfresh r); [now left | congruence].
    + subst r'. apply Hnotin'. rewrite <- Hr'. now apply in_map.
Qed.

(** Overwriting the product [pid] with a row of the SKU it already has
    changes no SKU. *)
Lemma update_same_sku pid e x t :
  NoDup (map Product.id t) -> In e t -> Product.id e = pid ->
  Product.sku x = Product.sku e ->
  map Product.sku (update_where (idIs pid) (fun _ => x) t)
  = map Product.sku t.
Proof.
  intros Hid Hin He Hx. unfold update_where. rewrite map_map.
  apply map_ext_in. intros r Hr.
  destruct (idIs pid r) eqn:E; [|reflexivity].
  apply String.eqb_eq in E.
  assert (r = e) as -> by (apply (In_same_id t); congruence).
  exact Hx.
Qed.






Section ProductHandlers.

Variable parseFloat : string -> JS.number.
Variable toFixed : JS.number -> nat -> string.

Lemma postProduct_products data w :
  products (db (snd (postProduct parseFloat toFixed data w)))
  = match productBySKU (InsertProduct.sku data) (db w) with
    | Some _ => products (db w)
    | None =>
        (products (db w)
         ++ [InsertProduct.with_id data (entropy w (draws w))])%list
    end.
Proof.
  unfold postProduct, getProductBySKU. unfold bind at 1 2. unfold gets at 1.
  unfold ret at 1. cbn [db]. fold (productBySKU (InsertProduct.sku data) (db w)).
  destruct (productBySKU _ _); [reflexivity|].
  unfold bind at 1.
  destruct (createProduct data w) as [product w1] eqn:Ecreate.
  assert (Hp : products (db w1)
               = (products (db w)
                  ++ [InsertProduct.with_id data (entropy w (draws w))])%list).
  { pose proof (f_equal snd Ecreate) as H. cbn [snd] in H. now subst w1. }
  destruct (truthy (InsertProduct.costPrice data)) as [cost|];
    [|exact Hp].
  destruct (0 <? InsertProduct.stockQuantity data); [|exact Hp].
  run_monad.
  destruct (JS.gt _ JS.zero); run_monad; [exact Hp|].
  destruct (JS.lt _ JS.zero); run_monad; exact Hp.
Qed.

(** X19. [POST /api/products] keeps SKUs unique: starting from a
    product table without duplicate SKUs, the table after the request,
    accepted or refused, has none either. *)
Theorem postProduct_keeps_SKUs_unique (data : InsertProduct.t) (w : World) :
  uniqueSKUs (db w) = true ->
  uniqueSKUs (db (snd (postProduct parseFloat toFixed data w))) = true.
Proof.
  unfold uniqueSKUs. intros H. rewrite postProduct_products.
  destruct (productBySKU _ _) eqn:Hsku; [exact H|].
  apply NoDup_distinct. apply distinct_NoDup in H.
  rewrite map_app. cbn [map].
  apply NoDup_app; [exact H | repeat constructor; intros [] |].
  intros s Hin [<- | []].
  apply in_map_iff in Hin as (r & Hr & Hin).
  now apply (productBySKU_None _ _ r Hsku Hin).
Qed.

End ProductHandlers.

Lemma patchProduct_products id data w :
  products (db (snd (patchProduct id data w)))
  = match productBySKU (InsertProduct.sku data) (db w) with
    | Some existing =>
        if String.eqb (Product.id existing) id
        then update_where (idIs id)
               (fun _ => InsertProduct.with_id data id) (products (db w))
        else products (db w)
    | None =>
        update_where (idIs id)
          (fun _ => InsertProduct.with_id data id) (products (db w))
    end.
Proof.
  unfold patchProduct, getProductBySKU, productBySKU, updateProduct.
  run_monad.
  destruct (first (select_where _ (products (db w)))) as [existing|].
  - destruct (String.eqb (Product.id existing) id); cbn [negb];
      [|reflexivity].
    now destruct (first _).
  - now destruct (first _).
Qed.

(** X20. [PATCH /api/products/:id] keeps product ids and SKUs unique:
    starting from a product table without duplicate ids or SKUs, the
    table after the request has neither, whether the SKU of the body is
    new, is the product's own, or belongs to another product (in which
    case the request is refused). *)
Theorem patchProduct_keeps_SKUs_unique
  (id : string) (data : InsertProduct.t) (w : World) :
  let w' := snd (patchProduct id data w) in
  uniqueProductIds (db w) = true ->
  uniqueSKUs (db w) = true ->
  uniqueProductIds (db w') = true /\ uniqueSKUs (db w') = true.
Proof.
  cbv zeta. unfold uniqueProductIds, uniqueSKUs. intros Hid Hsku.
  rewrite patchProduct_products.
  pose proof (distinct_NoDup _ Hid) as Nid.
  pose proof (distinct_NoDup _ Hsku) as Nsku.
  destruct (productBySKU _ _) as [existing|] eqn:He.
  - destruct (String.eqb (Product.id existing) id) eqn:E; [|now split].
    apply String.eqb_eq in E.
    unfold productBySKU in He. apply first_select_In in He as [Hin Hs].
    apply String.eqb_eq in Hs.
    rewrite update_keeps_ids by apply with_id_id.
    rewrite (update_same_sku id existing) by (auto; now destruct data).
    now split.
  - rewrite update_keeps_ids by apply with_id_id.
    split; [exact Hid|]. apply NoDup_distinct.
    apply update_fresh_sku; [exact Nid | exact Nsku |].
    intros r Hin. destruct data. cbn.
    now apply (productBySKU_None _ _ r He Hin).
Qed.

Lemma patchProduct_keeps_SKUs_unique_witness :
  uniqueSKUs
    (db (snd (patchProduct "p2"
                (InsertProduct.mk "Hat" "SKU-1" "caps" "15.00" None 4)
                SampleStats.stale))) = true.
Proof.
  exact (proj2 (patchProduct_keeps_SKUs_unique "p2"
    (InsertProduct.mk "Hat" "SKU-1" "caps" "15.00" None 4)
    SampleStats.stale eq_refl eq_refl)).
Defined.

Lemma postProduct_keeps_SKUs_unique_witness :
  uniqueSKUs
    (db (snd (postProduct JS.parseFloat JS.toFixed
                (SampleProduct.dress "80.00" (Some "50.00") 3)
                SampleStats.stale))) = true.
Proof.
  exact (postProduct_keeps_SKUs_unique JS.parseFloat JS.toFixed
    (SampleProduct.dress "80.00" (Some "50.00") 3) SampleStats.stale eq_refl).
Defined.

(* ================================================================== *)
(** ** The validating handlers *)
(* ================================================================== *)

Lemma for_of_preserves_In {A B} (P : World -> Prop) (body : A -> M B) :
  forall xs,
    (forall x w, In x xs -> P w -> P (snd (body x w))) ->
    forall w, P w -> P (snd (for_of xs body w)).
Proof.
  induction xs as [|x xs IH]; intros Hbody w Hw; cbn [for_of].
  - exact Hw.
  - unfold bind, ret.
    pose proof (Hbody x w (or_introl eq_refl) Hw) as H1.
    destruct (body x w) as [b w1]. cbn [snd] in H1.
    assert (H2 : P (snd (for_of xs body w1))).
    { apply IH; [|exact H1]. intros y w0 Hy. apply Hbody. now right. }
    now destruct (for_of xs body w1).
Qed.

Lemma createStockMovement_productById im w p :
  productById (InsertStockMovement.productId im) (db w) = Some p ->
  productById (InsertStockMovement.productId im)
    (db (snd (createStockMovement im w)))
  = Some (Product.with_stockQuantity p
            (Z.max 0 (newQuantity (InsertStockMovement.type im)
                        (Product.stockQuantity p)
                        (InsertStockMovement.quantity im)))).
Proof.
  intros Hp. unfold productById at 1.
  rewrite createStockMovement_products, Hp.
  rewrite first_select_update
    by (intros; exact (productById_idIs _ _ _ Hp)).
  fold (productById (InsertStockMovement.productId im) (db w)).
  now rewrite Hp.
Qed.

(** X21. [POST /api/stock-movements] accepts no quantity below one, so
    an adjustment that it accepts for an existing product sets the stock
    to exactly the quantity sent, which is at least one: the handler
    cannot record an empty shelf by adjustment. *)
Theorem postStockMovement_adjustment_at_least_one
  (body : InsertStockMovement.t) (w : World) (p : Product.t) :
  let pid := InsertStockMovement.productId body in
  let r := postStockMovement body w in
  refused (fst r) = false ->
  InsertStockMovement.type body = Adjustment ->
  productById pid (db w) = Some p ->
  option_map Product.stockQuantity (productById pid (db (snd r)))
  = Some (InsertStockMovement.quantity body)
  /\ 1 <= InsertStockMovement.quantity body.
Proof.
  cbv zeta. unfold postStockMovement.
  destruct (validStockMovement body) eqn:Hvalid; cbn [negb];
    [|discriminate].
  intros _ Hty Hp. unfold bind, ret.
  pose proof (createStockMovement_productById body w p Hp) as H.
  destruct (createStockMovement body w) as [mv w1]. cbn [snd] in H |- *.
  unfold validStockMovement in Hvalid.
  repeat (apply andb_true_iff in Hvalid as [Hvalid ?]).
  assert (Hq : 1 <= InsertStockMovement.quantity body) by now apply Z.leb_le.
  split; [|exact Hq].
  rewrite H, Hty.
  cbn [option_map newQuantity Product.with_stockQuantity Product.stockQuantity].
  f_equal. lia.
Qed.

Lemma postStockMovement_adjustment_at_least_one_witness :
  option_map Product.stockQuantity
    (productById "p1"
       (db (snd (postStockMovement
                   (Sample.movement Adjustment 3 "Physical Count")
                   (Sample.shop 10)))))
  = Some 3.
Proof.
  exact (proj1 (postStockMovement_adjustment_at_least_one
    (Sample.movement Adjustment 3 "Physical Count") (Sample.shop 10)
    (Sample.shirt 10) eq_refl eq_refl eq_refl)).
Defined.

Lemma Forall2_map_same {A} (R : A -> A -> Prop) (f : A -> A) (t : list A) :
  (forall r, In r t -> R r (f r)) -> Forall2 R t (map f t).
Proof.
  induction t as [|r t IH]; cbn; intros H; constructor.
  - apply H. now left.
  - apply IH. intros r' Hr'. apply H. now right.
Qed.

Lemma noGain_trans t1 t2 t3 : noGain t1 t2 -> noGain t2 t3 -> noGain t1 t3.
Proof.
  unfold noGain. intros H. revert t3.
  induction H as [|a b t1 t2 [Hid Hq] _ IH]; intros t3 H23;
    inversion H23 as [|? c ? t3' [Hid' Hq'] Hrest]; subst; constructor.
  - split; [congruence | lia].
  - now apply IH.
Qed.

Lemma noGain_refl t : noGain t t.
Proof.
  unfold noGain. induction t; constructor; [split; [reflexivity | lia]|].
  assumption.
Qed.

Lemma restock_noGain pid p q t :
  NoDup (map Product.id t) ->
  first (select_where (idIs pid) t) = Some p ->
  q <= Product.stockQuantity p ->
  noGain t (update_where (idIs pid)
              (fun _ => Product.with_stockQuantity p q) t).
Proof.
  intros Hnd Hp Hq. unfold update_where. apply Forall2_map_same.
  intros r Hin. destruct (idIs pid r) eqn:E;
    [|split; [reflexivity | lia]].
  apply first_select_In in Hp as [Hinp Hidp].
  apply String.eqb_eq in E. apply String.eqb_eq in Hidp.
  assert (r = p) as -> by (apply (In_same_id t); congruence).
  split; [reflexivity | exact Hq].
Qed.

Lemma stockNonNegative_In d r :
  stockNonNegative d = true -> In r (products d) ->
  0 <= Product.stockQuantity r.
Proof.
  unfold stockNonNegative. intros H Hin.
  rewrite forallb_forall in H. now apply Z.leb_le, H.
Qed.

Lemma sale_step w0 id orderNumber x w :
  uniqueProductIds (db w0) = true ->
  1 <= InsertOrderItem.quantity x ->
  saleInvariant w0 w ->
  saleInvariant w0 (snd (createOrder_item id orderNumber x w)).
Proof.
  intros Hu Hq (Hc & Hn & Hg).
  pose proof (createOrder_item_products id orderNumber x w) as Hp.
  split; [|split].
  - apply (step_sameCatalogue (InsertOrderItem.productId x)
             (fun p => Z.max 0 (Product.stockQuantity p
                                - InsertOrderItem.quantity x
                                - InsertOrderItem.quantity x)) w0 w);
      [exact Hu | exact Hp | exact Hc].
  - now apply createOrder_item_nonneg.
  - eapply noGain_trans; [exact Hg|]. rewrite Hp.
    destruct (productById _ (db w)) as [p|] eqn:Ep; [|apply noGain_refl].
    apply restock_noGain; [| exact Ep |].
    + apply distinct_NoDup. apply (unique_of_catalogue (db w0)); assumption.
    + apply first_select_In in Ep as [Hin _].
      pose proof (stockNonNegative_In _ _ Hn Hin). lia.
Qed.

Section OrderHandler.

Variable insertOrderSchema : InsertOrder.t -> bool.

(** X22. An order that [POST /api/orders] accepts takes stock and never
    adds any: with unique product ids and no negative stock before, every
    product row is afterwards the same product with at most the stock it
    had. *)
Theorem postOrder_never_adds_stock
  (orderData : InsertOrder.t) (items : list InsertOrderItem.t) (w : World) :
  let r := postOrder insertOrderSchema orderData items w in
  uniqueProductIds (db w) = true ->
  stockNonNegative (db w) = true ->
  refused (fst r) = false ->
  noGain (products (db w)) (products (db (snd r))).
Proof.
  cbv zeta. intros Hu Hn. unfold postOrder.
  destruct (insertOrderSchema orderData); cbn [negb]; [|discriminate].
  destruct items as [|i items]; [discriminate|].
  destruct (forallb validOrderItem (i :: items)) eqn:Hvalid; cbn [negb];
    [|discriminate].
  intros _. unfold createOrder. run_monad.
  match goal with
  | |- context [for_of ?xs ?body ?w1] =>
      pose proof (for_of_preserves_In (saleInvariant w) body xs) as Hloop;
      specialize (fun H => Hloop H w1);
      destruct (for_of xs body w1) as [created w2]
  end.
  cbn [fst snd db products] in Hloop |- *.
  apply Hloop.
  - intros x w0 Hin Hinv. apply sale_step; [exact Hu | | exact Hinv].
    rewrite forallb_forall in Hvalid. specialize (Hvalid x Hin).
    unfold validOrderItem in Hvalid.
    repeat (apply andb_true_iff in Hvalid as [Hvalid ?]).
    now apply Z.leb_le.
  - split; [reflexivity|]. split; [exact Hn | apply noGain_refl].
Qed.

(** X23. A request that [POST /api/orders] or
    [POST /api/stock-movements] refuses changes nothing at all, not even
    the id generator; and an order without items is always refused. *)
Theorem validation_refusals_change_nothing
  (orderData : InsertOrder.t) (items : list InsertOrderItem.t)
  (body : InsertStockMovement.t) (w : World) :
  (refused (fst (postOrder insertOrderSchema orderData items w)) = true ->
   snd (postOrder insertOrderSchema orderData items w) = w)
  /\ (refused (fst (postStockMovement body w)) = true ->
      snd (postStockMovement body w) = w)
  /\ refused (fst (postOrder insertOrderSchema orderData [] w)) = true.
Proof.
  unfold postOrder, postStockMovement. split; [|split].
  - destruct (insertOrderSchema orderData); cbn [negb]; [|reflexivity].
    destruct items as [|i items]; [reflexivity|].
    destruct (forallb validOrderItem (i :: items)); cbn [negb];
      [|reflexivity].
    unfold bind, ret. destruct (createOrder _ _ w). discriminate.
  - destruct (validStockMovement body); cbn [negb]; [|reflexivity].
    unfold bind, ret. destruct (createStockMovement body w). discriminate.
  - now destruct (insertOrderSchema orderData).
Qed.

End OrderHandler.

Lemma postOrder_never_adds_stock_witness :
  noGain [Sample.shirt 10]
    (products (db (snd (postOrder (fun _ => true) Sample.order
                          [Sample.orderLine 3] (Sample.shop 10))))).
Proof.
  exact (postOrder_never_adds_stock (fun _ => true) Sample.order
           [Sample.orderLine 3] (Sample.shop 10) eq_refl eq_refl eq_refl).
Defined.

(* ================================================================== *)
(** ** Returns and store credit *)
(* ================================================================== *)

Lemma createReturn_item_discountCodes returnId returnNumber item w :
  discountCodes (db (snd (createReturn_item returnId returnNumber item w)))
  = discountCodes (db w).
Proof.
  unfold createReturn_item, getProduct, updateProduct,
    getStockStatsByProduct, updateStockStats.
  run_monad.
  destruct (first (select_where _ (products (db w)))) as [p|]; run_monad.
  - destruct (first _); run_monad;
      match goal with
      | |- context [createStockMovement ?im ?w1] =>
          pose proof (createStockMovement_sameHistory im w1) as Hh;
          destruct (createStockMovement im w1) as [mv w2]
      end; destruct Hh as (_ & _ & _ & _ & Hh & _); exact Hh.
  - match goal with
    | |- context [createStockMovement ?im ?w1] =>
        pose proof (createStockMovement_sameHistory im w1) as Hh;
        destruct (createStockMovement im w1) as [mv w2]
    end; destruct Hh as (_ & _ & _ & _ & Hh & _); exact Hh.
Qed.

Lemma createReturn_discountCodes data items w :
  discountCodes (db (snd (createReturn data items w))) = discountCodes (db w).
Proof.
  unfold createReturn. run_monad.
  match goal with
  | |- context [for_of items ?body ?w1] =>
      pose proof (for_of_preserves
        (fun w' => discountCodes (db w') = discountCodes (db w)) body) as Hloop;
      specialize (fun H => Hloop H items w1 eq_refl);
      destruct (for_of items body w1) as [created w2]
  end.
  apply Hloop. intros x w0 H0.
  now rewrite createReturn_item_discountCodes.
Qed.

Section ReturnHandler.

Variable parseFloat : string -> JS.number.
Variable toFixed : JS.number -> nat -> string.

Lemma postReturn_discountCodes returnData items w :
  exists id code,
    discountCodes (db (snd (postReturn parseFloat toFixed returnData items w)))
    = (discountCodes (db w)
       ++ match truthy (InsertReturn.creditAmount returnData),
                truthy (InsertReturn.customerEmail returnData) with
          | Some c, Some customerEmail =>
              if negb (String.eqb c "0") && JS.gt (parseFloat c) JS.zero
              then [DiscountCode.mk id code customerEmail
                      (toFixed (parseFloat c) 2) false]
              else []
          | _, _ => []
          end)%list.
Proof.
  unfold postReturn. unfold bind at 1.
  pose proof (createReturn_discountCodes returnData items w) as Hc.
  destruct (createReturn returnData items w) as [newReturn w1].
  cbn [snd] in Hc.
  exists (entropy w1 (S (S (draws w1)))).
  exists ("CREDIT-" ++ entropy w1 (draws w1) ++ "-" ++ entropy w1 (S (draws w1))).
  destruct (truthy (InsertReturn.creditAmount returnData)) as [c|].
  - destruct (String.eqb c "0"); cbn [negb andb].
    + change (JS.gt JS.zero JS.zero) with false. cbn [snd ret].
      rewrite Hc. destruct (truthy _); now rewrite app_nil_r.
    + destruct (JS.gt (parseFloat c) JS.zero).
      * destruct (truthy (InsertReturn.customerEmail returnData)) as [e|].
        -- unfold createDiscountCode. run_monad. now rewrite Hc.
        -- cbn [snd ret]. now rewrite Hc, app_nil_r.
      * cbn [snd ret]. rewrite Hc. destruct (truthy _); now rewrite app_nil_r.
  - change (JS.gt JS.zero JS.zero) with false. cbn [snd ret].
    now rewrite Hc, app_nil_r.
Qed.

Lemma truthy_Some s v : truthy s = Some v -> s = Some v /\ v <> "".
Proof.
  destruct s as [[|c s]|]; cbn; try discriminate.
  intros H. injection H as <-. split; [reflexivity | discriminate].
Qed.

(** X24. [POST /api/returns] mints at most one discount code and never
    touches the existing ones.  A minted code is unused, is addressed to
    the customer of the return and holds the credit amount of the
    request, which is a positive number, rendered with two decimals; no
    code is minted when the request carries no credit amount, the
    amount ["0"], or no customer address. *)
Theorem postReturn_mints_store_credit
  (returnData : InsertReturn.t) (items : list InsertReturnItem.t) (w : World) :
  let w' := snd (postReturn parseFloat toFixed returnData items w) in
  exists minted,
    discountCodes (db w') = (discountCodes (db w) ++ minted)%list
    /\ (List.length minted <= 1)%nat
    /\ Forall (creditCodeFor parseFloat toFixed returnData) minted
    /\ (noCreditDue returnData = true -> minted = []).
Proof.
  cbv zeta.
  destruct (postReturn_discountCodes returnData items w) as (id & code & H).
  eexists. split; [exact H|].
  unfold noCreditDue.
  destruct (truthy (InsertReturn.creditAmount returnData)) as [c|] eqn:Hc.
  - apply truthy_Some in Hc as [Hc Hne]. rewrite Hc.
    destruct (truthy (InsertReturn.customerEmail returnData)) as [e|] eqn:He.
    + apply truthy_Some in He as [He Hne']. rewrite He.
      destruct (String.eqb c "0") eqn:E0; cbn [negb andb];
        [repeat split; auto|].
      destruct (JS.gt (parseFloat c) JS.zero) eqn:Hpos;
        [|repeat split; auto].
      split; [cbn; lia|]. split.
      * constructor; [|constructor]. split; [exact He|].
        split; [reflexivity|]. exists c. now repeat split.
      * apply String.eqb_neq in Hne, Hne'. rewrite Hne, Hne'. discriminate.
    + repeat split; auto.
  - repeat split; auto.
Qed.

End ReturnHandler.

(* ================================================================== *)
(** ** The return dialog *)
(* ================================================================== *)

Section ReturnDialog.

Variable parseFloat : string -> JS.number.
Variable toFixed : JS.number -> nat -> string.

(** X25. [updateQuantity] keeps the quantity of the line it edits
    between zero and the quantity on the order (999 without an order
    line), takes a quantity inside these limits as it is, recomputes the
    subtotal of that line from its unit price, and leaves every other
    line as it was. *)
Theorem updateQuantity_clamps
  (order : option (Order.t * list OrderItem.t)) (productId : string)
  (newQuantity : Z) (items : list InsertReturnItem.t) :
  let limit := maxReturnable order productId in
  Forall2 (fun old new =>
             if String.eqb (InsertReturnItem.productId old) productId then
               0 <= InsertReturnItem.quantity new <= Z.max 0 limit
               /\ (0 <= newQuantity <= limit ->
                   InsertReturnItem.quantity new = newQuantity)
               /\ InsertReturnItem.productId new = productId
               /\ InsertReturnItem.unitPrice new = InsertReturnItem.unitPrice old
               /\ InsertReturnItem.subtotal new
                  = toFixed (JS.mul (JS.ofZ (InsertReturnItem.quantity new))
                               (parseFloat (InsertReturnItem.unitPrice old))) 2
             else new = old)
          items
          (updateQuantity parseFloat toFixed order productId newQuantity items).
Proof.
  cbv zeta. unfold updateQuantity. apply Forall2_map_same.
  intros r _. destruct (String.eqb (InsertReturnItem.productId r) productId) eqn:E;
    [|reflexivity].
  cbn [InsertReturnItem.quantity InsertReturnItem.productId
       InsertReturnItem.unitPrice InsertReturnItem.subtotal].
  fold (maxReturnable order productId).
  apply String.eqb_eq in E.
  repeat split; try reflexivity; try exact E; lia.
Qed.

Lemma itemsToReturn_nil items :
  Forall (fun i => InsertReturnItem.quantity i <= 0) items ->
  itemsToReturn items = [].
Proof.
  unfold itemsToReturn. induction 1 as [|i items Hi _ IH]; cbn;
    [reflexivity|].
  rewrite IH. destruct (0 <? InsertReturnItem.quantity i) eqn:E;
    [|reflexivity].
  apply Z.ltb_lt in E. lia.
Qed.

Lemma initialReturnItems_zero order :
  Forall (fun i => InsertReturnItem.quantity i <= 0) (initialReturnItems order).
Proof.
  unfold initialReturnItems. apply Forall_forall. intros i Hin.
  apply in_map_iff in Hin as (oi & <- & _). cbn. lia.
Qed.

(** X26. A dialog that was just opened cannot be submitted: every line
    starts at quantity zero, so the submit handler refuses, and it still
    refuses after any attempt to set a quantity of zero or less. *)
Theorem untouched_dialog_cannot_submit
  (data : InsertReturn.t) (order : Order.t * list OrderItem.t)
  (productId : string) (newQuantity : Z) (products : list Product.t) :
  newQuantity <= 0 ->
  onSubmit parseFloat toFixed data (initialReturnItems order) products = None
  /\ onSubmit parseFloat toFixed data
       (updateQuantity parseFloat toFixed (Some order) productId newQuantity
          (initialReturnItems order))
       products = None.
Proof.
  intros Hn. unfold onSubmit. split.
  - now rewrite itemsToReturn_nil by apply initialReturnItems_zero.
  - rewrite itemsToReturn_nil; [reflexivity|].
    pose proof (initialReturnItems_zero order) as H0.
    unfold updateQuantity. apply Forall_forall. intros i Hin.
    apply in_map_iff in Hin as (r & <- & Hr).
    rewrite Forall_forall in H0. specialize (H0 r Hr).
    destruct (String.eqb _ productId); [cbn; lia | exact H0].
Qed.

Lemma amountField_zero : amountField toFixed JS.zero = "0".
Proof. reflexivity. Qed.

(** X27. The body that the dialog posts names at most one money
    outcome: of the refund amount, the credit amount and the additional
    payment at least two are the string ["0"]; and it carries exactly
    the lines with a positive quantity, of which there is at least
    one. *)
Theorem onSubmit_payload
  (data : InsertReturn.t) (returnItems : list InsertReturnItem.t)
  (products : list Product.t)
  (payload : InsertReturn.t) (lines : list InsertReturnItem.t) :
  onSubmit parseFloat toFixed data returnItems products = Some (payload, lines) ->
  ((InsertReturn.refundAmount payload = Some "0"
    /\ InsertReturn.creditAmount payload = Some "0")
   \/ (InsertReturn.refundAmount payload = Some "0"
       /\ InsertReturn.additionalPayment payload = Some "0")
   \/ (InsertReturn.creditAmount payload = Some "0"
       /\ InsertReturn.additionalPayment payload = Some "0"))
  /\ lines = itemsToReturn returnItems
  /\ lines <> []
  /\ Forall (fun i => 0 < InsertReturnItem.quantity i) lines
  /\ InsertReturn.orderId payload = InsertReturn.orderId data
  /\ InsertReturn.customerEmail payload = InsertReturn.customerEmail data.
Proof.
  unfold onSubmit.
  destruct (itemsToReturn returnItems) as [|i rest] eqn:Hsel; [discriminate|].
  intros H. injection H as <- <-.
  cbn [InsertReturn.refundAmount InsertReturn.creditAmount
       InsertReturn.additionalPayment InsertReturn.orderId
       InsertReturn.customerEmail].
  split; [|split; [reflexivity | split; [discriminate | split; [|now split]]]].
  - pose proof (calculateTotals_outcome parseFloat returnItems products) as Ho.
    cbv zeta in Ho.
    destruct (JS.gt _ JS.zero);
      [destruct (JS.gt (JS.sub _ _) JS.zero);
         [|destruct (JS.lt (JS.sub _ _) JS.zero)]|];
      injection Ho as -> -> ->; rewrite ?amountField_zero; auto.
  - rewrite <- Hsel. unfold itemsToReturn. apply Forall_forall.
    intros x Hx. apply filter_In in Hx as [_ Hx]. now apply Z.ltb_lt.
Qed.

Lemma sumFrom_none {A} (value : A -> option JS.number) init items :
  Forall (fun i => value i = None) items -> sumFrom value init items = init.
Proof.
  unfold sumFrom. intros H. revert init.
  induction H as [|i items Hi _ IH]; intros init; cbn; [reflexivity|].
  now rewrite Hi, IH.
Qed.

Lemma noExchange_credit returnItems products :
  noExchange returnItems = true ->
  Totals.credit (calculateTotals parseFloat returnItems products) = JS.zero.
Proof.
  intros Hno.
  pose proof (calculateTotals_outcome parseFloat returnItems products) as Ho.
  destruct (calculateTotals_sums parseFloat returnItems products) as [_ HE].
  cbv zeta in Ho. rewrite HE in Ho.
  rewrite sumFrom_none in Ho.
  - change (JS.gt JS.zero JS.zero) with false in Ho. now injection Ho.
  - unfold noExchange in Hno. rewrite forallb_forall in Hno.
    apply Forall_forall. intros i Hi. unfold itemsToReturn in Hi.
    apply filter_In in Hi as [Hi _]. specialize (Hno i Hi).
    unfold exchangeValueOf. now destruct (truthy _).
Qed.

(** X28. A return without exchange never creates store credit: when no
    line of the dialog names an exchange product, the body it posts
    carries the credit amount ["0"], and the handler of
    [POST /api/returns] run on that body leaves the discount codes as
    they were. *)
Theorem return_without_exchange_mints_no_code
  (data : InsertReturn.t) (returnItems : list InsertReturnItem.t)
  (products : list Product.t)
  (payload : InsertReturn.t) (lines : list InsertReturnItem.t) (w : World) :
  noExchange returnItems = true ->
  onSubmit parseFloat toFixed data returnItems products = Some (payload, lines) ->
  InsertReturn.creditAmount payload = Some "0"
  /\ discountCodes (db (snd (postReturn parseFloat toFixed payload lines w)))
     = discountCodes (db w).
Proof.
  intros Hno Hsub.
  assert (Hcredit : InsertReturn.creditAmount payload = Some "0").
  { unfold onSubmit in Hsub.
    destruct (itemsToReturn returnItems); [discriminate|].
    injection Hsub as <- _. cbn [InsertReturn.creditAmount].
    now rewrite (noExchange_credit _ _ Hno). }
  split; [exact Hcredit|].
  destruct (postReturn_discountCodes parseFloat toFixed payload lines w)
    as (id & code & H).
  rewrite H, Hcredit. clear H.
  cbn [truthy String.eqb Ascii.eqb Bool.eqb negb andb].
  destruct (truthy (InsertReturn.customerEmail payload)); apply app_nil_r.
Qed.

Lemma setExchangeProduct_goods products productId exchangeProductId items :
  map returnedGoods
      (setExchangeProduct products productId exchangeProductId items)
  = map returnedGoods items.
Proof.
  unfold setExchangeProduct. rewrite map_map. apply map_ext.
  intros i. now destruct (String.eqb _ productId).
Qed.

Lemma itemsToReturn_goods items items' :
  map returnedGoods items' = map returnedGoods items ->
  map returnedGoods (itemsToReturn items')
  = map returnedGoods (itemsToReturn items).
Proof.
  unfold itemsToReturn. revert items'.
  induction items as [|i items IH]; intros [|i' items'] H;
    try discriminate; [reflexivity|].
  cbn [map] in H.
  assert (Hg : returnedGoods i' = returnedGoods i) by congruence.
  assert (Hrest : map returnedGoods items' = map returnedGoods items)
    by congruence.
  cbn [filter].
  assert (Hq : InsertReturnItem.quantity i' = InsertReturnItem.quantity i)
    by (unfold returnedGoods in Hg; congruence).
  rewrite Hq. destruct (0 <? InsertReturnItem.quantity i); cbn [map];
    [f_equal; [exact Hg|]|]; now apply IH.
Qed.

Lemma returnValue_goods items items' :
  map returnedGoods items' = map returnedGoods items ->
  forall init,
    sumFrom (returnValueOf parseFloat) init items'
    = sumFrom (returnValueOf parseFloat) init items.
Proof.
  unfold sumFrom, returnValueOf. revert items'.
  induction items as [|i items IH]; intros [|i' items'] H init;
    try discriminate; [reflexivity|].
  cbn [map] in H.
  assert (Hg : returnedGoods i' = returnedGoods i) by congruence.
  assert (Hrest : map returnedGoods items' = map returnedGoods items)
    by congruence.
  cbn [fold_left].
  assert (Hs : InsertReturnItem.subtotal i' = InsertReturnItem.subtotal i)
    by (unfold returnedGoods in Hg; congruence).
  rewrite Hs. now apply IH.
Qed.

(** X29. Choosing or clearing an exchange product changes nothing about
    the goods that come back: product, quantity, unit price and subtotal
    of every line stay as they are, and so does the return value that
    [calculateTotals] reports. *)
Theorem setExchangeProduct_keeps_return_value
  (products shown : list Product.t) (productId exchangeProductId : string)
  (items : list InsertReturnItem.t) :
  let items' := setExchangeProduct products productId exchangeProductId items in
  map returnedGoods items' = map returnedGoods items
  /\ Totals.total (calculateTotals parseFloat items' shown)
     = Totals.total (calculateTotals parseFloat items shown).
Proof.
  cbv zeta.
  pose proof (setExchangeProduct_goods products productId exchangeProductId
                items) as Hg.
  split; [exact Hg|].
  destruct (calculateTotals_sums parseFloat
              (setExchangeProduct products productId exchangeProductId items)
              shown) as [-> _].
  destruct (calculateTotals_sums parseFloat items shown) as [-> _].
  apply returnValue_goods. now apply itemsToReturn_goods.
Qed.

End ReturnDialog.

Lemma untouched_dialog_cannot_submit_witness :
  onSubmit JS.parseFloat JS.toFixed SampleDialog.form
    (updateQuantity JS.parseFloat JS.toFixed (Some SampleDialog.order)
       "p1" (-1) (initialReturnItems SampleDialog.order))
    [Sample.shirt 10]
  = None.
Proof.
  apply (untouched_dialog_cannot_submit JS.parseFloat JS.toFixed
           SampleDialog.form SampleDialog.order "p1" (-1) [Sample.shirt 10]).
  lia.
Defined.

Lemma onSubmit_payload_witness :
  itemsToReturn
    (updateQuantity JS.parseFloat JS.toFixed (Some SampleDialog.order)
       "p1" 2 (initialReturnItems SampleDialog.order))
  = [InsertReturnItem.mk "p1" "Shirt" "SKU-1" 2 "50.00" "100.00" None None].
Proof.
  symmetry.
  refine (proj1 (proj2 (onSubmit_payload JS.parseFloat JS.toFixed
    SampleDialog.form
    (updateQuantity JS.parseFloat JS.toFixed (Some SampleDialog.order)
       "p1" 2 (initialReturnItems SampleDialog.order))
    [Sample.shirt 10]
    (InsertReturn.mk "o1" (Some "ann@example.com") (Some "100.00")
       (Some "0") (Some "0") (Some "0"))
    _ _))).
  vm_compute. reflexivity.
Defined.

Lemma return_without_exchange_mints_no_code_witness :
  discountCodes
    (db (snd (postReturn JS.parseFloat JS.toFixed
                (InsertReturn.mk "o1" (Some "ann@example.com") (Some "100.00")
                   (Some "0") (Some "0") (Some "0"))
                [InsertReturnItem.mk "p1" "Shirt" "SKU-1" 2 "50.00" "100.00"
                   None None]
                (Sample.shop 8))))
  = [].
Proof.
  refine (proj2 (return_without_exchange_mints_no_code
    JS.parseFloat JS.toFixed SampleDialog.form
    (updateQuantity JS.parseFloat JS.toFixed (Some SampleDialog.order)
       "p1" 2 (initialReturnItems SampleDialog.order))
    [Sample.shirt 10] _ _ (Sample.shop 8) _ _)).
  - reflexivity.
  - vm_compute. reflexivity.
Defined.

(* ================================================================== *)
(** ** One line, counted twice *)
(* ================================================================== *)





